(** * Devconnector: authentication middleware, ownership checks and
      list-valued sub-resources of the posts and profile routers

    The development embeds the Express route handlers of
    [routes/api/users.js], [routes/api/posts.js], [routes/api/profile.js]
    and the [middleware/auth] function as functions over an in-memory
    document store.  Each handler is an [async] function whose body is a
    [try { ... } catch (e) { ... }]; the embedding keeps that shape: the
    body runs in a state-and-exception monad and [try_catch] plays the
    role of the JavaScript statement.

    Requests are served one at a time: an [await] never interleaves two
    handlers in this model.  Ids are compared in their string form, and
    the fields of a request body are strings, as the forms of the client
    send them.  The libraries the handlers call (jsonwebtoken, mongoose's
    id cast, express-validator, bcryptjs, gravatar, config) are taken as
    parameters, gathered in [Env]. *)

From Stdlib Require Import ZArith Ascii String.
From stdpp Require Import base tactics option list strings.

Local Open Scope string_scope.
Local Open Scope list_scope.
Local Open Scope Z_scope.

(** ** Documents *)

(** A mongoose [ObjectId], kept in its [toString()] form. *)
Definition ObjectId := string.

(** The identity carried by a token: [{ id }]. *)
Module Identity.
Record t := mk { id : string }.
End Identity.

(** An element of [post.likes] ([models/Post.js]). *)
Module Like.
Record t := mk { id : ObjectId; user : ObjectId; name : string }.
End Like.

(** An element of [post.comments] ([models/Post.js]); the [date] stamp is
    read by no route and is left out. *)
Module Comment.
Record t := mk {
  id : ObjectId; user : ObjectId; text : string; name : string; avatar : string }.

(** [comment.idnpm]: the schema declares no such path on a comment, so
    the property read yields [undefined] for every comment. *)
Definition idnpm (c : t) : option string := None.
End Comment.

(** A post document ([models/Post.js]).  The schema does not require
    [user], but the one route that creates posts always sets it. *)
Module Post.
Record t := mk {
  id : ObjectId; user : ObjectId; text : string; name : string; avatar : string;
  likes : list Like.t; comments : list Comment.t }.

Definition with_likes (p : t) (l : list Like.t) : t :=
  mk (id p) (user p) (text p) (name p) (avatar p) l (comments p).

Definition with_comments (p : t) (c : list Comment.t) : t :=
  mk (id p) (user p) (text p) (name p) (avatar p) (likes p) c.
End Post.

(** Modelled from the spec: the user schema ([models/User.js] is not in
    this source tree); a user record holds name, email, password hash and
    avatar URL, which are also the four paths the registration handler
    passes to [new User]. *)
Module User.
Record t := mk {
  id : ObjectId; name : string; email : string; password : string; avatar : string }.

Definition with_password (u : t) (h : string) : t :=
  mk (id u) (name u) (email u) h (avatar u).
End User.

(** Modelled from the spec: an element of [profile.experience] or
    [profile.education] ([models/Profile.js] is not in this source tree);
    it holds its generated id and the fields the handler copies from the
    request body. *)
Module Entry.
Record t := mk { id : ObjectId; fields : list (string * string) }.
End Entry.

(** Modelled from the spec: the profile schema ([models/Profile.js] is
    not in this source tree); a profile record belongs to a [user] and
    holds skills, an experience list and an education list.  [fields]
    stands for the scalar paths (status, skills, ...), which the routes
    below pass through untouched. *)
Module Profile.
Record t := mk {
  id : ObjectId; user : ObjectId; fields : list (string * string);
  experience : list Entry.t; education : list Entry.t }.

Definition with_experience (p : t) (l : list Entry.t) : t :=
  mk (id p) (user p) (fields p) l (education p).

Definition with_education (p : t) (l : list Entry.t) : t :=
  mk (id p) (user p) (fields p) (experience p) l.
End Profile.

(** The three collections, each in natural (insertion) order. *)
Record Store := mkStore {
  users : list User.t; profiles : list Profile.t; posts : list Post.t }.

Definition set_users (s : Store) (l : list User.t) : Store :=
  mkStore l (profiles s) (posts s).
Definition set_profiles (s : Store) (l : list Profile.t) : Store :=
  mkStore (users s) l (posts s).
Definition set_posts (s : Store) (l : list Post.t) : Store :=
  mkStore (users s) (profiles s) l.

(** ** Exceptions and responses *)

Inductive JsError :=
| TypeError (message : string)
| CastError (value : string)
| JsonWebTokenError (message : string)
| TokenExpiredError
| Error (message : string).

(** [e.kind]: only mongoose's cast error of an id carries ['ObjectId']. *)
Definition kind (e : JsError) : option string :=
  match e with CastError _ => Some "ObjectId" | _ => None end.

Inductive Body :=
| Msg (msg : string)
| Errors (msgs : list string)
| Token (token : string)
| Text (text : string)
| PostDoc (p : Post.t)
| LikeList (l : list Like.t)
| CommentList (l : list Comment.t)
| ProfileDoc (p : Profile.t).

Record Response := mkResponse { status : nat; body : Body }.

(** [res.status(code).json(b)], and [res.json(b)] for code 200. *)
Definition json (code : nat) (b : Body) : Response := mkResponse code b.
(** [res.status(code).send(text)]. *)
Definition send (code : nat) (text : string) : Response := mkResponse code (Text text).

(** ** The exception monad and the store monad *)

Inductive Res (A : Type) := Ok (a : A) | Throw (e : JsError).
Arguments Ok {A} a.
Arguments Throw {A} e.

#[global] Instance Res_ret : MRet Res := fun A a => Ok a.
#[global] Instance Res_bind : MBind Res := fun A B f m =>
  match m with Ok a => f a | Throw e => Throw e end.

(** A computation reads and writes the store and may throw; what was
    written before a throw stays written. *)
Definition M (A : Type) : Type := Store -> Res A * Store.

#[global] Instance M_ret : MRet M := fun A a s => (Ok a, s).
#[global] Instance M_bind : MBind M := fun A B f m s =>
  match m s with
  | (Ok a, s') => f a s'
  | (Throw e, s') => (Throw e, s')
  end.

Definition throw {A} (e : JsError) : M A := fun s => (Throw e, s).
Definition lift {A} (r : Res A) : M A := fun s => (r, s).
Definition get_store : M Store := fun s => (Ok s, s).
Definition put_store (s' : Store) : M unit := fun _ => (Ok tt, s').

(** [try { body } catch (e) { handler }]. *)
Definition try_catch {A} (body : M A) (handler : JsError -> M A) : M A := fun s =>
  match body s with
  | (Ok a, s') => (Ok a, s')
  | (Throw e, s') => handler e s'
  end.

(** ** JavaScript built-ins used by the handlers *)

(** [doc.path] on a query result: a [TypeError] when the document is
    [null] (or [req.user] is [undefined]). *)
Definition nonnull {D} (doc : option D) : Res D :=
  match doc with
  | Some d => Ok d
  | None => Throw (TypeError "Cannot read property of null")
  end.

(** [v.toString()]: a [TypeError] on [undefined]. *)
Definition toString (v : option string) : Res string :=
  match v with
  | Some s => Ok s
  | None => Throw (TypeError "Cannot read property 'toString' of undefined")
  end.

(** [l.filter(f)] for a callback that may throw. *)
Fixpoint filter_throwing {A} (f : A -> Res bool) (l : list A) : Res (list A) :=
  match l with
  | [] => Ok []
  | x :: l' =>
      b ← f x; ys ← filter_throwing f l';
      Ok (if b : bool then x :: ys else ys)
  end.

(** [l.map(f)] for a callback that may throw: stops at the first throw. *)
Fixpoint map_throwing {A B} (f : A -> Res B) (l : list A) : Res (list B) :=
  match l with
  | [] => Ok []
  | x :: l' => y ← f x; ys ← map_throwing f l'; Ok (y :: ys)
  end.

(** The scan of [indexOf], with the index of the head of [l] in [i]. *)
Fixpoint indexOf_from (l : list string) (x : string) (i : Z) : Z :=
  match l with
  | [] => -1
  | y :: l' => if String.eqb y x then i else indexOf_from l' x (i + 1)
  end.

(** [l.indexOf(x)]: the first index holding [x], or [-1]. *)
Definition indexOf (l : list string) (x : string) : Z := indexOf_from l x 0.

(** [l.splice(start, deleteCount)]: the array left behind.  A negative
    [start] counts from the end. *)
Definition splice {A} (l : list A) (start deleteCount : Z) : list A :=
  let len := Z.of_nat (length l) in
  let from := if start <? 0 then Z.max (len + start) 0 else Z.min start len in
  let count := Z.min (Z.max deleteCount 0) (len - from) in
  take (Z.to_nat from) l ++ drop (Z.to_nat (from + count)) l.

(** [!v] for a header or body value that is a string or [undefined]. *)
Definition falsy (v : option string) : bool :=
  match v with None => true | Some s => String.eqb s "" end.

(** [obj[k]] on an object with string values: [None] is [undefined]. *)
Fixpoint assoc (k : string) (l : list (string * string)) : option string :=
  match l with
  | [] => None
  | (k', v) :: l' => if String.eqb k' k then Some v else assoc k l'
  end.

(** The object literal [{ k1, k2, ... }] built from destructured body
    fields: the keys that are present, in the order listed. *)
Definition pick (keys : list string) (l : list (string * string)) : list (string * string) :=
  omap (fun k => match assoc k l with Some v => Some (k, v) | None => None end) keys.

(** ** Collections *)

(** [doc.save()] of a document that was loaded from the collection:
    the stored document with the same [_id] is replaced. *)
Fixpoint update {D} (key : D -> ObjectId) (d : D) (l : list D) : list D :=
  match l with
  | [] => []
  | x :: l' => if String.eqb (key x) (key d) then d :: l' else x :: update key d l'
  end.

(** Removal of the first document a query matches. *)
Fixpoint remove_first {D} (test : D -> bool) (l : list D) : list D :=
  match l with
  | [] => []
  | x :: l' => if test x then l' else x :: remove_first test l'
  end.

(** The query [{ key: id }]. *)
Definition has_id {D} (key : D -> ObjectId) (id : ObjectId) (d : D) : bool :=
  String.eqb (key d) id.

(** ** Collaborators and requests *)

(** The decoded token claim: [decoded.user] may be missing. *)
Record Payload := mkPayload { payload_user : option Identity.t }.

(** How [jwt.sign(payload, secret, options, callback)] reports back: it
    calls [callback(err)] before returning (its argument checks), or it
    returns and calls [callback(err)] or [callback(null, token)] from a
    later turn of the event loop (the signing stream). *)
Inductive SignOutcome :=
| SignFailSync (e : JsError)
| SignFailAsync (e : JsError)
| SignDone (token : string).

(** What the handlers take from outside this source tree. *)
Record Env := mkEnv {
  (** [config.get('jwtSecret')]; [None] when the key is not configured,
      in which case [config.get] throws *)
  jwtSecret : option string;
  (** [jwt.verify(token, secret)] *)
  jwt_verify : string -> string -> Res Payload;
  (** [jwt.sign(payload, secret, { expiresIn: 36000 }, callback)] *)
  jwt_sign : Payload -> string -> SignOutcome;
  (** whether mongoose can cast a string to an [ObjectId] *)
  is_ObjectId : string -> bool;
  (** express-validator's [isEmail] *)
  isEmail : string -> bool;
  (** [gravatar.url(email, { s: '200', r: 'pg', d: 'mm' })] *)
  gravatar_url : string -> string;
  (** [bcrypt.hash(password, await bcrypt.genSalt(10))] *)
  bcrypt_hash : string -> string }.

(** An HTTP request as the handlers see it. [new_oid] is the [ObjectId]
    the driver generates for the document or subdocument created while
    the request is served. *)
Module Req.
Record t := mk {
  x_auth_token : option string;
  user : option Identity.t;
  post_id : string; comment_id : string; exp_id : string; edu_id : string;
  body : list (string * string);
  new_oid : ObjectId }.

Definition with_user (r : t) (u : option Identity.t) : t :=
  mk (x_auth_token r) u (post_id r) (comment_id r) (exp_id r) (edu_id r)
     (body r) (new_oid r).

(** A body field as express-validator sees it: [undefined] reads as ['']. *)
Definition field (r : t) (k : string) : string := default "" (assoc k (body r)).
End Req.

(** What a handler has done with [res] when its body finishes:
    it has replied, or it has left a callback with the event loop. *)
Inductive Pending :=
| Replied (r : Response)
| Deferred (callback : Res Response).

(** What the client and the process observe. *)
Inductive Outcome :=
| Responded (r : Response)
| Uncaught (e : JsError).

(** A deferred callback runs outside every [try] of the handler. *)
Definition settle (p : Res Pending) : Outcome :=
  match p with
  | Ok (Replied r) => Responded r
  | Ok (Deferred (Ok r)) => Responded r
  | Ok (Deferred (Throw e)) => Uncaught e
  | Throw e => Uncaught e
  end.

Definition reply (r : Response) : M Pending := mret (Replied r).

(** What the middleware does with a request: it answers, or it calls
    [next()] on the request it has extended. *)
Inductive AuthDecision :=
| ShortCircuit (r : Response)
| Next (req : Req.t).

Section Handlers.

Variable env : Env.

(** [config.get('jwtSecret')] *)
Definition config_get_jwtSecret : Res string :=
  match jwtSecret env with
  | Some s => Ok s
  | None => Throw (Error "Configuration property jwtSecret is not defined")
  end.

(** *** middleware/auth *)

(** [module.exports = function (req, res, next)].  [Next req'] stands for
    the call [next()] after [req.user] was set; the handlers mounted
    behind the middleware are [async] functions, so that call itself
    throws nothing back into the [try]. *)
Definition auth (req : Req.t) : AuthDecision :=
  let token := Req.x_auth_token req in
  if falsy token then
    ShortCircuit (json 401 (Msg "No token, Authorization denied!"))
  else
    match (secret ← config_get_jwtSecret;
           decoded ← jwt_verify env (default "" token) secret;
           mret (Next (Req.with_user req (payload_user decoded)))) with
    | Ok next => next
    | Throw e => ShortCircuit (json 401 (Msg "Token is not valid!"))
    end.

(** A route registered as [router.verb(path, auth, handler)]. *)
Definition protected (handler : Req.t -> M Pending) (req : Req.t) : M Pending :=
  match auth req with
  | ShortCircuit r => reply r
  | Next req' => handler req'
  end.

(** *** Store access *)

(** The cast mongoose applies to an id it is queried with; a failure is a
    [CastError] of kind ['ObjectId'].  An id in [toString()] form is cast
    to itself.  A string that spells an id in another way (upper-case
    digits) is cast by mongoose to the id in [toString()] form; here it
    stays as it is, so what is said of a lookup that finds nothing is said
    for ids in [toString()] form. *)
Definition cast_ObjectId (v : string) : M ObjectId :=
  if is_ObjectId env v then mret v else throw (CastError v).

(** [req.user.id] *)
Definition req_user_id (req : Req.t) : Res string :=
  u ← nonnull (Req.user req); mret (Identity.id u).

(** [doc.save()] of a document made with [new]: an insert, which the
    database refuses when the [_id] is taken. *)
Definition insert {D} (key : D -> ObjectId) (d : D) (l : list D) : Res (list D) :=
  if existsb (has_id key (key d)) l then Throw (Error "E11000 duplicate key error")
  else Ok (l ++ [d]).

(** [User.findById(id)] *)
Definition User_findById (id : string) : M (option User.t) :=
  oid ← cast_ObjectId id; s ← get_store;
  mret (find (has_id User.id oid) (users s)).

(** [User.findOne({ email })] *)
Definition User_findOne_email (email : string) : M (option User.t) :=
  s ← get_store; mret (find (fun u => String.eqb (User.email u) email) (users s)).

(** [user.save()] for [user = new User(...)] *)
Definition User_save_new (u : User.t) : M unit :=
  s ← get_store; l ← lift (insert User.id u (users s)); put_store (set_users s l).

(** [User.findOneAndRemove({ _id: id })] *)
Definition User_findOneAndRemove_id (id : string) : M unit :=
  oid ← cast_ObjectId id; s ← get_store;
  put_store (set_users s (remove_first (has_id User.id oid) (users s))).

(** [Post.findById(id)] *)
Definition Post_findById (id : string) : M (option Post.t) :=
  oid ← cast_ObjectId id; s ← get_store;
  mret (find (has_id Post.id oid) (posts s)).

(** [newPost.save()] for [newPost = new Post(...)] *)
Definition Post_save_new (p : Post.t) : M unit :=
  s ← get_store; l ← lift (insert Post.id p (posts s)); put_store (set_posts s l).

(** [post.save()] for a post that was found *)
Definition Post_save (p : Post.t) : M unit :=
  s ← get_store; put_store (set_posts s (update Post.id p (posts s))).

(** [post.remove()] *)
Definition Post_remove (p : Post.t) : M unit :=
  s ← get_store;
  put_store (set_posts s (remove_first (has_id Post.id (Post.id p)) (posts s))).

(** [Profile.findOne({ user: uid })] *)
Definition Profile_findOne_user (uid : string) : M (option Profile.t) :=
  oid ← cast_ObjectId uid; s ← get_store;
  mret (find (has_id Profile.user oid) (profiles s)).

(** [profile.save()] for a profile that was found *)
Definition Profile_save (p : Profile.t) : M unit :=
  s ← get_store; put_store (set_profiles s (update Profile.id p (profiles s))).

(** [Profile.findOneAndRemove({ user: uid })] *)
Definition Profile_findOneAndRemove_user (uid : string) : M unit :=
  oid ← cast_ObjectId uid; s ← get_store;
  put_store (set_profiles s (remove_first (has_id Profile.user oid) (profiles s))).

(** [check(field, msg).not().isEmpty()] *)
Definition check_not_empty (req : Req.t) (k msg : string) : list string :=
  if String.eqb (Req.field req k) "" then [msg] else [].

(** *** routes/api/users.js: POST api/users *)

(** The three checks of the route and [validationResult(req).array()],
    reduced to the messages. *)
Definition validate_register (req : Req.t) : list string :=
  (check_not_empty req "name" "Name is required!"
   ++ (if isEmail env (Req.field req "email") then []
       else ["Please enter a valid email!"])
   ++ (if (6 <=? String.length (Req.field req "password"))%nat then []
       else ["Please enter a password with 6 or more characters!"])).

(** The callback handed to [jwt.sign]:
    [(e, token) => { if (e) throw e; res.json({ token }); }]. *)
Definition sign_callback (e : option JsError) (token : string) : Res Response :=
  match e with
  | Some e => Throw e
  | None => Ok (json 200 (Token token))
  end.

(** The handler of [router.post('/', [...checks], async (req, res) => ...)]. *)
Definition users_register (req : Req.t) : M Pending :=
  let errors := validate_register req in
  if negb (bool_decide (errors = [])) then reply (json 400 (Errors errors))
  else
    let name := Req.field req "name" in
    let email := Req.field req "email" in
    let password := Req.field req "password" in
    try_catch
      (user ← User_findOne_email email;
       match user with
       | Some _ => reply (json 400 (Errors ["User Already exists!"]))
       | None =>
           let avatar := gravatar_url env email in
           let user := User.mk (Req.new_oid req) name email password avatar in
           let user := User.with_password user (bcrypt_hash env password) in
           User_save_new user;;
           let payload := mkPayload (Some (Identity.mk (User.id user))) in
           secret ← lift config_get_jwtSecret;
           match jwt_sign env payload secret with
           | SignFailSync e => r ← lift (sign_callback (Some e) ""); reply r
           | SignFailAsync e => mret (Deferred (sign_callback (Some e) ""))
           | SignDone token => mret (Deferred (sign_callback None token))
           end
       end)
      (fun e => reply (send 500 "Server Error")).

(** *** routes/api/posts.js *)

(** POST api/posts *)
Definition posts_create (req : Req.t) : M Pending :=
  let errors := check_not_empty req "text" "Text is required!" in
  if negb (bool_decide (errors = [])) then reply (json 400 (Errors errors))
  else
    try_catch
      (uid ← lift (req_user_id req);
       found ← User_findById uid;
       user ← lift (nonnull found);
       uid' ← lift (req_user_id req);
       let newPost :=
         Post.mk (Req.new_oid req) uid' (Req.field req "text")
                 (User.name user) (User.avatar user) [] [] in
       Post_save_new newPost;;
       reply (json 200 (PostDoc newPost)))
      (fun e => reply (send 500 "Server Error!")).

(** DELETE api/posts/:post_id *)
Definition posts_delete (req : Req.t) : M Pending :=
  try_catch
    (found ← Post_findById (Req.post_id req);
     match found with
     | None => reply (json 404 (Msg "Post not Found!"))
     | Some post =>
         uid ← lift (req_user_id req);
         if negb (String.eqb (Post.user post) uid) then
           reply (json 401 (Msg "User not Authorized!"))
         else
           Post_remove post;;
           reply (json 200 (Msg "Post Removed!"))
     end)
    (fun e =>
       if bool_decide (kind e = Some "ObjectId") then
         reply (json 404 (Msg "Post not Found!"))
       else reply (send 500 "Server Error!")).

(** The callback [(like) => like.user.toString() === req.user.id]. *)
Definition liked_by (req : Req.t) (like : Like.t) : Res bool :=
  uid ← req_user_id req; mret (String.eqb (Like.user like) uid).

(** PUT api/posts/like/:post_id *)
Definition posts_like (req : Req.t) : M Pending :=
  try_catch
    (found ← Post_findById (Req.post_id req);
     uid ← lift (req_user_id req);
     found_user ← User_findById uid;
     post ← lift (nonnull found);
     mine ← lift (filter_throwing (liked_by req) (Post.likes post));
     if (0 <? length mine)%nat then
       reply (json 400 (Msg "Post already liked!"))
     else
       uid ← lift (req_user_id req);
       user ← lift (nonnull found_user);
       let likes := Like.mk (Req.new_oid req) uid (User.name user) :: Post.likes post in
       let post := Post.with_likes post likes in
       Post_save post;;
       reply (json 200 (LikeList (Post.likes post))))
    (fun e => reply (send 500 "Server Error!")).

(** PUT api/posts/unlike/:post_id *)
Definition posts_unlike (req : Req.t) : M Pending :=
  try_catch
    (found ← Post_findById (Req.post_id req);
     post ← lift (nonnull found);
     mine ← lift (filter_throwing (liked_by req) (Post.likes post));
     if (length mine =? 0)%nat then
       reply (json 400 (Msg "Post has not been liked yet!"))
     else
       uid ← lift (req_user_id req);
       let removeIndex := indexOf (Like.user <$> Post.likes post) uid in
       let post := Post.with_likes post (splice (Post.likes post) removeIndex 1) in
       Post_save post;;
       reply (json 200 (LikeList (Post.likes post))))
    (fun e => reply (send 500 "Server Error!")).

(** POST api/posts/comment/:post_id *)
Definition posts_comment (req : Req.t) : M Pending :=
  let errors := check_not_empty req "text" "Text is required!" in
  if negb (bool_decide (errors = [])) then reply (json 400 (Errors errors))
  else
    try_catch
      (uid ← lift (req_user_id req);
       found_user ← User_findById uid;
       found ← Post_findById (Req.post_id req);
       uid ← lift (req_user_id req);
       user ← lift (nonnull found_user);
       let newComment :=
         Comment.mk (Req.new_oid req) uid (Req.field req "text")
                    (User.name user) (User.avatar user) in
       post ← lift (nonnull found);
       let post := Post.with_comments post (newComment :: Post.comments post) in
       Post_save post;;
       reply (json 200 (CommentList (Post.comments post))))
      (fun e => reply (send 500 "Server Error!")).

(** DELETE api/posts/comment/:post_id/:comment_id *)
Definition posts_delete_comment (req : Req.t) : M Pending :=
  try_catch
    (found ← Post_findById (Req.post_id req);
     post ← lift (nonnull found);
     let comment :=
       find (fun comment => String.eqb (Comment.id comment) (Req.comment_id req))
            (Post.comments post) in
     match comment with
     | None => reply (json 404 (Msg "Comment does not exist!"))
     | Some comment =>
         uid ← lift (req_user_id req);
         if negb (String.eqb (Comment.user comment) uid) then
           reply (json 401 (Msg "User not Authorized!"))
         else
           ids ← lift (map_throwing (fun comment => toString (Comment.idnpm comment))
                                    (Post.comments post));
           let removeIndex := indexOf ids (Req.comment_id req) in
           let post := Post.with_comments post (splice (Post.comments post) removeIndex 1) in
           Post_save post;;
           reply (json 200 (CommentList (Post.comments post)))
     end)
    (fun e => reply (send 500 "Server Error!")).

(** *** routes/api/profile.js *)

(** DELETE api/profile *)
Definition profile_delete (req : Req.t) : M Pending :=
  try_catch
    (uid ← lift (req_user_id req);
     Profile_findOneAndRemove_user uid;;
     uid' ← lift (req_user_id req);
     User_findOneAndRemove_id uid';;
     reply (json 200 (Msg "User Removed!")))
    (fun e => reply (send 500 "Server Error")).

(** PUT api/profile/experience *)
Definition profile_add_experience (req : Req.t) : M Pending :=
  let errors :=
    (check_not_empty req "title" "Title is required!"
     ++ check_not_empty req "company" "Company name is required!"
     ++ check_not_empty req "from" "From Date is required!") in
  if negb (bool_decide (errors = [])) then reply (json 400 (Errors errors))
  else
    let newExp :=
      Entry.mk (Req.new_oid req)
        (pick ["title"; "company"; "from"; "to"; "location"; "current"; "description"]
              (Req.body req)) in
    try_catch
      (uid ← lift (req_user_id req);
       found ← Profile_findOne_user uid;
       profile ← lift (nonnull found);
       let profile := Profile.with_experience profile (newExp :: Profile.experience profile) in
       Profile_save profile;;
       reply (json 200 (ProfileDoc profile)))
      (fun e => reply (send 500 "Server Error!")).

(** DELETE api/profile/experience/:exp_id *)
Definition profile_delete_experience (req : Req.t) : M Pending :=
  try_catch
    (uid ← lift (req_user_id req);
     found ← Profile_findOne_user uid;
     profile ← lift (nonnull found);
     let removeIndex :=
       indexOf (Entry.id <$> Profile.experience profile) (Req.exp_id req) in
     let profile :=
       Profile.with_experience profile (splice (Profile.experience profile) removeIndex 1) in
     Profile_save profile;;
     reply (json 200 (ProfileDoc profile)))
    (fun e => reply (send 500 "Server Error!")).

(** PUT api/profile/education *)
Definition profile_add_education (req : Req.t) : M Pending :=
  let errors :=
    (check_not_empty req "school" "School is required!"
     ++ check_not_empty req "degree" "Degree is required!"
     ++ check_not_empty req "fieldofstudy" "Field of study is required!"
     ++ check_not_empty req "from" "From Date is required!") in
  if negb (bool_decide (errors = [])) then reply (json 400 (Errors errors))
  else
    let newEdu :=
      Entry.mk (Req.new_oid req)
        (pick ["school"; "degree"; "fieldofstudy"; "from"; "to"; "current"; "description"]
              (Req.body req)) in
    try_catch
      (uid ← lift (req_user_id req);
       found ← Profile_findOne_user uid;
       profile ← lift (nonnull found);
       let profile := Profile.with_education profile (newEdu :: Profile.education profile) in
       Profile_save profile;;
       reply (json 200 (ProfileDoc profile)))
      (fun e => reply (send 500 "Server Error!")).

(** DELETE api/profile/education/:edu_id *)
Definition profile_delete_education (req : Req.t) : M Pending :=
  try_catch
    (uid ← lift (req_user_id req);
     found ← Profile_findOne_user uid;
     profile ← lift (nonnull found);
     let removeIndex :=
       indexOf (Entry.id <$> Profile.education profile) (Req.edu_id req) in
     let profile :=
       Profile.with_education profile (splice (Profile.education profile) removeIndex 1) in
     Profile_save profile;;
     reply (json 200 (ProfileDoc profile)))
    (fun e => reply (send 500 "Server Error!")).

(** *** The router *)

Inductive Route :=
| UsersRegister
| PostsCreate | PostsDelete | PostsLike | PostsUnlike
| PostsComment | PostsDeleteComment
| ProfileDelete
| ProfileAddExperience | ProfileDeleteExperience
| ProfileAddEducation | ProfileDeleteEducation.

Definition handler_of (r : Route) : Req.t -> M Pending :=
  match r with
  | UsersRegister => users_register
  | PostsCreate => protected posts_create
  | PostsDelete => protected posts_delete
  | PostsLike => protected posts_like
  | PostsUnlike => protected posts_unlike
  | PostsComment => protected posts_comment
  | PostsDeleteComment => protected posts_delete_comment
  | ProfileDelete => protected profile_delete
  | ProfileAddExperience => protected profile_add_experience
  | ProfileDeleteExperience => protected profile_delete_experience
  | ProfileAddEducation => protected profile_add_education
  | ProfileDeleteEducation => protected profile_delete_education
  end.

(** One request, from arrival to the last callback it leaves behind. *)
Definition serve (r : Route) (req : Req.t) (s : Store) : Outcome * Store :=
  let (p, s') := handler_of r req s in (settle p, s').

End Handlers.

(** ** Properties the statements below are written with *)

(** The request carries a token that [jwt.verify] decodes to the
    identity [uid] under the configured secret. *)
Definition authenticates (env : Env) (req : Req.t) (uid : string) : Prop :=
  exists token secret,
    Req.x_auth_token req = Some token /\ token <> "" /\
    jwtSecret env = Some secret /\
    jwt_verify env token secret = Ok (mkPayload (Some (Identity.mk uid))).

(** [Post.findById(id)] and [Profile.findOne({ user })] once the id is cast. *)
Definition find_post (id : ObjectId) (s : Store) : option Post.t :=
  find (has_id Post.id id) (posts s).
Definition find_profile (uid : ObjectId) (s : Store) : option Profile.t :=
  find (has_id Profile.user uid) (profiles s).
Definition find_user (id : ObjectId) (s : Store) : option User.t :=
  find (has_id User.id id) (users s).

Definition find_comment (id : string) (p : Post.t) : option Comment.t :=
  find (fun comment => String.eqb (Comment.id comment) id) (Post.comments p).

(** Every route but the registration is behind [auth]. *)
Definition is_protected (r : Route) : Prop := r <> UsersRegister.

(** No user id occurs twice among the likes of the post. *)
Definition likes_unique (p : Post.t) : Prop := NoDup (Like.user <$> Post.likes p).

(** The user document a registration request creates, and the claim of
    the token issued for it. *)
Definition new_user (env : Env) (req : Req.t) : User.t :=
  User.mk (Req.new_oid req) (Req.field req "name") (Req.field req "email")
          (bcrypt_hash env (Req.field req "password"))
          (gravatar_url env (Req.field req "email")).
Definition new_payload (req : Req.t) : Payload :=
  mkPayload (Some (Identity.mk (Req.new_oid req))).

(** The handler has answered by the time its body finishes. *)
Definition is_reply (p : Pending) : Prop := exists r, p = Replied r.

(** The invariant of the posts collection. *)
Definition posts_ok (s : Store) : Prop := Forall likes_unique (posts s).

(** [keeps I m Q]: started in a store that satisfies [I], the computation
    [m] ends, normally or by a throw, in a store that satisfies [I]; a
    value it returns satisfies [Q]. *)
Definition keeps {A} (I : Store -> Prop) (m : M A) (Q : A -> Prop) : Prop :=
  forall s, I s ->
    match m s with
    | (Ok a, s') => I s' /\ Q a
    | (Throw _, s') => I s'
    end.

(** The stores the server can be in: it starts with no posts, and every
    request moves it on.  [POST api/profile], whose field-by-field
    construction is not embedded, writes to the profiles collection only
    and is covered by [reach_profiles]; the remaining routes of the
    application only read. *)
Inductive reachable (env : Env) : Store -> Prop :=
| reach_init s : posts s = [] -> reachable env s
| reach_serve r req s : reachable env s -> reachable env (snd (serve env r req s))
| reach_profiles s l : reachable env s -> reachable env (set_profiles s l).

(** ** A concrete deployment, for running the handlers *)

Module Demo.

Definition is_hex (c : Ascii.ascii) : bool :=
  let n := Ascii.nat_of_ascii c in
  (((48 <=? n) && (n <=? 57)) || ((97 <=? n) && (n <=? 102)))%nat.

(** 24 hexadecimal digits. *)
Definition is_ObjectId (s : string) : bool :=
  (String.length s =? 24)%nat && forallb is_hex (list_ascii_of_string s).

(** A stand-in codec: the token of [id] is ["jwt:" ++ id]; a token that
    starts with ["old:"] has expired; anything else is malformed. *)
Definition sign (p : Payload) (secret : string) : SignOutcome :=
  match payload_user p with
  | Some u => SignDone (String.append "jwt:" (Identity.id u))
  | None => SignFailSync (Error "payload is required")
  end.

Definition verify (token secret : string) : Res Payload :=
  if String.prefix "jwt:" token then
    Ok (mkPayload (Some (Identity.mk (String.substring 4 (String.length token - 4) token))))
  else if String.prefix "old:" token then Throw TokenExpiredError
  else Throw (JsonWebTokenError "jwt malformed").

Definition env : Env :=
  mkEnv (Some "mysecrettoken") verify sign is_ObjectId
        (fun s => existsb (Ascii.eqb "@"%char) (list_ascii_of_string s))
        (fun email => String.append "//www.gravatar.com/avatar/" email)
        (fun password => String.append "$2a$10$" password).

(** The same deployment with a signer whose stream fails after
    [jwt.sign] has returned. *)
Definition env_sign_fails_late : Env :=
  mkEnv (Some "mysecrettoken") verify
        (fun _ _ => SignFailAsync (Error "error:0909006C:PEM routines"))
        is_ObjectId
        (fun s => existsb (Ascii.eqb "@"%char) (list_ascii_of_string s))
        (fun email => String.append "//www.gravatar.com/avatar/" email)
        (fun password => String.append "$2a$10$" password).

Definition idA : ObjectId := "5e9f00000000000000000a01".
Definition idB : ObjectId := "5e9f00000000000000000b02".
Definition idP : ObjectId := "5e9f00000000000000000c03".
Definition idC : ObjectId := "5e9f00000000000000000d04".
Definition idE : ObjectId := "5e9f00000000000000000e05".
Definition idF : ObjectId := "5e9f00000000000000000f06".
Definition idN : ObjectId := "5e9f00000000000000000007".
Definition idQ : ObjectId := "5e9f00000000000000000008".

Definition alice : User.t := User.mk idA "Alice" "a@x.com" "$2a$10$secret1" "//www.gravatar.com/avatar/a@x.com".
Definition bob : User.t := User.mk idB "Bob" "b@x.com" "$2a$10$secret2" "//www.gravatar.com/avatar/b@x.com".

(** Alice's comment on Alice's post. *)
Definition comment1 : Comment.t := Comment.mk idC idA "first" "Alice" (User.avatar alice).
Definition post1 : Post.t := Post.mk idP idA "hello" "Alice" (User.avatar alice) [] [comment1].

Definition exp1 : Entry.t := Entry.mk idE [("title", "Engineer"); ("company", "Acme"); ("from", "2019-01-01")].
Definition exp2 : Entry.t := Entry.mk idF [("title", "Intern"); ("company", "Acme"); ("from", "2018-01-01")].
Definition edu1 : Entry.t := Entry.mk idE [("school", "MIT"); ("degree", "BSc"); ("fieldofstudy", "CS"); ("from", "2014-09-01")].
Definition profile1 : Profile.t := Profile.mk idQ idA [("status", "Developer")] [exp1; exp2] [edu1].

Definition store1 : Store := mkStore [alice; bob] [profile1] [post1].

(** A request from the holder of [id]'s token. *)
Definition request_as (id : string) (post_id comment_id exp_id edu_id : string) : Req.t :=
  Req.mk (Some (String.append "jwt:" id)) None post_id comment_id exp_id edu_id [] idN.

(** A request to publish [text], from the holder of [id]'s token; the
    new post gets the id [idP]. *)
Definition post_request (id text : string) : Req.t :=
  Req.mk (Some (String.append "jwt:" id)) None "" "" "" "" [("text", text)] idP.

Definition register_request (name email password : string) : Req.t :=
  Req.mk None None "" "" "" ""
         [("name", name); ("email", email); ("password", password)] idN.

(** Alice asks to delete her comment on her post. *)
Definition delete_comment1_as_A : Req.t := request_as idA idP idC "" "".
(** Alice asks to delete a comment of a post that does not exist. *)
Definition delete_comment_of_no_post : Req.t := request_as idA idN idC "" "".
(** Bob likes (or unlikes) Alice's post. *)
Definition like_post1_as_B : Req.t := request_as idB idP "" "" "".
(** Carol registers. *)
Definition register_carol : Req.t := register_request "Carol" "c@x.com" "secret3".

(** The server after Alice and Bob registered, Alice published a post
    and Bob liked it. *)
Definition store0 : Store := mkStore [alice; bob] [] [].
Definition store_posted : Store :=
  snd (serve env PostsCreate (post_request idA "hello") store0).
Definition store_liked : Store :=
  snd (serve env PostsLike (request_as idB idP "" "" "") store_posted).

End Demo.

(** ** Who a request is served for, and what it may write *)

(** The identity the middleware attaches to the request, when it lets the
    request through. *)
Definition caller (env : Env) (req : Req.t) : option string :=
  match auth env req with
  | Next req' =>
      match Req.user req' with
      | Some u => Some (Identity.id u)
      | None => None
      end
  | ShortCircuit _ => None
  end.

(** The writes the posts router makes to the posts collection on behalf
    of [uid]: a new post of [uid], the removal of a post of [uid], a like
    or a comment in the name of [uid] put in front, the removal of the
    first like of [uid]. *)
Inductive post_change (uid : string) (l : list Post.t) : list Post.t -> Prop :=
| change_create p :
    Post.user p = uid -> Post.likes p = [] -> Post.comments p = [] ->
    existsb (has_id Post.id (Post.id p)) l = false ->
    post_change uid l (l ++ [p])
| change_remove p :
    find (has_id Post.id (Post.id p)) l = Some p -> Post.user p = uid ->
    post_change uid l (remove_first (has_id Post.id (Post.id p)) l)
| change_like p like :
    find (has_id Post.id (Post.id p)) l = Some p ->
    Like.user like = uid -> uid ∉ (Like.user <$> Post.likes p) ->
    post_change uid l (update Post.id (Post.with_likes p (like :: Post.likes p)) l)
| change_unlike p :
    find (has_id Post.id (Post.id p)) l = Some p ->
    uid ∈ (Like.user <$> Post.likes p) ->
    post_change uid l
      (update Post.id
         (Post.with_likes p
            (splice (Post.likes p) (indexOf (Like.user <$> Post.likes p) uid) 1)) l)
| change_comment p c :
    find (has_id Post.id (Post.id p)) l = Some p -> Comment.user c = uid ->
    post_change uid l (update Post.id (Post.with_comments p (c :: Post.comments p)) l).

(** The writes the profile router makes to the profiles collection on
    behalf of [uid]: the first profile of [uid] saved with other entry
    lists, or removed. *)
Inductive profile_change (uid : string) (l : list Profile.t) : list Profile.t -> Prop :=
| change_save p p' :
    find (has_id Profile.user uid) l = Some p ->
    Profile.id p' = Profile.id p -> Profile.user p' = Profile.user p ->
    Profile.fields p' = Profile.fields p ->
    profile_change uid l (update Profile.id p' l)
| change_drop :
    profile_change uid l (remove_first (has_id Profile.user uid) l).

(** ** The read route of the posts router *)

(** ** Ids in [toString()] form

    [String(id)] of an [ObjectId] is its 24 hexadecimal digits, in lower
    case.  The ids of the stored documents are kept in this form, and so is
    the id a token carries.  A request may also spell an id with upper-case
    digits: mongoose casts such a string to the id whose [toString()] form
    differs from the string, so that only for a string in [toString()] form
    does "no stored document has this string as its id" mean that the
    lookup finds nothing. *)
Definition is_lower_hex (c : Ascii.ascii) : bool :=
  let n := Ascii.nat_of_ascii c in
  (((48 <=? n) && (n <=? 57)) || ((97 <=? n) && (n <=? 102)))%nat.

Definition is_toString_form (v : string) : bool :=
  (String.length v =? 24)%nat && forallb is_lower_hex (list_ascii_of_string v).

(** A profile as [.populate('user', ['name', 'avatar'])] returns it: the
    [user] path holds the [_id], [name] and [avatar] of the user it refers
    to, or [null] when no user has that id. *)
Module Populated.
Record t := mk {
  profile : Profile.t;
  user : option (ObjectId * string * string)
}.
End Populated.

Definition populate (s : Store) (p : Profile.t) : Populated.t :=
  Populated.mk p
    (match find (has_id User.id (Profile.user p)) (users s) with
     | Some u => Some (User.id u, User.name u, User.avatar u)
     | None => None
     end).

(** The replies of the routes that read profiles: [res.json(profile)],
    [res.json(profiles)], or a reply the other routes give too. *)
Inductive ReadReply :=
| OneProfile (p : Populated.t)
| AllProfiles (l : list Populated.t)
| Plain (r : Response).

Section MoreHandlers.

Variable env : Env.

(** GET api/posts/:post_id *)
Definition posts_get (req : Req.t) : M Pending :=
  try_catch
    (found ← Post_findById env (Req.post_id req);
     match found with
     | None => reply (json 404 (Msg "Post not Found!"))
     | Some post => reply (json 200 (PostDoc post))
     end)
    (fun e =>
       if bool_decide (kind e = Some "ObjectId") then
         reply (json 404 (Msg "Post not Found!"))
       else reply (send 500 "Server Error!")).

(** GET api/profile/me, behind [auth] *)
Definition profile_me (req : Req.t) : M ReadReply :=
  match auth env req with
  | ShortCircuit r => mret (Plain r)
  | Next req =>
      try_catch
        (uid ← lift (req_user_id req);
         found ← Profile_findOne_user env uid;
         s ← get_store;
         match found with
         | None => mret (Plain (json 400 (Msg "There is no profile for this user!")))
         | Some profile => mret (OneProfile (populate s profile))
         end)
        (fun e => mret (Plain (send 500 "Server Error")))
  end.

(** GET api/profile *)
Definition profile_all (req : Req.t) : M ReadReply :=
  try_catch
    (s ← get_store; mret (AllProfiles (populate s <$> profiles s)))
    (fun e => mret (Plain (send 500 "Server Error"))).

(** GET api/profile/user/:user_id *)
Definition profile_by_user (user_id : string) (req : Req.t) : M ReadReply :=
  try_catch
    (found ← Profile_findOne_user env user_id;
     s ← get_store;
     match found with
     | None => mret (Plain (json 400 (Msg "Profile not found!")))
     | Some profile => mret (OneProfile (populate s profile))
     end)
    (fun e =>
       if bool_decide (kind e = Some "ObjectId") then
         mret (Plain (json 400 (Msg "Profile not found!")))
       else mret (Plain (send 500 "Server Error"))).

End MoreHandlers.

(** A handler mounted on a route of its own, from the arrival of the
    request to the last callback. *)
Definition answer (handler : Req.t -> M Pending) (req : Req.t) (s : Store) : Outcome * Store :=
  let (p, s') := handler req s in (settle p, s').

(** ** More requests and stores to run the handlers on *)

(** ** The form of the client that adds an education

    [AddEducation] keeps two pieces of state: the form data and the flag
    that locks the [to] date.  Every text, date and textarea input calls
    [onChange] with its own name; the checkbox flips [current] and the
    flag.  A disabled input takes no input from the user, so it fires no
    change event. *)
Module AddEducation.

Record FormData := mkForm {
  school : string;
  degree : string;
  fieldofstudy : string;
  from : string;
  to : string;
  current : bool;
  description : string
}.

Record State := mkState { formData : FormData; toDateDisabled : bool }.

(** [useState({...})] and [useState(false)] *)
Definition initial : State := mkState (mkForm "" "" "" "" "" false "") false.

(** The [name] of the inputs wired to [onChange]. *)
Inductive Input := School | Degree | FieldOfStudy | From | To | Description.

(** [setFormData({ ...formData, [e.target.name]: e.target.value })] *)
Definition onChange (name : Input) (value : string) (st : State) : State :=
  let f := formData st in
  let f' :=
    match name with
    | School => mkForm value (degree f) (fieldofstudy f) (from f) (to f) (current f) (description f)
    | Degree => mkForm (school f) value (fieldofstudy f) (from f) (to f) (current f) (description f)
    | FieldOfStudy => mkForm (school f) (degree f) value (from f) (to f) (current f) (description f)
    | From => mkForm (school f) (degree f) (fieldofstudy f) value (to f) (current f) (description f)
    | To => mkForm (school f) (degree f) (fieldofstudy f) (from f) value (current f) (description f)
    | Description => mkForm (school f) (degree f) (fieldofstudy f) (from f) (to f) (current f) value
    end in
  mkState f' (toDateDisabled st).

(** The checkbox: [setFormData({ ...formData, current: !current });
    toggleDisabled(!toDateDisabled)] *)
Definition onToggle (st : State) : State :=
  let f := formData st in
  mkState (mkForm (school f) (degree f) (fieldofstudy f) (from f) (to f)
                  (negb (current f)) (description f))
          (negb (toDateDisabled st)).

(** What the user does to the form. *)
Inductive Event :=
| Change (name : Input) (value : string)
| ToggleCurrent.

(** [disabled={toDateDisabled ? 'disabled' : ''}] on the [to] input *)
Definition fires (st : State) (e : Event) : bool :=
  match e with
  | Change To _ => negb (toDateDisabled st)
  | _ => true
  end.

Definition step (st : State) (e : Event) : State :=
  if fires st e then
    match e with
    | Change name value => onChange name value st
    | ToggleCurrent => onToggle st
    end
  else st.

Definition run (events : list Event) : State := fold_left step events initial.

(** [onSubmit]: the form data handed to [addEducation]. *)
Definition submitted (events : list Event) : FormData := formData (run events).

Definition is_toggle (e : Event) : bool :=
  match e with ToggleCurrent => true | Change _ _ => false end.

End AddEducation.

Module Scenario.

(** Alice asks to delete her post. *)
Definition delete_post1_as_A : Req.t := Demo.request_as Demo.idA Demo.idP "" "" "".

(** Bob comments on Alice's post. *)
Definition comment_post1_as_B : Req.t :=
  Req.mk (Some (String.append "jwt:" Demo.idB)) None Demo.idP "" "" ""
         [("text", "nice")] Demo.idN.

(** Alice's post once Bob has liked it, and once Bob has also commented. *)
Definition post_liked : Post.t :=
  Post.mk Demo.idP Demo.idA "hello" "Alice" (User.avatar Demo.alice)
          [Like.mk Demo.idN Demo.idB "Bob"] [].
Definition post_commented : Post.t :=
  Post.with_comments post_liked
    [Comment.mk Demo.idN Demo.idB "nice" "Bob" (User.avatar Demo.bob)].

(** Alice likes her own post. *)
Definition like_post1_as_A : Req.t := Demo.request_as Demo.idA Demo.idP "" "" "".
Definition post_liked_twice : Post.t :=
  Post.with_likes post_liked
    [Like.mk Demo.idN Demo.idA "Alice"; Like.mk Demo.idN Demo.idB "Bob"].

(** Alice publishes a post, which gets the id [idP]; then asks for it. *)
Definition publish_as_A : Req.t := Demo.post_request Demo.idA "hello".
Definition post_published : Post.t :=
  Post.mk Demo.idP Demo.idA "hello" "Alice" (User.avatar Demo.alice) [] [].
Definition get_post1_as_B : Req.t := Demo.request_as Demo.idB Demo.idP "" "" "".

(** Bob likes a post that does not exist. *)
Definition like_no_post_as_B : Req.t := Demo.request_as Demo.idB Demo.idN "" "" "".

(** Alice adds an experience, which gets the id [idN], and an education;
    then asks to delete the entry [idN], or the entry [idF]. *)
Definition add_experience_as_A : Req.t :=
  Req.mk (Some (String.append "jwt:" Demo.idA)) None "" "" "" ""
         [("title", "Lead"); ("company", "Acme"); ("from", "2020-01-01");
          ("current", "true")] Demo.idN.
Definition add_education_as_A : Req.t :=
  Req.mk (Some (String.append "jwt:" Demo.idA)) None "" "" "" ""
         [("school", "ETH"); ("degree", "MSc"); ("fieldofstudy", "CS");
          ("from", "2016-09-01"); ("to", "2018-06-30")] Demo.idN.
Definition delete_entry_N_as_A : Req.t := Demo.request_as Demo.idA "" "" Demo.idN Demo.idN.
Definition delete_entry_F_as_A : Req.t := Demo.request_as Demo.idA "" "" Demo.idF Demo.idF.

(** Bob, who has no profile, asks the same; Bob asks to delete his account. *)
Definition delete_entry_N_as_B : Req.t := Demo.request_as Demo.idB "" "" Demo.idN Demo.idN.
Definition delete_account_as_B : Req.t := Demo.request_as Demo.idB "" "" "" "".
Definition delete_account_as_A : Req.t := Demo.request_as Demo.idA "" "" "" "".

(** The deployment of [Demo] with no [jwtSecret] configured. *)
Definition env_no_secret : Env :=
  mkEnv None (jwt_verify Demo.env) (jwt_sign Demo.env) (is_ObjectId Demo.env)
        (isEmail Demo.env) (gravatar_url Demo.env) (bcrypt_hash Demo.env).

(** Carol's record once she has registered, and the store then; a
    registration with a password of five characters; Carol publishing with
    the token she was given. *)
Definition carol : User.t :=
  User.mk Demo.idN "Carol" "c@x.com" "$2a$10$secret3" "//www.gravatar.com/avatar/c@x.com".
Definition store_with_carol : Store :=
  mkStore [Demo.alice; Demo.bob; carol] [Demo.profile1] [Demo.post1].
Definition register_short_password : Req.t := Demo.register_request "Dan" "d@x.com" "12345".
Definition publish_as_carol : Req.t :=
  Req.mk (Some "jwt:5e9f00000000000000000007") None "" "" "" ""
         [("text", "first post")] Demo.idQ.

(** Alice has published her post, and Bob has deleted his account since;
    the token he was given is still valid. *)
Definition store_bob_gone : Store :=
  snd (serve Demo.env ProfileDelete delete_account_as_B Demo.store_posted).
Definition post_hello : Post.t :=
  Post.mk Demo.idP Demo.idA "hello" "Alice" (User.avatar Demo.alice) [] [].

(** A registration with an empty name, no email and a short password. *)
Definition register_nothing : Req.t := Demo.register_request "" "nobody" "123".

(** The public profile routes are called without a token. *)
Definition anonymous : Req.t := Req.mk None None "" "" "" "" [] Demo.idQ.
Definition me_as_A : Req.t := Demo.request_as Demo.idA "" "" "" "".
Definition profile1_view : Populated.t :=
  Populated.mk Demo.profile1
    (Some (Demo.idA, User.name Demo.alice, User.avatar Demo.alice)).

End Scenario.


(** * Proofs *)

(** ** Lists and strings *)

Lemma eqb_false_of_ne (a b : string) : a <> b -> String.eqb a b = false.
Proof. intros H. by apply String.eqb_neq. Qed.

Lemma falsy_false (token : string) : token <> "" -> falsy (Some token) = false.
Proof. intros H. simpl. by apply eqb_false_of_ne. Qed.

Lemma find_of_elem {A} (f : A -> bool) (l : list A) (x : A) :
  x ∈ l -> f x = true -> exists y, find f l = Some y.
Proof.
  induction 1 as [x l | x y l _ IH]; intros Hx; simpl.
  - rewrite Hx. eauto.
  - destruct (f y); eauto.
Qed.

Lemma find_has {A} (f : A -> bool) (l : list A) (x : A) :
  find f l = Some x -> x ∈ l /\ f x = true.
Proof.
  induction l as [| y l IH]; simpl; [done |].
  destruct (f y) eqn:Hy.
  - intros [= ->]. split; [left | done].
  - intros H. destruct (IH H). split; [by right | done].
Qed.

(** ** The middleware *)

Section Middleware.

Variable env : Env.

Lemma auth_without_token req :
  falsy (Req.x_auth_token req) = true ->
  auth env req = ShortCircuit (json 401 (Msg "No token, Authorization denied!")).
Proof. intros H. unfold auth. by rewrite H. Qed.

Lemma auth_verify req token secret :
  Req.x_auth_token req = Some token -> token <> "" ->
  jwtSecret env = Some secret ->
  auth env req =
    match jwt_verify env token secret with
    | Ok decoded => Next (Req.with_user req (payload_user decoded))
    | Throw _ => ShortCircuit (json 401 (Msg "Token is not valid!"))
    end.
Proof.
  intros Ht Hne Hs. unfold auth, config_get_jwtSecret.
  rewrite Ht, (falsy_false _ Hne), Hs. simpl.
  by destruct (jwt_verify env token secret).
Qed.

(** With no secret configured, [config.get] throws inside the [try]. *)
Lemma auth_without_secret req token :
  Req.x_auth_token req = Some token -> token <> "" -> jwtSecret env = None ->
  auth env req = ShortCircuit (json 401 (Msg "Token is not valid!")).
Proof.
  intros Ht Hne Hs. unfold auth, config_get_jwtSecret.
  by rewrite Ht, (falsy_false _ Hne), Hs.
Qed.

Lemma auth_next req uid :
  authenticates env req uid ->
  auth env req = Next (Req.with_user req (Some (Identity.mk uid))).
Proof.
  intros (token & secret & Ht & Hne & Hs & Hv).
  by rewrite (auth_verify _ _ _ Ht Hne Hs), Hv.
Qed.

Lemma protected_next handler req uid :
  authenticates env req uid ->
  protected env handler req = handler (Req.with_user req (Some (Identity.mk uid))).
Proof. intros H. unfold protected. by rewrite (auth_next _ _ H). Qed.

Lemma protected_short handler req r s :
  auth env req = ShortCircuit r -> protected env handler req s = (Ok (Replied r), s).
Proof. intros H. unfold protected. by rewrite H. Qed.

Lemma req_user_id_with_user req uid :
  req_user_id (Req.with_user req (Some (Identity.mk uid))) = Ok uid.
Proof. reflexivity. Qed.

End Middleware.

(** ** Requests without a usable token *)

Lemma serve_short_circuit env r req resp s :
  is_protected r -> auth env req = ShortCircuit resp ->
  serve env r req s = (Responded resp, s).
Proof.
  intros Hr Ha. unfold serve.
  destruct r; try (by destruct Hr); simpl;
    by rewrite (protected_short _ _ _ _ _ Ha).
Qed.

(** C5: when the [x-auth-token] header is absent or empty, the middleware
    answers 401 with [{ msg: 'No token, Authorization denied!' }]; whatever
    handler is mounted behind it is not run (the reply and the untouched
    store do not depend on it), on every protected route. *)
Theorem missing_token_denied env req :
  Req.x_auth_token req = None \/ Req.x_auth_token req = Some "" ->
  auth env req = ShortCircuit (json 401 (Msg "No token, Authorization denied!"))
  /\ (forall handler s,
        protected env handler req s
        = (Ok (Replied (json 401 (Msg "No token, Authorization denied!"))), s))
  /\ (forall r s, is_protected r ->
        serve env r req s
        = (Responded (json 401 (Msg "No token, Authorization denied!")), s)).
Proof.
  intros H.
  assert (Ha : auth env req
               = ShortCircuit (json 401 (Msg "No token, Authorization denied!"))).
  { apply auth_without_token. by destruct H as [-> | ->]. }
  split; [done |]. split.
  - intros handler s. by apply protected_short.
  - intros r s Hr. by apply serve_short_circuit.
Qed.

Lemma missing_token_denied_witness :
  serve Demo.env PostsDelete
        (Req.mk None None Demo.idP "" "" "" [] Demo.idN) Demo.store1
  = (Responded (json 401 (Msg "No token, Authorization denied!")), Demo.store1)
  /\ serve Demo.env PostsLike
        (Req.mk (Some "") None Demo.idP "" "" "" [] Demo.idN) Demo.store1
  = (Responded (json 401 (Msg "No token, Authorization denied!")), Demo.store1).
Proof.
  split.
  - apply (missing_token_denied Demo.env
             (Req.mk None None Demo.idP "" "" "" [] Demo.idN)); [by left | discriminate].
  - apply (missing_token_denied Demo.env
             (Req.mk (Some "") None Demo.idP "" "" "" [] Demo.idN)); [by right | discriminate].
Defined.

(** C6: for a request that carries a token, any error thrown by
    [jwt.verify], of whatever kind, gives 401 with the one body
    [{ msg: 'Token is not valid!' }] and the handler behind the middleware
    is not run; when [jwt.verify] returns, [decoded.user] is stored in
    [req.user] and the handler runs on that request. *)
Theorem token_verification_decides env req token secret :
  Req.x_auth_token req = Some token -> token <> "" ->
  jwtSecret env = Some secret ->
  (forall e, jwt_verify env token secret = Throw e ->
     auth env req = ShortCircuit (json 401 (Msg "Token is not valid!"))
     /\ (forall handler s,
           protected env handler req s
           = (Ok (Replied (json 401 (Msg "Token is not valid!"))), s))
     /\ (forall r s, is_protected r ->
           serve env r req s = (Responded (json 401 (Msg "Token is not valid!")), s)))
  /\ (forall decoded, jwt_verify env token secret = Ok decoded ->
        auth env req = Next (Req.with_user req (payload_user decoded))
        /\ Req.user (Req.with_user req (payload_user decoded)) = payload_user decoded
        /\ (forall handler,
              protected env handler req
              = handler (Req.with_user req (payload_user decoded)))).
Proof.
  intros Ht Hne Hs.
  pose proof (auth_verify env req token secret Ht Hne Hs) as Ha.
  split.
  - intros e He. rewrite He in Ha. split; [done |]. split.
    + intros handler s. by apply protected_short.
    + intros r s Hr. by apply serve_short_circuit.
  - intros decoded Hd. rewrite Hd in Ha. split; [done |]. split; [done |].
    intros handler. unfold protected. by rewrite Ha.
Qed.

Lemma token_verification_decides_witness :
  auth Demo.env (Req.mk (Some "old:5e9f00000000000000000a01") None "" "" "" "" [] "")
  = ShortCircuit (json 401 (Msg "Token is not valid!"))
  /\ auth Demo.env (Req.mk (Some "not a token") None "" "" "" "" [] "")
  = ShortCircuit (json 401 (Msg "Token is not valid!"))
  /\ auth Demo.env (Req.mk (Some "jwt:5e9f00000000000000000a01") None "" "" "" "" [] "")
  = Next (Req.mk (Some "jwt:5e9f00000000000000000a01")
                 (Some (Identity.mk Demo.idA)) "" "" "" "" [] "").
Proof.
  split; [| split].
  - refine (proj1 (proj1 (token_verification_decides Demo.env
              (Req.mk (Some "old:5e9f00000000000000000a01") None "" "" "" "" [] "")
              "old:5e9f00000000000000000a01" "mysecrettoken" _ _ _)
              TokenExpiredError _)); [reflexivity | discriminate | reflexivity | reflexivity].
  - refine (proj1 (proj1 (token_verification_decides Demo.env
              (Req.mk (Some "not a token") None "" "" "" "" [] "")
              "not a token" "mysecrettoken" _ _ _)
              (JsonWebTokenError "jwt malformed") _));
      [reflexivity | discriminate | reflexivity | reflexivity].
  - refine (proj1 (proj2 (token_verification_decides Demo.env
              (Req.mk (Some "jwt:5e9f00000000000000000a01") None "" "" "" "" [] "")
              "jwt:5e9f00000000000000000a01" "mysecrettoken" _ _ _)
              (mkPayload (Some (Identity.mk Demo.idA))) _));
      [reflexivity | discriminate | reflexivity | reflexivity].
Defined.

(** ** Registration *)

Lemma register_body env req s :
  validate_register env req = [] ->
  users_register env req s
  = try_catch
      (user ← User_findOne_email (Req.field req "email");
       match user with
       | Some _ => reply (json 400 (Errors ["User Already exists!"]))
       | None =>
           let user :=
             User.mk (Req.new_oid req) (Req.field req "name") (Req.field req "email")
                     (bcrypt_hash env (Req.field req "password"))
                     (gravatar_url env (Req.field req "email")) in
           User_save_new user;;
           secret ← lift (config_get_jwtSecret env);
           match jwt_sign env (mkPayload (Some (Identity.mk (Req.new_oid req)))) secret with
           | SignFailSync e => r ← lift (sign_callback (Some e) ""); reply r
           | SignFailAsync e => mret (Deferred (sign_callback (Some e) ""))
           | SignDone token => mret (Deferred (sign_callback None token))
           end
       end)
      (fun e => reply (send 500 "Server Error")) s.
Proof. intros H. unfold users_register. by rewrite H. Qed.

(** C7: a registration whose fields pass validation and whose email is
    the email of a stored user is answered 400 with
    [{ errors: [{ msg: 'User Already exists!' }] }], and the store is left
    as it was. *)
Theorem register_existing_email env req s u :
  validate_register env req = [] ->
  u ∈ users s -> User.email u = Req.field req "email" ->
  serve env UsersRegister req s
  = (Responded (json 400 (Errors ["User Already exists!"])), s).
Proof.
  intros Hv Hu He.
  destruct (find_of_elem (fun u => String.eqb (User.email u) (Req.field req "email"))
              (users s) u Hu) as [u' Hf].
  { rewrite He. apply String.eqb_refl. }
  unfold serve, handler_of. rewrite (register_body _ _ _ Hv).
  unfold try_catch, User_findOne_email, mbind, M_bind, get_store, mret, M_ret.
  by rewrite Hf.
Qed.

Lemma register_existing_email_witness :
  serve Demo.env UsersRegister
        (Demo.register_request "Alice" "a@x.com" "secret1") Demo.store1
  = (Responded (json 400 (Errors ["User Already exists!"])), Demo.store1).
Proof.
  apply (register_existing_email Demo.env
           (Demo.register_request "Alice" "a@x.com" "secret1") Demo.store1 Demo.alice).
  - reflexivity.
  - left.
  - reflexivity.
Defined.

(** ** Running a handler body *)

Lemma bind_run {A B} (m : M A) (f : A -> M B) (s : Store) :
  (m ≫= f) s
  = match m s with (Ok a, s') => f a s' | (Throw e, s') => (Throw e, s') end.
Proof. reflexivity. Qed.

Lemma lift_run {A} (r : Res A) (s : Store) : lift r s = (r, s).
Proof. reflexivity. Qed.

Lemma Post_findById_run env id s :
  Post_findById env id s
  = if is_ObjectId env id then (Ok (find_post id s), s) else (Throw (CastError id), s).
Proof. unfold Post_findById, cast_ObjectId. rewrite bind_run. by destruct (is_ObjectId env id). Qed.

Lemma User_findById_run env id s :
  User_findById env id s
  = if is_ObjectId env id then (Ok (find_user id s), s) else (Throw (CastError id), s).
Proof. unfold User_findById, cast_ObjectId. rewrite bind_run. by destruct (is_ObjectId env id). Qed.

Lemma Profile_findOne_user_run env uid s :
  Profile_findOne_user env uid s
  = if is_ObjectId env uid then (Ok (find_profile uid s), s) else (Throw (CastError uid), s).
Proof.
  unfold Profile_findOne_user, cast_ObjectId. rewrite bind_run.
  by destruct (is_ObjectId env uid).
Qed.

Lemma Post_save_run p s :
  Post_save p s = (Ok tt, set_posts s (update Post.id p (posts s))).
Proof. reflexivity. Qed.

Lemma Profile_save_run p s :
  Profile_save p s = (Ok tt, set_profiles s (update Profile.id p (profiles s))).
Proof. reflexivity. Qed.

Lemma Post_remove_run p s :
  Post_remove p s = (Ok tt, set_posts s (remove_first (has_id Post.id (Post.id p)) (posts s))).
Proof. reflexivity. Qed.

(** Runs the store operations at the head of the goal. *)
Ltac run :=
  repeat (progress (rewrite ?bind_run, ?lift_run, ?Post_findById_run, ?User_findById_run,
                      ?Profile_findOne_user_run, ?Post_save_run, ?Profile_save_run,
                      ?Post_remove_run, ?req_user_id_with_user; simpl)).

(** Unfolds the handler of an authenticated request down to the store
    operations. *)
Ltac run_handler :=
  unfold serve, handler_of;
  repeat match goal with
         | H : authenticates _ _ _ |- _ => rewrite (protected_next _ _ _ _ H)
         end;
  unfold posts_delete, posts_delete_comment, posts_like, posts_unlike,
    profile_delete_experience, profile_delete_education, try_catch;
  run.

(** ** Deletion by somebody else *)

(** C3: a request to delete an existing post, or an existing comment,
    that comes from an identity other than the one the resource names in
    [user] is answered 401 with [{ msg: 'User not Authorized!' }],
    whatever the request body holds, and the store is left as it was. *)
Theorem delete_by_other_rejected env req s a b :
  authenticates env req b -> a <> b ->
  is_ObjectId env (Req.post_id req) = true ->
  (forall post,
      find_post (Req.post_id req) s = Some post -> Post.user post = a ->
      serve env PostsDelete req s
      = (Responded (json 401 (Msg "User not Authorized!")), s))
  /\ (forall post comment,
        find_post (Req.post_id req) s = Some post ->
        find_comment (Req.comment_id req) post = Some comment ->
        Comment.user comment = a ->
        serve env PostsDeleteComment req s
        = (Responded (json 401 (Msg "User not Authorized!")), s)).
Proof.
  intros Hauth Hne Hoid. split.
  - intros post Hp Hu. run_handler. rewrite Hoid, Hp. run.
    by rewrite Hu, (eqb_false_of_ne _ _ Hne).
  - intros post comment Hp Hc Hu. run_handler. rewrite Hoid, Hp. run.
    unfold find_comment in Hc. rewrite Hc. run.
    by rewrite Hu, (eqb_false_of_ne _ _ Hne).
Qed.

Lemma demo_authenticates_A post_id comment_id exp_id edu_id :
  authenticates Demo.env (Demo.request_as Demo.idA post_id comment_id exp_id edu_id) Demo.idA.
Proof.
  exists "jwt:5e9f00000000000000000a01", "mysecrettoken".
  repeat split. discriminate.
Defined.

Lemma demo_authenticates_B post_id comment_id exp_id edu_id :
  authenticates Demo.env (Demo.request_as Demo.idB post_id comment_id exp_id edu_id) Demo.idB.
Proof.
  exists "jwt:5e9f00000000000000000b02", "mysecrettoken".
  repeat split. discriminate.
Defined.

Lemma demo_A_is_not_B : Demo.idA <> Demo.idB.
Proof. discriminate. Defined.

Lemma delete_by_other_rejected_witness :
  serve Demo.env PostsDelete (Demo.request_as Demo.idB Demo.idP "" "" "") Demo.store1
  = (Responded (json 401 (Msg "User not Authorized!")), Demo.store1)
  /\ serve Demo.env PostsDeleteComment
       (Demo.request_as Demo.idB Demo.idP Demo.idC "" "") Demo.store1
  = (Responded (json 401 (Msg "User not Authorized!")), Demo.store1).
Proof.
  split.
  - apply (proj1 (delete_by_other_rejected Demo.env
                    (Demo.request_as Demo.idB Demo.idP "" "" "") Demo.store1
                    Demo.idA Demo.idB (demo_authenticates_B _ _ _ _)
                    demo_A_is_not_B eq_refl) Demo.post1); reflexivity.
  - apply (proj2 (delete_by_other_rejected Demo.env
                    (Demo.request_as Demo.idB Demo.idP Demo.idC "" "") Demo.store1
                    Demo.idA Demo.idB (demo_authenticates_B _ _ _ _)
                    demo_A_is_not_B eq_refl) Demo.post1 Demo.comment1); reflexivity.
Defined.

(** ** [indexOf], [splice] and [save] *)

Lemma indexOf_from_absent (l : list string) (x : string) (i : Z) :
  x ∉ l -> indexOf_from l x i = -1.
Proof.
  revert i. induction l as [| y l IH]; intros i Hx; simpl; [done |].
  rewrite eqb_false_of_ne.
  - apply IH. intros Hin. apply Hx. by right.
  - intros ->. apply Hx. left.
Qed.

Lemma indexOf_absent (l : list string) (x : string) : x ∉ l -> indexOf l x = -1.
Proof. apply indexOf_from_absent. Qed.

Lemma indexOf_head (l : list string) (x : string) : indexOf (x :: l) x = 0.
Proof. unfold indexOf. simpl. by rewrite String.eqb_refl. Qed.

Lemma splice_last {A} (l : list A) : l <> [] -> splice l (-1) 1 = removelast l.
Proof.
  intros Hl. unfold splice.
  assert (Hlen : (0 < length l)%nat) by (destruct l; [done | simpl; lia]).
  replace (-1 <? 0) with true by done.
  rewrite Z.max_l by lia.
  replace (Z.min (Z.max 1 0) (Z.of_nat (length l) - (Z.of_nat (length l) + -1)))
    with 1 by lia.
  replace (Z.to_nat (Z.of_nat (length l) + -1 + 1)) with (length l) by lia.
  replace (Z.to_nat (Z.of_nat (length l) + -1)) with (pred (length l)) by lia.
  rewrite drop_all, app_nil_r. symmetry. apply removelast_firstn_len.
Qed.

Lemma splice_head {A} (x : A) (l : list A) : splice (x :: l) 0 1 = l.
Proof.
  unfold splice. simpl length.
  replace (0 <? 0) with false by done.
  rewrite Z.min_l by lia.
  replace (Z.min (Z.max 1 0) (Z.of_nat (S (length l)) - 0)) with 1 by lia.
  reflexivity.
Qed.

Lemma splice_sublist {A} (l : list A) (start deleteCount : Z) :
  splice l start deleteCount `sublist_of` l.
Proof.
  unfold splice.
  set (len := Z.of_nat (length l)).
  set (from := if start <? 0 then Z.max (len + start) 0 else Z.min start len).
  assert (Hfrom : 0 <= from <= len)
    by (subst from len; destruct (Z.ltb_spec start 0); lia).
  clearbody from.
  set (count := Z.min (Z.max deleteCount 0) (len - from)).
  assert (Hcount : 0 <= count) by (subst count; lia).
  rewrite <- (take_drop (Z.to_nat from) l) at 3.
  apply sublist_app; [done |].
  replace (Z.to_nat (from + count)) with (Z.to_nat from + Z.to_nat count)%nat by lia.
  rewrite <- drop_drop. apply sublist_drop.
Qed.

Lemma find_update {D} (key : D -> ObjectId) (id : ObjectId) (d d' : D) (l : list D) :
  find (has_id key id) l = Some d -> key d' = id ->
  find (has_id key id) (update key d' l) = Some d'.
Proof.
  intros Hf Hk. induction l as [| x l IH]; simpl in *; [done |].
  unfold has_id in *. destruct (String.eqb (key x) id) eqn:Hx.
  - rewrite Hk, Hx. simpl. by rewrite Hk, String.eqb_refl.
  - rewrite Hk, Hx. simpl. rewrite Hx. by apply IH.
Qed.

Lemma update_update {D} (key : D -> ObjectId) (d d' : D) (l : list D) :
  find (has_id key (key d)) l = Some d -> key d' = key d ->
  update key d (update key d' l) = l.
Proof.
  intros Hf Hk. induction l as [| x l IH]; simpl in *; [done |].
  unfold has_id in *. rewrite Hk. destruct (String.eqb (key x) (key d)) eqn:Hx.
  - simpl. rewrite Hk, String.eqb_refl. by injection Hf as ->.
  - simpl. rewrite Hx. f_equal. by apply IH.
Qed.

Lemma find_key {D} (key : D -> ObjectId) (id : ObjectId) (d : D) (l : list D) :
  find (has_id key id) l = Some d -> key d = id.
Proof. intros H. apply find_has in H as [_ H]. by apply String.eqb_eq. Qed.

Lemma Forall_update {D} (P : D -> Prop) (key : D -> ObjectId) (d : D) (l : list D) :
  Forall P l -> P d -> Forall P (update key d l).
Proof.
  intros Hl Hd. induction Hl as [| x l Hx Hl IH]; simpl; [done |].
  destruct (String.eqb (key x) (key d)); by constructor.
Qed.

Lemma Forall_remove_first {D} (P : D -> Prop) (test : D -> bool) (l : list D) :
  Forall P l -> Forall P (remove_first test l).
Proof.
  induction 1 as [| x l Hx Hl IH]; simpl; [done |].
  destruct (test x); [done | by constructor].
Qed.

Lemma Forall_insert {D} (P : D -> Prop) (key : D -> ObjectId) (d : D) (l l' : list D) :
  insert key d l = Ok l' -> Forall P l -> P d -> Forall P l'.
Proof.
  unfold insert. destruct (existsb _ l); [done |].
  intros [= <-] Hl Hd. apply Forall_app. split; [done | by constructor].
Qed.

(** ** Deleting a profile entry that is not there *)

(** C8: for the caller's profile with a non-empty [experience] list, a
    delete-experience request whose [exp_id] is the id of no entry finds
    index [-1], applies [splice(-1, 1)], which drops the last entry, saves
    the profile and answers 200 with it; the same holds for [education]
    and [edu_id]. *)
Theorem delete_absent_entry_drops_last env req s uid profile :
  authenticates env req uid -> is_ObjectId env uid = true ->
  find_profile uid s = Some profile ->
  (Profile.experience profile <> [] ->
   Req.exp_id req ∉ (Entry.id <$> Profile.experience profile) ->
   let profile' :=
     Profile.with_experience profile (removelast (Profile.experience profile)) in
   indexOf (Entry.id <$> Profile.experience profile) (Req.exp_id req) = -1
   /\ splice (Profile.experience profile) (-1) 1 = removelast (Profile.experience profile)
   /\ serve env ProfileDeleteExperience req s
      = (Responded (json 200 (ProfileDoc profile')),
         set_profiles s (update Profile.id profile' (profiles s))))
  /\ (Profile.education profile <> [] ->
      Req.edu_id req ∉ (Entry.id <$> Profile.education profile) ->
      let profile' :=
        Profile.with_education profile (removelast (Profile.education profile)) in
      indexOf (Entry.id <$> Profile.education profile) (Req.edu_id req) = -1
      /\ splice (Profile.education profile) (-1) 1 = removelast (Profile.education profile)
      /\ serve env ProfileDeleteEducation req s
         = (Responded (json 200 (ProfileDoc profile')),
            set_profiles s (update Profile.id profile' (profiles s)))).
Proof.
  intros Hauth Hoid Hp. split.
  - intros Hne Habs profile'. subst profile'.
    pose proof (indexOf_absent _ _ Habs) as Hi.
    pose proof (splice_last _ Hne) as Hs.
    split; [done |]. split; [done |].
    run_handler. rewrite Hoid, Hp. run. by rewrite Hi, Hs.
  - intros Hne Habs profile'. subst profile'.
    pose proof (indexOf_absent _ _ Habs) as Hi.
    pose proof (splice_last _ Hne) as Hs.
    split; [done |]. split; [done |].
    run_handler. rewrite Hoid, Hp. run. by rewrite Hi, Hs.
Qed.

Lemma demo_absent_entry :
  (Demo.idN ∉ (Entry.id <$> [Demo.exp1; Demo.exp2]))
  /\ (Demo.idN ∉ (Entry.id <$> [Demo.edu1])).
Proof.
  split; simpl; repeat (apply not_elem_of_cons; split; [discriminate |]);
    apply not_elem_of_nil.
Qed.

Lemma delete_absent_entry_drops_last_witness :
  serve Demo.env ProfileDeleteExperience
        (Demo.request_as Demo.idA "" "" Demo.idN Demo.idN) Demo.store1
  = (Responded (json 200 (ProfileDoc
       (Profile.mk Demo.idQ Demo.idA [("status", "Developer")] [Demo.exp1] [Demo.edu1]))),
     mkStore [Demo.alice; Demo.bob]
       [Profile.mk Demo.idQ Demo.idA [("status", "Developer")] [Demo.exp1] [Demo.edu1]]
       [Demo.post1])
  /\ serve Demo.env ProfileDeleteEducation
        (Demo.request_as Demo.idA "" "" Demo.idN Demo.idN) Demo.store1
  = (Responded (json 200 (ProfileDoc
       (Profile.mk Demo.idQ Demo.idA [("status", "Developer")] [Demo.exp1; Demo.exp2] []))),
     mkStore [Demo.alice; Demo.bob]
       [Profile.mk Demo.idQ Demo.idA [("status", "Developer")] [Demo.exp1; Demo.exp2] []]
       [Demo.post1]).
Proof.
  pose proof (delete_absent_entry_drops_last Demo.env
                (Demo.request_as Demo.idA "" "" Demo.idN Demo.idN) Demo.store1
                Demo.idA Demo.profile1 (demo_authenticates_A _ _ _ _) eq_refl eq_refl)
    as [Hexp Hedu].
  split.
  - apply Hexp; [discriminate | apply demo_absent_entry].
  - apply Hedu; [discriminate | apply demo_absent_entry].
Defined.

(** ** Likes *)

(** The likes of [l] that name [uid]. *)
Lemma filter_liked_by req uid (l : list Like.t) :
  req_user_id req = Ok uid ->
  filter_throwing (liked_by req) l
  = Ok (List.filter (fun like => String.eqb (Like.user like) uid) l).
Proof.
  intros Hu.
  assert (Hl : forall like, liked_by req like = Ok (String.eqb (Like.user like) uid))
    by (intros like; unfold liked_by; by rewrite Hu).
  induction l as [| like l IH]; simpl; [done |].
  rewrite Hl, IH. simpl.
  by destruct (String.eqb (Like.user like) uid).
Qed.

Lemma filter_liked_none uid (l : list Like.t) :
  uid ∉ (Like.user <$> l) ->
  List.filter (fun like => String.eqb (Like.user like) uid) l = [].
Proof.
  induction l as [| like l IH]; simpl; [done |].
  intros [Hne Hl]%not_elem_of_cons.
  rewrite eqb_false_of_ne by done. by apply IH.
Qed.

Lemma filter_liked_some uid (l : list Like.t) :
  uid ∈ (Like.user <$> l) ->
  exists like rest,
    List.filter (fun like => String.eqb (Like.user like) uid) l = like :: rest.
Proof.
  induction l as [| like l IH]; simpl.
  - by intros ?%elem_of_nil.
  - intros Hin. destruct (String.eqb (Like.user like) uid) eqn:He; [eauto |].
    apply IH. apply elem_of_cons in Hin as [-> | Hin]; [| done].
    by rewrite String.eqb_refl in He.
Qed.

Lemma set_posts_twice s l l' : set_posts (set_posts s l) l' = set_posts s l'.
Proof. reflexivity. Qed.

Lemma set_posts_same s : set_posts s (posts s) = s.
Proof. by destruct s. Qed.

Lemma find_post_set_posts id s l :
  find_post id (set_posts s l) = find (has_id Post.id id) l.
Proof. reflexivity. Qed.

Lemma find_user_set_posts id s l : find_user id (set_posts s l) = find_user id s.
Proof. reflexivity. Qed.

Section Likes.

Variable env : Env.
Variables (req : Req.t) (s : Store) (uid : string) (post : Post.t).
Hypothesis Hauth : authenticates env req uid.
Hypothesis Hoid : is_ObjectId env (Req.post_id req) = true.
Hypothesis Hpost : find_post (Req.post_id req) s = Some post.

Lemma like_already_liked :
  is_ObjectId env uid = true ->
  uid ∈ (Like.user <$> Post.likes post) ->
  serve env PostsLike req s = (Responded (json 400 (Msg "Post already liked!")), s).
Proof using Hauth Hoid Hpost.
  intros Hu Hin. run_handler.
  repeat (progress (rewrite ?Hoid, ?Hu, ?Hpost; run)).
  rewrite (filter_liked_by _ uid) by done.
  destruct (filter_liked_some _ _ Hin) as (like & rest & ->). by run.
Qed.

Lemma like_fresh user :
  is_ObjectId env uid = true ->
  uid ∉ (Like.user <$> Post.likes post) ->
  find_user uid s = Some user ->
  let like := Like.mk (Req.new_oid req) uid (User.name user) in
  serve env PostsLike req s
  = (Responded (json 200 (LikeList (like :: Post.likes post))),
     set_posts s (update Post.id (Post.with_likes post (like :: Post.likes post)) (posts s))).
Proof using Hauth Hoid Hpost.
  intros Hu Hnin Huser like. run_handler.
  repeat (progress (rewrite ?Hoid, ?Hu, ?Hpost, ?Huser; run)).
  rewrite (filter_liked_by _ uid) by done.
  rewrite (filter_liked_none _ _ Hnin). by run.
Qed.

Lemma like_without_user :
  uid ∉ (Like.user <$> Post.likes post) ->
  is_ObjectId env uid = false \/ find_user uid s = None ->
  serve env PostsLike req s = (Responded (send 500 "Server Error!"), s).
Proof using Hauth Hoid Hpost.
  intros Hnin Hno. run_handler. rewrite Hoid. run.
  destruct (is_ObjectId env uid) eqn:Hu; [| done].
  destruct Hno as [? | Huser]; [done |].
  repeat (progress (rewrite ?Hpost, ?Huser; run)).
  rewrite (filter_liked_by _ uid) by done.
  rewrite (filter_liked_none _ _ Hnin). by run.
Qed.

Lemma unlike_not_liked :
  uid ∉ (Like.user <$> Post.likes post) ->
  serve env PostsUnlike req s
  = (Responded (json 400 (Msg "Post has not been liked yet!")), s).
Proof using Hauth Hoid Hpost.
  intros Hnin. run_handler. rewrite Hoid, Hpost. run.
  rewrite (filter_liked_by _ uid) by done.
  rewrite (filter_liked_none _ _ Hnin). by run.
Qed.

Lemma unlike_newest like rest :
  Post.likes post = like :: rest -> Like.user like = uid ->
  serve env PostsUnlike req s
  = (Responded (json 200 (LikeList rest)),
     set_posts s (update Post.id (Post.with_likes post rest) (posts s))).
Proof using Hauth Hoid Hpost.
  intros Hl Hu. run_handler. rewrite Hoid, Hpost. run.
  rewrite (filter_liked_by _ uid) by done.
  rewrite Hl. simpl. rewrite Hu, String.eqb_refl. run.
  by rewrite indexOf_head, splice_head.
Qed.

End Likes.

(** C10: on a post that the caller has not liked, a like followed
    directly by an unlike, both by that caller, leaves the post's likes
    list, and the whole store, as they were. *)
Theorem like_then_unlike_restores env req req' s uid post :
  authenticates env req uid -> authenticates env req' uid ->
  Req.post_id req' = Req.post_id req ->
  is_ObjectId env (Req.post_id req) = true ->
  find_post (Req.post_id req) s = Some post ->
  uid ∉ (Like.user <$> Post.likes post) ->
  let s1 := snd (serve env PostsLike req s) in
  let s2 := snd (serve env PostsUnlike req' s1) in
  (exists post', find_post (Req.post_id req) s2 = Some post'
                 /\ Post.likes post' = Post.likes post)
  /\ s2 = s
  /\ (forall user,
        is_ObjectId env uid = true -> find_user uid s = Some user ->
        let like := Like.mk (Req.new_oid req) uid (User.name user) in
        fst (serve env PostsLike req s)
        = Responded (json 200 (LikeList (like :: Post.likes post)))
        /\ find_post (Req.post_id req) s1
           = Some (Post.with_likes post (like :: Post.likes post))
        /\ fst (serve env PostsUnlike req' s1)
           = Responded (json 200 (LikeList (Post.likes post)))).
Proof.
  intros Hauth Hauth' Hid Hoid Hpost Hnin s1 s2.
  assert (Hkey : Post.id post = Req.post_id req) by (by eapply find_key).
  assert (Hlike : forall user,
            is_ObjectId env uid = true -> find_user uid s = Some user ->
            let like := Like.mk (Req.new_oid req) uid (User.name user) in
            fst (serve env PostsLike req s)
            = Responded (json 200 (LikeList (like :: Post.likes post)))
            /\ find_post (Req.post_id req) s1
               = Some (Post.with_likes post (like :: Post.likes post))
            /\ serve env PostsUnlike req' s1
               = (Responded (json 200 (LikeList (Post.likes post))), s)).
  { intros user Hu Huser like. subst s1.
    rewrite (like_fresh env req s uid post Hauth Hoid Hpost user Hu Hnin Huser).
    fold like. simpl.
    set (post' := Post.with_likes post (like :: Post.likes post)).
    assert (Hpost' : find_post (Req.post_id req) (set_posts s (update Post.id post' (posts s)))
                     = Some post')
      by (rewrite find_post_set_posts; by eapply find_update).
    split; [done |]. split; [done |].
    rewrite <- Hid in Hoid, Hpost'.
    rewrite (unlike_newest env req' _ uid post' Hauth' Hoid Hpost' like (Post.likes post))
      by done.
    f_equal. simpl. rewrite set_posts_twice.
    replace (Post.with_likes post' (Post.likes post)) with post by (by destruct post).
    rewrite update_update; [apply set_posts_same | by rewrite Hkey | done]. }
  assert (Hs2 : s2 = s).
  { destruct (is_ObjectId env uid) eqn:Hu; [destruct (find_user uid s) as [user |] eqn:Huser |].
    - destruct (Hlike user eq_refl eq_refl) as (_ & _ & Hun). subst s2. by rewrite Hun.
    - subst s2 s1.
      rewrite (like_without_user env req s uid post Hauth Hoid Hpost Hnin) by (by right).
      simpl. rewrite <- Hid in Hoid, Hpost.
      by rewrite (unlike_not_liked env req' s uid post Hauth' Hoid Hpost Hnin).
    - subst s2 s1.
      rewrite (like_without_user env req s uid post Hauth Hoid Hpost Hnin) by (by left).
      simpl. rewrite <- Hid in Hoid, Hpost.
      by rewrite (unlike_not_liked env req' s uid post Hauth' Hoid Hpost Hnin). }
  split; [exists post; by rewrite Hs2 |]. split; [done |].
  intros user Hu Huser like. destruct (Hlike user Hu Huser) as (H1 & H2 & H3).
  split; [done |]. split; [done |]. by rewrite H3.
Qed.

Lemma like_then_unlike_restores_witness :
  find_post Demo.idP (snd (serve Demo.env PostsLike Demo.like_post1_as_B Demo.store1))
  = Some (Post.with_likes Demo.post1 [Like.mk Demo.idN Demo.idB "Bob"])
  /\ snd (serve Demo.env PostsUnlike Demo.like_post1_as_B
             (snd (serve Demo.env PostsLike Demo.like_post1_as_B Demo.store1)))
     = Demo.store1.
Proof.
  pose proof (like_then_unlike_restores Demo.env Demo.like_post1_as_B Demo.like_post1_as_B
                Demo.store1 Demo.idB Demo.post1
                (demo_authenticates_B _ _ _ _) (demo_authenticates_B _ _ _ _)
                eq_refl eq_refl eq_refl (not_elem_of_nil _))
    as (_ & Hback & Hsteps).
  split.
  - apply (Hsteps Demo.bob eq_refl eq_refl).
  - apply Hback.
Defined.

(** ** What every handler keeps *)

Section Keeps.

Context {A B : Type} (I : Store -> Prop).

Lemma keeps_ret (a : A) (Q : A -> Prop) : Q a -> keeps I (mret a) Q.
Proof. by intros Ha s Hs. Qed.

Lemma keeps_throw (e : JsError) (Q : A -> Prop) : keeps I (throw e) Q.
Proof. by intros s Hs. Qed.

Lemma keeps_lift (r : Res A) : keeps I (lift r) (fun a => r = Ok a).
Proof. intros s Hs. unfold lift. by destruct r. Qed.

Lemma keeps_bind (m : M A) (f : A -> M B) (P : A -> Prop) (Q : B -> Prop) :
  keeps I m P -> (forall a, P a -> keeps I (f a) Q) -> keeps I (m ≫= f) Q.
Proof.
  intros Hm Hf s Hs. rewrite bind_run. specialize (Hm s Hs).
  destruct (m s) as [[a | e] s']; [| done].
  destruct Hm as [Hs' Ha]. by apply Hf.
Qed.

Lemma keeps_try_catch (body : M A) (handler : JsError -> M A) (Q : A -> Prop) :
  keeps I body Q -> (forall e, keeps I (handler e) Q) ->
  keeps I (try_catch body handler) Q.
Proof.
  intros Hb Hh s Hs. unfold try_catch. specialize (Hb s Hs).
  destruct (body s) as [[a | e] s']; [done |]. by apply Hh.
Qed.

Lemma keeps_weaken (m : M A) (P Q : A -> Prop) :
  keeps I m P -> (forall a, P a -> Q a) -> keeps I m Q.
Proof.
  intros Hm HPQ s Hs. specialize (Hm s Hs).
  destruct (m s) as [[a | e] s']; [| done]. destruct Hm. auto.
Qed.

End Keeps.

Lemma keeps_reply I (r : Response) : keeps I (reply r) (fun _ => True).
Proof. by apply keeps_ret. Qed.

(** Reads, and writes to the other two collections. *)
Lemma keeps_posts_untouched {A} (m : M A) :
  (forall s, posts (snd (m s)) = posts s) -> keeps posts_ok m (fun _ => True).
Proof.
  intros Hm s Hs. specialize (Hm s). unfold posts_ok in *.
  destruct (m s) as [[a | e] s']; simpl in Hm; by rewrite Hm.
Qed.

Section KeepsStore.

Variable env : Env.

Lemma keeps_cast v : keeps posts_ok (cast_ObjectId env v) (fun _ => True).
Proof. unfold cast_ObjectId. destruct (is_ObjectId env v); [by apply keeps_ret | apply keeps_throw]. Qed.

Lemma keeps_Post_findById id :
  keeps posts_ok (Post_findById env id)
        (fun found => forall p, found = Some p -> likes_unique p).
Proof.
  intros s Hs. rewrite Post_findById_run. destruct (is_ObjectId env id); [| done].
  split; [done |]. intros p [Hp _]%find_has.
  unfold posts_ok in Hs. rewrite Forall_forall in Hs. by apply Hs.
Qed.

Lemma keeps_User_findById id : keeps posts_ok (User_findById env id) (fun _ => True).
Proof.
  apply keeps_posts_untouched. intros s. rewrite User_findById_run.
  by destruct (is_ObjectId env id).
Qed.

Lemma keeps_User_findOne_email email :
  keeps posts_ok (User_findOne_email email) (fun _ => True).
Proof. by apply keeps_posts_untouched. Qed.

Lemma keeps_User_save_new u : keeps posts_ok (User_save_new u) (fun _ => True).
Proof.
  apply keeps_posts_untouched. intros s. unfold User_save_new.
  run. by destruct (insert User.id u (users s)).
Qed.

Lemma keeps_User_findOneAndRemove_id id :
  keeps posts_ok (User_findOneAndRemove_id env id) (fun _ => True).
Proof.
  apply keeps_posts_untouched. intros s. unfold User_findOneAndRemove_id, cast_ObjectId.
  rewrite bind_run. by destruct (is_ObjectId env id).
Qed.

Lemma keeps_Profile_findOne_user uid :
  keeps posts_ok (Profile_findOne_user env uid) (fun _ => True).
Proof.
  apply keeps_posts_untouched. intros s. rewrite Profile_findOne_user_run.
  by destruct (is_ObjectId env uid).
Qed.

Lemma keeps_Profile_save p : keeps posts_ok (Profile_save p) (fun _ => True).
Proof. by apply keeps_posts_untouched. Qed.

Lemma keeps_Profile_findOneAndRemove_user uid :
  keeps posts_ok (Profile_findOneAndRemove_user env uid) (fun _ => True).
Proof.
  apply keeps_posts_untouched. intros s.
  unfold Profile_findOneAndRemove_user, cast_ObjectId.
  rewrite bind_run. by destruct (is_ObjectId env uid).
Qed.

Lemma keeps_Post_save p : likes_unique p -> keeps posts_ok (Post_save p) (fun _ => True).
Proof. intros Hp s Hs. rewrite Post_save_run. split; [| done]. by apply Forall_update. Qed.

Lemma keeps_Post_save_new p :
  likes_unique p -> keeps posts_ok (Post_save_new p) (fun _ => True).
Proof.
  intros Hp s Hs. unfold Post_save_new. run.
  destruct (insert Post.id p (posts s)) as [l |] eqn:Hl; [| done].
  split; [| done]. by eapply Forall_insert.
Qed.

Lemma keeps_Post_remove p : keeps posts_ok (Post_remove p) (fun _ => True).
Proof. intros s Hs. rewrite Post_remove_run. split; [| done]. by apply Forall_remove_first. Qed.

End KeepsStore.

Create HintDb keeps.
#[local] Hint Resolve keeps_reply keeps_cast keeps_User_findById keeps_User_findOne_email
  keeps_User_save_new keeps_User_findOneAndRemove_id keeps_Profile_findOne_user
  keeps_Profile_save keeps_Profile_findOneAndRemove_user keeps_Post_remove : keeps.

(** One step through a handler body. *)
Ltac keeps_step :=
  cbv zeta;
  lazymatch goal with
  | |- keeps _ (try_catch _ _) _ => apply keeps_try_catch; [| intros ?]
  | |- keeps _ (lift _ ≫= _) _ => eapply keeps_bind; [apply keeps_lift | intros ? ?]
  | |- keeps _ (Post_findById _ _ ≫= _) _ =>
      eapply keeps_bind; [apply keeps_Post_findById | intros ? ?]
  | |- keeps _ (_ ≫= _) _ => eapply keeps_bind; [solve [eauto with keeps] | intros ? _]
  | |- keeps _ (if ?b then _ else _) _ => destruct b eqn:?
  | |- keeps _ (match ?x with _ => _ end) _ => destruct x eqn:?
  | |- keeps _ (reply _) _ => apply keeps_reply
  | |- keeps _ (mret _) _ => by apply keeps_ret
  end.

Lemma filter_liked_nil_inv uid (l : list Like.t) :
  List.filter (fun like => String.eqb (Like.user like) uid) l = [] ->
  uid ∉ (Like.user <$> l).
Proof.
  induction l as [| like l IH]; simpl; [intros _; apply not_elem_of_nil |].
  destruct (String.eqb (Like.user like) uid) eqn:He; [done |].
  intros Hl. apply not_elem_of_cons. split; [| by apply IH].
  intros ->. by rewrite String.eqb_refl in He.
Qed.

Lemma nonnull_Ok {D} (doc : option D) (d : D) : nonnull doc = Ok d -> doc = Some d.
Proof. destruct doc; simpl; congruence. Qed.

Lemma likes_unique_splice p start deleteCount :
  likes_unique p -> likes_unique (Post.with_likes p (splice (Post.likes p) start deleteCount)).
Proof.
  unfold likes_unique. simpl. intros Hp.
  eapply sublist_NoDup; [exact Hp |]. apply fmap_sublist, splice_sublist.
Qed.

Lemma likes_unique_like p like :
  likes_unique p -> Like.user like ∉ (Like.user <$> Post.likes p) ->
  likes_unique (Post.with_likes p (like :: Post.likes p)).
Proof. unfold likes_unique. simpl. intros Hp Hn. by apply NoDup_cons. Qed.

Section KeepsHandlers.

Variable env : Env.

(** The last two steps of a handler that saves a post and replies. *)
Ltac keeps_save :=
  eapply keeps_bind; [apply keeps_Post_save | intros; apply keeps_reply].

Lemma keeps_users_register req : keeps posts_ok (users_register env req) (fun _ => True).
Proof. unfold users_register. repeat keeps_step. Qed.

Lemma keeps_posts_create req : keeps posts_ok (posts_create env req) (fun _ => True).
Proof.
  unfold posts_create. repeat keeps_step.
  eapply keeps_bind; [apply keeps_Post_save_new | intros; apply keeps_reply].
  apply NoDup_nil_2.
Qed.

Lemma keeps_posts_delete req : keeps posts_ok (posts_delete env req) (fun _ => True).
Proof. unfold posts_delete. repeat keeps_step. Qed.

Lemma keeps_posts_like req : keeps posts_ok (posts_like env req) (fun _ => True).
Proof.
  unfold posts_like. repeat keeps_step. cbv beta in *.
  match goal with
  | Hfound : forall p, ?found = Some p -> likes_unique p,
    Hpost : nonnull ?found = Ok ?post,
    Hmine : filter_throwing (liked_by req) _ = Ok ?mine,
    Hlen : (0 <? length ?mine)%nat = false,
    Huid : req_user_id req = Ok ?uid |- _ =>
      apply nonnull_Ok in Hpost;
      rewrite (filter_liked_by _ _ _ Huid) in Hmine; injection Hmine as <-;
      keeps_save; apply likes_unique_like; [by apply Hfound |];
      apply filter_liked_nil_inv;
      destruct (List.filter _ (Post.likes post)); [done | discriminate Hlen]
  end.
Qed.

Lemma keeps_posts_unlike req : keeps posts_ok (posts_unlike env req) (fun _ => True).
Proof.
  unfold posts_unlike. repeat keeps_step. cbv beta in *.
  match goal with
  | Hfound : forall p, ?found = Some p -> likes_unique p,
    Hpost : nonnull ?found = Ok ?post |- _ =>
      apply nonnull_Ok in Hpost; keeps_save;
      apply likes_unique_splice; by apply Hfound
  end.
Qed.

Lemma keeps_posts_comment req : keeps posts_ok (posts_comment env req) (fun _ => True).
Proof.
  unfold posts_comment. repeat keeps_step. cbv beta in *.
  match goal with
  | Hfound : forall p, ?found = Some p -> likes_unique p,
    Hpost : nonnull ?found = Ok ?post |- _ =>
      apply nonnull_Ok in Hpost; keeps_save; by apply (Hfound post)
  end.
Qed.

Lemma keeps_posts_delete_comment req :
  keeps posts_ok (posts_delete_comment env req) (fun _ => True).
Proof.
  unfold posts_delete_comment. repeat keeps_step. cbv beta in *.
  match goal with
  | Hfound : forall p, ?found = Some p -> likes_unique p,
    Hpost : nonnull ?found = Ok ?post |- _ =>
      apply nonnull_Ok in Hpost; keeps_save; by apply (Hfound post)
  end.
Qed.

Lemma keeps_profile_delete req : keeps posts_ok (profile_delete env req) (fun _ => True).
Proof. unfold profile_delete. repeat keeps_step. Qed.

Lemma keeps_profile_add_experience req :
  keeps posts_ok (profile_add_experience env req) (fun _ => True).
Proof. unfold profile_add_experience. repeat keeps_step. Qed.

Lemma keeps_profile_delete_experience req :
  keeps posts_ok (profile_delete_experience env req) (fun _ => True).
Proof. unfold profile_delete_experience. repeat keeps_step. Qed.

Lemma keeps_profile_add_education req :
  keeps posts_ok (profile_add_education env req) (fun _ => True).
Proof. unfold profile_add_education. repeat keeps_step. Qed.

Lemma keeps_profile_delete_education req :
  keeps posts_ok (profile_delete_education env req) (fun _ => True).
Proof. unfold profile_delete_education. repeat keeps_step. Qed.

Lemma keeps_protected handler req :
  (forall req', keeps posts_ok (handler req') (fun _ => True)) ->
  keeps posts_ok (protected env handler req) (fun _ => True).
Proof. intros H. unfold protected. destruct (auth env req); [apply keeps_reply | apply H]. Qed.

Lemma keeps_handler_of r req : keeps posts_ok (handler_of env r req) (fun _ => True).
Proof.
  destruct r; simpl; try apply keeps_protected;
    auto using keeps_users_register, keeps_posts_create, keeps_posts_delete,
      keeps_posts_like, keeps_posts_unlike, keeps_posts_comment,
      keeps_posts_delete_comment, keeps_profile_delete, keeps_profile_add_experience,
      keeps_profile_delete_experience, keeps_profile_add_education,
      keeps_profile_delete_education.
Qed.

Lemma serve_keeps_posts_ok r req s : posts_ok s -> posts_ok (snd (serve env r req s)).
Proof.
  intros Hs. unfold serve. pose proof (keeps_handler_of r req s Hs) as H.
  destruct (handler_of env r req s) as [[p | e] s']; simpl; [by destruct H | done].
Qed.

Lemma reachable_posts_ok s : reachable env s -> posts_ok s.
Proof.
  induction 1 as [s Hs | r req s _ IH | s l _ IH].
  - unfold posts_ok. rewrite Hs. constructor.
  - by apply serve_keeps_posts_ok.
  - exact IH.
Qed.

End KeepsHandlers.

(** ** No user likes a post twice *)

(** C9: in every store the server can reach, no user id occurs twice in
    the likes of a post.  On such a store a like by a caller whose id is
    already in the list is answered 400 with [{ msg: 'Post already
    liked!' }] and changes nothing; a like by a caller (with a user
    record) whose id is not in the list puts exactly one entry, naming the
    caller, in front of the list. *)
Theorem likes_stay_unique env s :
  reachable env s ->
  (forall post, post ∈ posts s -> NoDup (Like.user <$> Post.likes post))
  /\ (forall req uid post,
        authenticates env req uid ->
        is_ObjectId env (Req.post_id req) = true -> is_ObjectId env uid = true ->
        find_post (Req.post_id req) s = Some post ->
        (uid ∈ (Like.user <$> Post.likes post) ->
         serve env PostsLike req s
         = (Responded (json 400 (Msg "Post already liked!")), s))
        /\ (forall user,
              uid ∉ (Like.user <$> Post.likes post) -> find_user uid s = Some user ->
              let like := Like.mk (Req.new_oid req) uid (User.name user) in
              let post' := Post.with_likes post (like :: Post.likes post) in
              let s' := set_posts s (update Post.id post' (posts s)) in
              serve env PostsLike req s
              = (Responded (json 200 (LikeList (like :: Post.likes post))), s')
              /\ find_post (Req.post_id req) s' = Some post'
              /\ NoDup (Like.user <$> Post.likes post')
              /\ (forall other, other ∈ posts s' -> NoDup (Like.user <$> Post.likes other)))).
Proof.
  intros Hreach.
  pose proof (reachable_posts_ok env s Hreach) as Hok.
  split.
  - intros post Hin. unfold posts_ok in Hok. rewrite Forall_forall in Hok. by apply Hok.
  - intros req uid post Hauth Hoid Hu Hpost. split.
    + intros Hin. by eapply like_already_liked.
    + intros user Hnin Huser like post' s'.
      assert (Hserve : serve env PostsLike req s
                       = (Responded (json 200 (LikeList (like :: Post.likes post))), s'))
        by (by eapply like_fresh).
      assert (Hok' : posts_ok s').
      { pose proof (serve_keeps_posts_ok env PostsLike req s Hok) as H.
        by rewrite Hserve in H. }
      assert (Hfind : find_post (Req.post_id req) s' = Some post').
      { subst s'. rewrite find_post_set_posts. eapply find_update; [exact Hpost |].
        simpl. by eapply find_key. }
      unfold posts_ok in Hok'. rewrite Forall_forall in Hok'.
      split; [done |]. split; [done |]. split; [| done].
      apply (Hok' post'). by apply find_has in Hfind as [? _].
Qed.

Lemma demo_store_liked_reachable : reachable Demo.env Demo.store_liked.
Proof. apply reach_serve, reach_serve, reach_init. reflexivity. Defined.

Lemma likes_stay_unique_witness :
  (forall post, post ∈ posts Demo.store_liked -> NoDup (Like.user <$> Post.likes post))
  /\ find_post Demo.idP Demo.store_liked
     = Some (Post.mk Demo.idP Demo.idA "hello" "Alice" (User.avatar Demo.alice)
                     [Like.mk Demo.idN Demo.idB "Bob"] [])
  /\ serve Demo.env PostsLike (Demo.request_as Demo.idB Demo.idP "" "" "") Demo.store_liked
     = (Responded (json 400 (Msg "Post already liked!")), Demo.store_liked)
  /\ fst (serve Demo.env PostsLike (Demo.request_as Demo.idA Demo.idP "" "" "")
                Demo.store_liked)
     = Responded (json 200 (LikeList [Like.mk Demo.idN Demo.idA "Alice";
                                      Like.mk Demo.idN Demo.idB "Bob"])).
Proof.
  destruct (likes_stay_unique Demo.env Demo.store_liked demo_store_liked_reachable)
    as [Hinv Hlike].
  split; [exact Hinv |]. split; [reflexivity |]. split.
  - apply (Hlike (Demo.request_as Demo.idB Demo.idP "" "" "") Demo.idB
             (Post.mk Demo.idP Demo.idA "hello" "Alice" (User.avatar Demo.alice)
                      [Like.mk Demo.idN Demo.idB "Bob"] [])
             (demo_authenticates_B _ _ _ _) eq_refl eq_refl eq_refl).
    simpl. left.
  - destruct (Hlike (Demo.request_as Demo.idA Demo.idP "" "" "") Demo.idA
                (Post.mk Demo.idP Demo.idA "hello" "Alice" (User.avatar Demo.alice)
                         [Like.mk Demo.idN Demo.idB "Bob"] [])
                (demo_authenticates_A _ _ _ _) eq_refl eq_refl eq_refl) as [_ Hfresh].
    destruct (Hfresh Demo.alice) as [Hserve _].
    + simpl. apply not_elem_of_cons. split; [discriminate | apply not_elem_of_nil].
    + reflexivity.
    + by rewrite Hserve.
Defined.

(** ** Handlers that always answer *)

Lemma keeps_any {A} (m : M A) : keeps (fun _ => True) m (fun _ => True).
Proof. intros s _. by destruct (m s) as [[a | e] s']. Qed.

Lemma try_catch_replies (body : M Pending) (handler : JsError -> M Pending) :
  keeps (fun _ => True) body is_reply ->
  (forall e s, exists r, handler e s = (Ok (Replied r), s)) ->
  forall s, exists r s', try_catch body handler s = (Ok (Replied r), s').
Proof.
  intros Hb Hh s. unfold try_catch. specialize (Hb s I).
  destruct (body s) as [[p | e] s'].
  - destruct Hb as [_ [r ->]]. eauto.
  - destruct (Hh e s') as [r ->]. eauto.
Qed.

(** One step through a handler body whose replies are being collected. *)
Ltac replies_step :=
  cbv zeta;
  lazymatch goal with
  | |- keeps _ (lift _ ≫= _) _ => eapply keeps_bind; [apply keeps_lift | intros ? _]
  | |- keeps _ (_ ≫= _) _ => eapply keeps_bind; [apply keeps_any | intros ? _]
  | |- keeps _ (if ?b then _ else _) _ => destruct b
  | |- keeps _ (match ?x with _ => _ end) _ => destruct x
  | |- keeps _ (reply _) _ => apply keeps_ret; by eexists
  end.

Ltac handler_replies :=
  lazymatch goal with
  | |- exists r s', (if ?b then _ else _) _ = _ =>
      destruct b; [unfold reply; simpl; eauto |]
  | _ => idtac
  end;
  apply try_catch_replies;
  [repeat replies_step | intros e s'; try destruct (bool_decide _); unfold reply; simpl; eauto].

(** Every route behind [auth] answers every request: whatever is thrown
    in the handler body is caught there. *)
Lemma protected_routes_respond env r req s :
  is_protected r -> exists resp, fst (serve env r req s) = Responded resp.
Proof.
  intros Hr.
  assert (H : exists resp s', handler_of env r req s = (Ok (Replied resp), s')).
  { destruct r; try (by destruct Hr); simpl; unfold protected;
      (destruct (auth env req) as [resp | req']; [unfold reply; simpl; eauto |]).
    - unfold posts_create. handler_replies.
    - unfold posts_delete. handler_replies.
    - unfold posts_like. handler_replies.
    - unfold posts_unlike. handler_replies.
    - unfold posts_comment. handler_replies.
    - unfold posts_delete_comment. handler_replies.
    - unfold profile_delete. handler_replies.
    - unfold profile_add_experience. handler_replies.
    - unfold profile_delete_experience. handler_replies.
    - unfold profile_add_education. handler_replies.
    - unfold profile_delete_education. handler_replies. }
  destruct H as (resp & s' & H). unfold serve. rewrite H. simpl. eauto.
Qed.

(** ** Deletion by the owner *)

Lemma find_remove_first_other {D} (key : D -> ObjectId) (id id' : ObjectId) (l : list D) :
  id' <> id ->
  find (has_id key id') (remove_first (has_id key id) l) = find (has_id key id') l.
Proof.
  intros Hne. induction l as [| x l IH]; simpl; [done |].
  unfold has_id in *. destruct (String.eqb (key x) id) eqn:Hx.
  - apply String.eqb_eq in Hx. rewrite Hx. by rewrite eqb_false_of_ne.
  - simpl. by rewrite IH.
Qed.

Lemma find_remove_first_same {D} (key : D -> ObjectId) (id : ObjectId) (l : list D) :
  NoDup (key <$> l) -> find (has_id key id) (remove_first (has_id key id) l) = None.
Proof.
  induction l as [| x l IH]; simpl; [done |].
  intros [Hx Hl]%NoDup_cons. unfold has_id in *.
  destruct (String.eqb (key x) id) eqn:He.
  - apply String.eqb_eq in He. subst id.
    destruct (find (fun d => String.eqb (key d) (key x)) l) as [y |] eqn:Hy; [| done].
    apply find_has in Hy as [Hin Hk]. apply String.eqb_eq in Hk.
    destruct Hx. rewrite <- Hk. by apply list_elem_of_fmap_2.
  - simpl. rewrite He. by apply IH.
Qed.

(** The owner of a post deletes it: the post goes, every other post
    stays as it is. *)
Lemma delete_own_post env req s uid post :
  authenticates env req uid -> is_ObjectId env (Req.post_id req) = true ->
  find_post (Req.post_id req) s = Some post -> Post.user post = uid ->
  let s' := set_posts s (remove_first (has_id Post.id (Req.post_id req)) (posts s)) in
  serve env PostsDelete req s = (Responded (json 200 (Msg "Post Removed!")), s')
  /\ (forall id, id <> Req.post_id req -> find_post id s' = find_post id s)
  /\ (NoDup (Post.id <$> posts s) -> find_post (Req.post_id req) s' = None).
Proof.
  intros Hauth Hoid Hpost Hu s'. split; [| split].
  - run_handler. rewrite Hoid, Hpost. run. rewrite Hu, String.eqb_refl. run.
    subst s'. by rewrite (find_key _ _ _ _ Hpost).
  - intros id Hne. by apply find_remove_first_other.
  - intros Hnd. by apply find_remove_first_same.
Qed.

Lemma map_throwing_idnpm (comments : list Comment.t) :
  comments <> [] ->
  map_throwing (fun comment => toString (Comment.idnpm comment)) comments
  = Throw (TypeError "Cannot read property 'toString' of undefined").
Proof. by destruct comments. Qed.

(** The owner of a comment asks to delete it: the index computation
    throws on [comment.idnpm.toString()], the handler answers 500 and the
    post is never saved. *)
Lemma delete_own_comment_fails env req s uid post comment :
  authenticates env req uid -> is_ObjectId env (Req.post_id req) = true ->
  find_post (Req.post_id req) s = Some post ->
  find_comment (Req.comment_id req) post = Some comment ->
  Comment.user comment = uid ->
  serve env PostsDeleteComment req s = (Responded (send 500 "Server Error!"), s).
Proof.
  intros Hauth Hoid Hpost Hc Hu. run_handler. rewrite Hoid, Hpost. run.
  unfold find_comment in Hc. rewrite Hc. run. rewrite Hu, String.eqb_refl. run.
  rewrite map_throwing_idnpm; [done |].
  destruct (Post.comments post); [done | discriminate].
Qed.

(** C1 (not met by the code): Alice asks to delete her own comment on
    her own post; the handler answers 500 ['Server Error!'] instead of
    succeeding, and the comment is still in the post afterwards. *)
Theorem owner_comment_delete_fails :
  find_post Demo.idP Demo.store1 = Some Demo.post1
  /\ find_comment Demo.idC Demo.post1 = Some Demo.comment1
  /\ Comment.user Demo.comment1 = Demo.idA
  /\ auth Demo.env Demo.delete_comment1_as_A
     = Next (Req.with_user Demo.delete_comment1_as_A (Some (Identity.mk Demo.idA)))
  /\ serve Demo.env PostsDeleteComment Demo.delete_comment1_as_A Demo.store1
     = (Responded (send 500 "Server Error!"), Demo.store1).
Proof.
  repeat (split; [reflexivity |]).
  apply (delete_own_comment_fails Demo.env Demo.delete_comment1_as_A Demo.store1
           Demo.idA Demo.post1 Demo.comment1);
    [apply demo_authenticates_A | reflexivity ..].
Qed.

(** ** Deleting what is not there *)

Lemma delete_missing_post env req s uid :
  authenticates env req uid ->
  is_ObjectId env (Req.post_id req) = false \/ find_post (Req.post_id req) s = None ->
  serve env PostsDelete req s = (Responded (json 404 (Msg "Post not Found!")), s).
Proof.
  intros Hauth Hno. run_handler.
  destruct (is_ObjectId env (Req.post_id req)); [| done].
  destruct Hno as [? | ->]; [done |]. by run.
Qed.

Lemma delete_missing_comment env req s uid post :
  authenticates env req uid -> is_ObjectId env (Req.post_id req) = true ->
  find_post (Req.post_id req) s = Some post ->
  find_comment (Req.comment_id req) post = None ->
  serve env PostsDeleteComment req s
  = (Responded (json 404 (Msg "Comment does not exist!")), s).
Proof.
  intros Hauth Hoid Hpost Hc. run_handler. rewrite Hoid, Hpost. run.
  unfold find_comment in Hc. rewrite Hc. by run.
Qed.

(** A comment deletion aimed at a post that is not in the store: the
    handler reads [post.comments] of [null] (or the id does not cast), and
    answers 500. *)
Lemma delete_comment_of_missing_post env req s uid :
  authenticates env req uid ->
  is_ObjectId env (Req.post_id req) = false \/ find_post (Req.post_id req) s = None ->
  serve env PostsDeleteComment req s = (Responded (send 500 "Server Error!"), s).
Proof.
  intros Hauth Hno. run_handler.
  destruct (is_ObjectId env (Req.post_id req)); [| done].
  destruct Hno as [? | ->]; [done |]. by run.
Qed.

(** C4 (not met by the code): a comment deletion that names a post id
    which is in no document of the store is answered 500 ['Server
    Error!'], not 404. *)
Theorem delete_comment_of_missing_post_is_500 :
  Demo.is_ObjectId Demo.idN = true
  /\ find_post Demo.idN Demo.store1 = None
  /\ serve Demo.env PostsDeleteComment Demo.delete_comment_of_no_post Demo.store1
     = (Responded (send 500 "Server Error!"), Demo.store1).
Proof.
  repeat (split; [reflexivity |]).
  apply (delete_comment_of_missing_post Demo.env Demo.delete_comment_of_no_post
           Demo.store1 Demo.idA);
    [apply demo_authenticates_A | by right].
Qed.

(** ** Registration and the signing callback *)

Section RegisterSign.

Variables (env : Env) (req : Req.t) (s : Store) (secret : string).

Hypothesis Hvalid : validate_register env req = [].
Hypothesis Hemail :
  find (fun u => String.eqb (User.email u) (Req.field req "email")) (users s) = None.
Hypothesis Hnew : existsb (has_id User.id (Req.new_oid req)) (users s) = false.
Hypothesis Hsecret : jwtSecret env = Some secret.

Lemma register_runs_to_sign :
  serve env UsersRegister req s
  = (settle (match jwt_sign env (new_payload req) secret with
             | SignFailSync e => Ok (Replied (send 500 "Server Error"))
             | SignFailAsync e => Ok (Deferred (sign_callback (Some e) ""))
             | SignDone token => Ok (Deferred (sign_callback None token))
             end),
     set_users s (users s ++ [new_user env req])).
Proof using Hvalid Hemail Hnew Hsecret.
  unfold serve, handler_of. rewrite (register_body _ _ _ Hvalid).
  unfold try_catch, User_findOne_email, User_save_new, insert, config_get_jwtSecret.
  run. rewrite Hemail. run. rewrite Hnew. run. rewrite Hsecret.
  fold (new_user env req) (new_payload req).
  by destruct (jwt_sign env (new_payload req) secret).
Qed.

(** The token is signed: the callback answers with it. *)
Lemma register_sign_done token :
  jwt_sign env (new_payload req) secret = SignDone token ->
  serve env UsersRegister req s
  = (Responded (json 200 (Token token)), set_users s (users s ++ [new_user env req])).
Proof using Hvalid Hemail Hnew Hsecret. intros H. by rewrite register_runs_to_sign, H. Qed.

(** [jwt.sign] calls back with an error before it returns: the throw of
    the callback passes through [jwt.sign] into the handler's [catch]. *)
Lemma register_sign_fails_early e :
  jwt_sign env (new_payload req) secret = SignFailSync e ->
  serve env UsersRegister req s
  = (Responded (send 500 "Server Error"), set_users s (users s ++ [new_user env req])).
Proof using Hvalid Hemail Hnew Hsecret. intros H. by rewrite register_runs_to_sign, H. Qed.

(** [jwt.sign] calls back with an error after it has returned: the
    handler's [try] is over, and the throw of the callback is caught by
    nothing. *)
Lemma register_sign_fails_late e :
  jwt_sign env (new_payload req) secret = SignFailAsync e ->
  serve env UsersRegister req s = (Uncaught e, set_users s (users s ++ [new_user env req])).
Proof using Hvalid Hemail Hnew Hsecret. intros H. by rewrite register_runs_to_sign, H. Qed.

End RegisterSign.

(** C2 (not met by the code): a valid registration with a fresh email,
    served by a deployment whose signer reports its failure from the
    event loop, ends in an uncaught exception, with no 500 response, and
    the user record already written. *)
Theorem register_sign_failure_uncaught :
  validate_register Demo.env_sign_fails_late Demo.register_carol = []
  /\ serve Demo.env_sign_fails_late UsersRegister Demo.register_carol Demo.store1
     = (Uncaught (Error "error:0909006C:PEM routines"),
        mkStore [Demo.alice; Demo.bob;
                 User.mk Demo.idN "Carol" "c@x.com" "$2a$10$secret3"
                         "//www.gravatar.com/avatar/c@x.com"]
                [Demo.profile1] [Demo.post1]).
Proof.
  split; [reflexivity |].
  apply (register_sign_fails_late Demo.env_sign_fails_late Demo.register_carol
           Demo.store1 "mysecrettoken");
    reflexivity.
Qed.

(** * The routes as a whole *)

(** ** Running a handler on every path *)

Ltac unfold_ops :=
  unfold try_catch, Post_findById, User_findById, Profile_findOne_user,
    User_findOne_email, User_save_new, User_findOneAndRemove_id,
    Post_save_new, Post_save, Post_remove, Profile_save,
    Profile_findOneAndRemove_user, cast_ObjectId, insert, reply, lift, throw,
    get_store, put_store, nonnull;
  unfold mbind, mret, M_bind, M_ret; simpl.

(** Splits on the innermost test the goal is waiting for. *)
Ltac exec_case :=
  match goal with
  | |- context [match ?x with _ => _ end] =>
      lazymatch x with
      | context [match _ with _ => _ end] => fail
      | _ => destruct x eqn:?
      end
  end.

Ltac exec := unfold_ops; repeat (exec_case; simpl in *; simplify_eq).

Lemma filter_liked_cons_inv uid (l : list Like.t) like rest :
  List.filter (fun like => String.eqb (Like.user like) uid) l = like :: rest ->
  uid ∈ (Like.user <$> l).
Proof.
  induction l as [| x l IH]; simpl; [done |].
  destruct (String.eqb (Like.user x) uid) eqn:He.
  - intros _. apply String.eqb_eq in He. rewrite He. left.
  - intros H. right. by apply IH.
Qed.

Lemma negb_eqb_false (a b : string) : negb (String.eqb a b) = false -> a = b.
Proof. intros H. apply String.eqb_eq. by destruct (String.eqb a b). Qed.

Section PostsChange.

Variable env : Env.

Lemma posts_create_change req s :
  posts (snd (posts_create env req s)) = posts s
  \/ exists uid, req_user_id req = Ok uid
       /\ post_change uid (posts s) (posts (snd (posts_create env req s))).
Proof.
  unfold posts_create. exec. all: try (by left).
  right. eexists. split; [done |]. by apply change_create.
Qed.

Lemma posts_delete_change req s :
  posts (snd (posts_delete env req s)) = posts s
  \/ exists uid, req_user_id req = Ok uid
       /\ post_change uid (posts s) (posts (snd (posts_delete env req s))).
Proof.
  unfold posts_delete. exec. all: try (by left).
  right. eexists. split; [done |].
  match goal with
  | Hf : find _ _ = Some ?t, Hu : negb _ = false |- _ =>
      apply negb_eqb_false in Hu; pose proof (find_key _ _ _ _ Hf) as Hk;
      apply change_remove; [by rewrite Hk | done]
  end.
Qed.

Lemma posts_like_change req s :
  posts (snd (posts_like env req s)) = posts s
  \/ exists uid, req_user_id req = Ok uid
       /\ post_change uid (posts s) (posts (snd (posts_like env req s))).
Proof.
  unfold posts_like. exec. all: try (by left).
  right. eexists. split; [done |].
  match goal with
  | Hf : find _ (posts s) = Some ?t, Hu : req_user_id req = Ok ?uid,
    Hm : filter_throwing _ _ = Ok ?mine, Hl : (0 <? length ?mine)%nat = false |- _ =>
      pose proof (find_key _ _ _ _ Hf) as Hk;
      rewrite (filter_liked_by _ _ _ Hu) in Hm; injection Hm as <-;
      apply change_like; [by rewrite Hk | done |];
      apply filter_liked_nil_inv;
      destruct (List.filter _ (Post.likes t)); [done | discriminate Hl]
  end.
Qed.

Lemma posts_unlike_change req s :
  posts (snd (posts_unlike env req s)) = posts s
  \/ exists uid, req_user_id req = Ok uid
       /\ post_change uid (posts s) (posts (snd (posts_unlike env req s))).
Proof.
  unfold posts_unlike. exec. all: try (by left).
  right. eexists. split; [done |].
  match goal with
  | Hf : find _ (posts s) = Some ?t, Hu : req_user_id req = Ok ?uid,
    Hm : filter_throwing _ _ = Ok ?mine, Hl : (length ?mine =? 0)%nat = false |- _ =>
      pose proof (find_key _ _ _ _ Hf) as Hk;
      rewrite (filter_liked_by _ _ _ Hu) in Hm; injection Hm as <-;
      apply change_unlike; [by rewrite Hk |];
      destruct (List.filter _ (Post.likes t)) eqn:Hfl; [discriminate Hl |];
      by eapply filter_liked_cons_inv
  end.
Qed.

Lemma posts_comment_change req s :
  posts (snd (posts_comment env req s)) = posts s
  \/ exists uid, req_user_id req = Ok uid
       /\ post_change uid (posts s) (posts (snd (posts_comment env req s))).
Proof.
  unfold posts_comment. exec. all: try (by left).
  right. eexists. split; [done |].
  match goal with
  | Hf : find _ (posts s) = Some ?t |- _ =>
      pose proof (find_key _ _ _ _ Hf) as Hk;
      apply change_comment; [by rewrite Hk | done]
  end.
Qed.

(** The comment deletion never gets as far as [post.save()]. *)
Lemma posts_delete_comment_unchanged req s : snd (posts_delete_comment env req s) = s.
Proof.
  unfold posts_delete_comment. exec. all: try done.
  match goal with
  | Hf : find _ (Post.comments ?t) = Some _, Hm : map_throwing _ _ = Ok _ |- _ =>
      destruct (Post.comments t); [discriminate Hf | discriminate Hm]
  end.
Qed.

Lemma users_register_posts req s : posts (snd (users_register env req s)) = posts s.
Proof. unfold users_register, config_get_jwtSecret, sign_callback. exec; done. Qed.

Lemma profile_delete_posts req s : posts (snd (profile_delete env req s)) = posts s.
Proof. unfold profile_delete. exec; done. Qed.

Lemma profile_add_experience_posts req s :
  posts (snd (profile_add_experience env req s)) = posts s.
Proof. unfold profile_add_experience. exec; done. Qed.

Lemma profile_delete_experience_posts req s :
  posts (snd (profile_delete_experience env req s)) = posts s.
Proof. unfold profile_delete_experience. exec; done. Qed.

Lemma profile_add_education_posts req s :
  posts (snd (profile_add_education env req s)) = posts s.
Proof. unfold profile_add_education. exec; done. Qed.

Lemma profile_delete_education_posts req s :
  posts (snd (profile_delete_education env req s)) = posts s.
Proof. unfold profile_delete_education. exec; done. Qed.

Lemma snd_serve r req s : snd (serve env r req s) = snd (handler_of env r req s).
Proof. unfold serve. by destruct (handler_of env r req s). Qed.

Lemma caller_of_next req req' uid :
  auth env req = Next req' -> req_user_id req' = Ok uid -> caller env req = Some uid.
Proof.
  intros Ha Hu. unfold caller. rewrite Ha. unfold req_user_id, nonnull in Hu.
  destruct (Req.user req'); cbv in Hu; by simplify_eq.
Qed.

(** Every route, on every request and store: the posts collection is
    left as it was or it changes by one write on behalf of the caller. *)
Lemma serve_post_change r req s :
  posts (snd (serve env r req s)) = posts s
  \/ exists uid, caller env req = Some uid
       /\ post_change uid (posts s) (posts (snd (serve env r req s))).
Proof.
  assert (Hprot : forall h : Req.t -> M Pending,
    (forall req' s, posts (snd (h req' s)) = posts s
       \/ exists uid, req_user_id req' = Ok uid
            /\ post_change uid (posts s) (posts (snd (h req' s)))) ->
    posts (snd (protected env h req s)) = posts s
    \/ exists uid, caller env req = Some uid
         /\ post_change uid (posts s) (posts (snd (protected env h req s)))).
  { intros h Hh. unfold protected. destruct (auth env req) as [resp | req'] eqn:Ha.
    - by left.
    - destruct (Hh req' s) as [? | (uid & Hu & Hc)]; [by left |].
      right. exists uid. split; [by eapply caller_of_next | done]. }
  assert (Huntouched : forall h : Req.t -> M Pending,
    (forall req' s, posts (snd (h req' s)) = posts s) ->
    forall req' s, posts (snd (h req' s)) = posts s
       \/ exists uid, req_user_id req' = Ok uid
            /\ post_change uid (posts s) (posts (snd (h req' s)))).
  { intros h Hh req' s'. left. apply Hh. }
  rewrite snd_serve. destruct r; simpl.
  - left. apply users_register_posts.
  - apply Hprot, posts_create_change.
  - apply Hprot, posts_delete_change.
  - apply Hprot, posts_like_change.
  - apply Hprot, posts_unlike_change.
  - apply Hprot, posts_comment_change.
  - apply Hprot, Huntouched. intros. by rewrite posts_delete_comment_unchanged.
  - apply Hprot, Huntouched, profile_delete_posts.
  - apply Hprot, Huntouched, profile_add_experience_posts.
  - apply Hprot, Huntouched, profile_delete_experience_posts.
  - apply Hprot, Huntouched, profile_add_education_posts.
  - apply Hprot, Huntouched, profile_delete_education_posts.
Qed.

End PostsChange.

(** ** Lookups after a write *)

Lemma find_app_Some {A} (f : A -> bool) (l k : list A) (x : A) :
  find f l = Some x -> find f (l ++ k) = Some x.
Proof. induction l as [| y l IH]; simpl; [done |]. by destruct (f y). Qed.

Lemma find_app_None {A} (f : A -> bool) (l k : list A) :
  find f l = None -> find f (l ++ k) = find f k.
Proof. induction l as [| y l IH]; simpl; [done |]. by destruct (f y). Qed.

Lemma find_existsb_false {A} (f : A -> bool) (l : list A) :
  existsb f l = false -> find f l = None.
Proof.
  induction l as [| y l IH]; simpl; [done |].
  destruct (f y); simpl; [done | exact IH].
Qed.

Lemma find_update_other {D} (key : D -> ObjectId) (id : ObjectId) (d : D) (l : list D) :
  key d <> id -> find (has_id key id) (update key d l) = find (has_id key id) l.
Proof.
  intros Hne. induction l as [| x l IH]; simpl; [done |].
  unfold has_id in *. destruct (String.eqb (key x) (key d)) eqn:Hx; simpl.
  - apply String.eqb_eq in Hx. rewrite Hx. by rewrite (eqb_false_of_ne _ _ Hne).
  - by rewrite IH.
Qed.

Lemma fmap_key_update {D} (key : D -> ObjectId) (d : D) (l : list D) :
  key <$> update key d l = key <$> l.
Proof.
  induction l as [| x l IH]; simpl; [done |].
  destruct (String.eqb (key x) (key d)) eqn:Hx; simpl.
  - apply String.eqb_eq in Hx. by rewrite Hx.
  - f_equal. exact IH.
Qed.

Lemma remove_first_sublist {D} (test : D -> bool) (l : list D) :
  remove_first test l `sublist_of` l.
Proof.
  induction l as [| x l IH]; simpl; [done |].
  destruct (test x); [by apply sublist_cons | by apply sublist_skip].
Qed.

Lemma existsb_has_id_false {D} (key : D -> ObjectId) (id : ObjectId) (l : list D) :
  existsb (has_id key id) l = false -> id ∉ (key <$> l).
Proof.
  induction l as [| x l IH]; simpl; [intros _; apply not_elem_of_nil |].
  unfold has_id in *. destruct (String.eqb (key x) id) eqn:Hx; simpl; [done |].
  intros H. apply not_elem_of_cons. split; [| by apply IH].
  intros ->. by rewrite String.eqb_refl in Hx.
Qed.

(** A write of the posts router keeps the ids of the collection apart. *)
Lemma post_change_ids uid l l' :
  post_change uid l l' -> NoDup (Post.id <$> l) -> NoDup (Post.id <$> l').
Proof.
  intros Hc Hl. destruct Hc.
  - rewrite fmap_app. apply NoDup_app. split; [done |]. split.
    + intros x Hx ?%list_elem_of_singleton. subst x.
      by eapply existsb_has_id_false.
    + simpl. apply NoDup_singleton.
  - eapply sublist_NoDup; [exact Hl |]. apply fmap_sublist, remove_first_sublist.
  - by rewrite fmap_key_update.
  - by rewrite fmap_key_update.
  - by rewrite fmap_key_update.
Qed.

(** What a write of the posts router does to the post with a given id,
    when that post is there before and after. *)
Lemma post_change_find uid l l' id p p' :
  post_change uid l l' -> NoDup (Post.id <$> l) ->
  find (has_id Post.id id) l = Some p -> find (has_id Post.id id) l' = Some p' ->
  p' = p
  \/ (exists like, Like.user like = uid /\ (uid ∉ (Like.user <$> Post.likes p))
                   /\ p' = Post.with_likes p (like :: Post.likes p))
  \/ (uid ∈ (Like.user <$> Post.likes p)
      /\ p' = Post.with_likes p
                (splice (Post.likes p) (indexOf (Like.user <$> Post.likes p) uid) 1))
  \/ (exists c, Comment.user c = uid
                /\ p' = Post.with_comments p (c :: Post.comments p)).
Proof.
  intros Hc Hnd Hp Hp'.
  assert (Hupd : forall q q',
            find (has_id Post.id (Post.id q)) l = Some q ->
            find (has_id Post.id id) (update Post.id q' l) = Some p' ->
            Post.id q' = Post.id q ->
            (Post.id q = id /\ q = p /\ p' = q') \/ (Post.id q <> id /\ p' = p)).
  { intros q q' Hq Hf Hid. destruct (decide (Post.id q = id)) as [He | Hne].
    - left. rewrite He in Hq. rewrite Hq in Hp. injection Hp as ->.
      rewrite (find_update Post.id id p q' l Hq) in Hf by congruence.
      injection Hf as ->. done.
    - right. rewrite find_update_other in Hf by (by rewrite Hid). split; congruence. }
  destruct Hc as [q | q Hq | q like Hq | q Hq | q c Hq].
  - left. rewrite (find_app_Some _ _ _ _ Hp) in Hp'. congruence.
  - left. destruct (decide (id = Post.id q)) as [-> | Hne].
    + by rewrite find_remove_first_same in Hp'.
    + rewrite find_remove_first_other in Hp' by done. congruence.
  - destruct (Hupd q _ Hq Hp' eq_refl) as [(_ & -> & ->) | [_ ->]];
      [| by left].
    right. left. eauto.
  - destruct (Hupd q _ Hq Hp' eq_refl) as [(_ & -> & ->) | [_ ->]];
      [| by left].
    right. right. left. eauto.
  - destruct (Hupd q _ Hq Hp' eq_refl) as [(_ & -> & ->) | [_ ->]];
      [| by left].
    right. right. right. eauto.
Qed.

Lemma find_post_unfold id s : find_post id s = find (has_id Post.id id) (posts s).
Proof. reflexivity. Qed.

Lemma reachable_post_ids env s : reachable env s -> NoDup (Post.id <$> posts s).
Proof.
  induction 1 as [s Hs | r req s _ IH | s l _ IH].
  - rewrite Hs. apply NoDup_nil_2.
  - destruct (serve_post_change env r req s) as [-> | (uid & _ & Hc)]; [done |].
    by eapply post_change_ids.
  - exact IH.
Qed.

Lemma find_of_NoDup {D} (key : D -> ObjectId) (l : list D) (d : D) :
  NoDup (key <$> l) -> d ∈ l -> find (has_id key (key d)) l = Some d.
Proof.
  induction l as [| x l IH]; simpl.
  - by intros _ ?%elem_of_nil.
  - intros [Hx Hl]%NoDup_cons [-> | Hin]%elem_of_cons; unfold has_id in *.
    + by rewrite String.eqb_refl.
    + destruct (String.eqb (key x) (key d)) eqn:He; [| by apply IH].
      apply String.eqb_eq in He. destruct Hx. rewrite He.
      by apply list_elem_of_fmap_2.
Qed.

(** ** Who can make a post disappear, and what stays of a post *)

(** X1: when a post that was in the store is no longer found after a
    request, whatever the route, the request came from the identity the
    post names in [user]. *)
Theorem post_vanishes_only_for_owner env r req s id p :
  find_post id s = Some p ->
  find_post id (snd (serve env r req s)) = None ->
  caller env req = Some (Post.user p).
Proof.
  rewrite !find_post_unfold. intros Hp Hgone.
  destruct (serve_post_change env r req s) as [He | (uid & Hcaller & Hc)].
  - rewrite He in Hgone. congruence.
  - rewrite Hcaller. f_equal. destruct Hc as [q | q Hq Hu | q like Hq | q Hq | q c Hq].
    + rewrite (find_app_Some _ _ _ _ Hp) in Hgone. discriminate.
    + destruct (decide (id = Post.id q)) as [-> | Hne].
      * congruence.
      * rewrite find_remove_first_other in Hgone by done. congruence.
    + destruct (decide (Post.id q = id)) as [He | Hne].
      * rewrite He in Hq. erewrite find_update in Hgone by done. discriminate.
      * rewrite find_update_other in Hgone by done. congruence.
    + destruct (decide (Post.id q = id)) as [He | Hne].
      * rewrite He in Hq. erewrite find_update in Hgone by done. discriminate.
      * rewrite find_update_other in Hgone by done. congruence.
    + destruct (decide (Post.id q = id)) as [He | Hne].
      * rewrite He in Hq. erewrite find_update in Hgone by done. discriminate.
      * rewrite find_update_other in Hgone by done. congruence.
Qed.

Lemma post_vanishes_only_for_owner_witness :
  caller Demo.env Scenario.delete_post1_as_A = Some Demo.idA.
Proof.
  apply (post_vanishes_only_for_owner Demo.env PostsDelete Scenario.delete_post1_as_A
           Demo.store1 Demo.idP Demo.post1); reflexivity.
Defined.

(** X2: a post that is in the store before and after a request, whatever
    the route, keeps its id, owner, text, name and avatar; its comments are
    the old ones, with at most one new comment in front, and that comment
    names the caller. *)
Theorem surviving_post_keeps_header env r req s id p p' :
  NoDup (Post.id <$> posts s) ->
  find_post id s = Some p ->
  find_post id (snd (serve env r req s)) = Some p' ->
  Post.id p' = Post.id p /\ Post.user p' = Post.user p
  /\ Post.text p' = Post.text p /\ Post.name p' = Post.name p
  /\ Post.avatar p' = Post.avatar p
  /\ (Post.comments p' = Post.comments p
      \/ exists c, caller env req = Some (Comment.user c)
                   /\ Post.comments p' = c :: Post.comments p).
Proof.
  rewrite !find_post_unfold. intros Hnd Hp Hp'.
  destruct (serve_post_change env r req s) as [He | (uid & Hcaller & Hc)].
  - rewrite He in Hp'. assert (p' = p) as -> by congruence. repeat split; by left.
  - destruct (post_change_find _ _ _ _ _ _ Hc Hnd Hp Hp')
      as [-> | [(like & _ & _ & ->) | [[_ ->] | (c & Hu & ->)]]];
      repeat split; try (by left).
    right. exists c. by rewrite Hu.
Qed.

Lemma demo_store_liked_ids : NoDup (Post.id <$> posts Demo.store_liked).
Proof. apply NoDup_singleton. Qed.

Lemma surviving_post_keeps_header_witness :
  Post.user Scenario.post_commented = Demo.idA
  /\ Post.text Scenario.post_commented = "hello"
  /\ Post.comments Scenario.post_commented
     = [Comment.mk Demo.idN Demo.idB "nice" "Bob" (User.avatar Demo.bob)].
Proof.
  destruct (surviving_post_keeps_header Demo.env PostsComment Scenario.comment_post1_as_B
              Demo.store_liked Demo.idP Scenario.post_liked Scenario.post_commented
              demo_store_liked_ids eq_refl eq_refl)
    as (_ & Hu & Ht & _ & _ & _).
  split; [exact Hu |]. split; [exact Ht | reflexivity].
Defined.

(** ** [indexOf] followed by [splice] *)

Lemma indexOf_from_shift (l : list string) (x : string) (i : Z) :
  x ∈ l -> indexOf_from l x i = i + indexOf_from l x 0.
Proof.
  revert i. induction l as [| y l IH]; intros i Hin; [by apply elem_of_nil in Hin |].
  simpl. destruct (String.eqb y x) eqn:He; [lia |].
  apply elem_of_cons in Hin as [-> | Hin]; [by rewrite String.eqb_refl in He |].
  rewrite (IH (i + 1) Hin), (IH (0 + 1) Hin). lia.
Qed.

Lemma indexOf_from_nonneg (l : list string) (x : string) (i : Z) :
  x ∈ l -> 0 <= i -> 0 <= indexOf_from l x i.
Proof.
  revert i. induction l as [| y l IH]; intros i Hin Hi; [by apply elem_of_nil in Hin |].
  simpl. destruct (String.eqb y x) eqn:He; [done |].
  apply elem_of_cons in Hin as [-> | Hin]; [by rewrite String.eqb_refl in He |].
  apply IH; [done | lia].
Qed.

Lemma splice_cons {A} (a : A) (l : list A) (i n : Z) :
  0 <= i -> splice (a :: l) (i + 1) n = a :: splice l i n.
Proof.
  intros Hi. unfold splice. simpl length.
  destruct (Z.ltb_spec (i + 1) 0) as [? | _]; [lia |].
  destruct (Z.ltb_spec i 0) as [? | _]; [lia |].
  replace (Z.min (i + 1) (Z.of_nat (S (length l))))
    with (Z.min i (Z.of_nat (length l)) + 1) by lia.
  set (from := Z.min i (Z.of_nat (length l))).
  assert (0 <= from) by (subst from; lia).
  replace (Z.of_nat (S (length l)) - (from + 1)) with (Z.of_nat (length l) - from) by lia.
  set (count := Z.min (Z.max n 0) (Z.of_nat (length l) - from)).
  assert (0 <= count) by (subst count from; lia).
  replace (Z.to_nat (from + 1)) with (S (Z.to_nat from)) by lia.
  replace (Z.to_nat (from + 1 + count)) with (S (Z.to_nat (from + count))) by lia.
  reflexivity.
Qed.

(** [l.splice(l.map(f).indexOf(x), 1)] takes out the first element whose
    [f] is [x], when there is one. *)
Lemma splice_indexOf {A} (f : A -> string) (l : list A) (x : string) :
  x ∈ (f <$> l) ->
  splice l (indexOf (f <$> l) x) 1 = remove_first (fun a => String.eqb (f a) x) l.
Proof.
  unfold indexOf. induction l as [| a l IH]; simpl; [by intros ?%elem_of_nil |].
  intros Hin. destruct (String.eqb (f a) x) eqn:He.
  - apply splice_head.
  - apply elem_of_cons in Hin as [-> | Hin]; [by rewrite String.eqb_refl in He |].
    rewrite (indexOf_from_shift _ _ (0 + 1) Hin). change (0 + 1) with 1.
    rewrite Z.add_comm.
    rewrite splice_cons by (by apply indexOf_from_nonneg). f_equal. by apply IH.
Qed.

Lemma filter_remove_first {A} (g t : A -> bool) (l : list A) :
  (forall a, t a = true -> g a = false) ->
  List.filter g (remove_first t l) = List.filter g l.
Proof.
  intros Hd. induction l as [| a l IH]; simpl; [done |].
  destruct (t a) eqn:Ht; simpl.
  - by rewrite (Hd a Ht).
  - by rewrite IH.
Qed.

(** X3: a request, whatever the route, leaves the likes of every user
    other than the caller in place: in a post that is in the store before
    and after, the entries naming such a user are the same, in the same
    order. *)
Theorem likes_of_others_untouched env r req s id p p' u :
  NoDup (Post.id <$> posts s) ->
  find_post id s = Some p ->
  find_post id (snd (serve env r req s)) = Some p' ->
  caller env req <> Some u ->
  List.filter (fun like => String.eqb (Like.user like) u) (Post.likes p')
  = List.filter (fun like => String.eqb (Like.user like) u) (Post.likes p).
Proof.
  rewrite !find_post_unfold. intros Hnd Hp Hp' Hu.
  destruct (serve_post_change env r req s) as [He | (uid & Hcaller & Hc)].
  - rewrite He in Hp'. by assert (p' = p) as -> by congruence.
  - assert (Hne : uid <> u) by congruence.
    destruct (post_change_find _ _ _ _ _ _ Hc Hnd Hp Hp')
      as [-> | [(like & Hl & _ & ->) | [[Hin ->] | (c & _ & ->)]]]; simpl; try done.
    + rewrite Hl. by rewrite (eqb_false_of_ne _ _ Hne).
    + rewrite splice_indexOf by done. apply filter_remove_first.
      intros a ->%String.eqb_eq. by apply eqb_false_of_ne.
Qed.

Lemma likes_of_others_untouched_witness :
  List.filter (fun like => String.eqb (Like.user like) Demo.idB)
              (Post.likes Scenario.post_liked_twice)
  = [Like.mk Demo.idN Demo.idB "Bob"].
Proof.
  apply (likes_of_others_untouched Demo.env PostsLike Scenario.like_post1_as_A
           Demo.store_liked Demo.idP Scenario.post_liked Scenario.post_liked_twice Demo.idB
           demo_store_liked_ids eq_refl eq_refl).
  discriminate.
Defined.

(** X4: in every store the server can reach, the ids of the posts are
    pairwise distinct, so [Post.findById], called with the id of a stored
    post, returns that very post and leaves the store alone, provided the
    id casts to an [ObjectId]; for an id that does not cast it throws the
    [CastError]. *)
Theorem stored_post_found_by_id env s p :
  reachable env s -> p ∈ posts s ->
  NoDup (Post.id <$> posts s)
  /\ Post_findById env (Post.id p) s
     = (if is_ObjectId env (Post.id p) then Ok (Some p) else Throw (CastError (Post.id p)),
        s).
Proof.
  intros Hr Hin. pose proof (reachable_post_ids env s Hr) as Hnd.
  split; [done |]. unfold Post_findById. unfold_ops.
  destruct (is_ObjectId env (Post.id p)); simpl; [| done].
  by rewrite (find_of_NoDup Post.id (posts s) p Hnd Hin).
Qed.

Lemma stored_post_found_by_id_witness :
  Post_findById Demo.env Demo.idP Demo.store_liked
  = (Ok (Some Scenario.post_liked), Demo.store_liked).
Proof.
  apply (stored_post_found_by_id Demo.env Demo.store_liked Scenario.post_liked
           demo_store_liked_reachable).
  left.
Defined.

(** X5: in a store the server can reach, the owner's request to delete a
    post is answered 200 [{ msg: 'Post Removed!' }]; afterwards the post is
    not found, every other post is found as before, and users and profiles
    are as they were. *)
Theorem owner_deletes_post env req s uid post :
  reachable env s ->
  authenticates env req uid -> is_ObjectId env (Req.post_id req) = true ->
  find_post (Req.post_id req) s = Some post -> Post.user post = uid ->
  fst (serve env PostsDelete req s) = Responded (json 200 (Msg "Post Removed!"))
  /\ find_post (Req.post_id req) (snd (serve env PostsDelete req s)) = None
  /\ (forall id, id <> Req.post_id req ->
        find_post id (snd (serve env PostsDelete req s)) = find_post id s)
  /\ users (snd (serve env PostsDelete req s)) = users s
  /\ profiles (snd (serve env PostsDelete req s)) = profiles s.
Proof.
  intros Hr Hauth Hoid Hpost Hu.
  destruct (delete_own_post env req s uid post Hauth Hoid Hpost Hu) as (Hs & Hother & Hgone).
  rewrite Hs. simpl. split; [done |]. split; [| split; [exact Hother | done]].
  apply Hgone. by eapply reachable_post_ids.
Qed.

Lemma owner_deletes_post_witness :
  serve Demo.env PostsDelete Scenario.delete_post1_as_A Demo.store_liked
  = (Responded (json 200 (Msg "Post Removed!")), Demo.store0).
Proof.
  pose proof (owner_deletes_post Demo.env Scenario.delete_post1_as_A Demo.store_liked
                Demo.idA Scenario.post_liked demo_store_liked_reachable
                (demo_authenticates_A _ _ _ _) eq_refl eq_refl eq_refl) as [Hresp _].
  apply injective_projections; [exact Hresp | reflexivity].
Defined.

(** ** Publishing, commenting, unliking *)

Lemma check_not_empty_ok req k msg : Req.field req k <> "" -> check_not_empty req k msg = [].
Proof. intros H. unfold check_not_empty. by rewrite (eqb_false_of_ne _ _ H). Qed.

Lemma check_not_empty_missing req k msg :
  Req.field req k = "" -> check_not_empty req k msg = [msg].
Proof. intros H. unfold check_not_empty. by rewrite H. Qed.

Lemma remove_first_app_last {D} (test : D -> bool) (l : list D) (d : D) :
  existsb test l = false -> test d = true -> remove_first test (l ++ [d]) = l.
Proof.
  intros Hl Hd. induction l as [| x l IH]; simpl in *; [by rewrite Hd |].
  destruct (test x); simpl in *; [done |]. by rewrite IH.
Qed.

(** Runs the handler of an authenticated request on the one path the
    hypotheses leave open. *)
Ltac exec_on_path :=
  unfold serve, answer, handler_of;
  repeat match goal with
         | H : authenticates _ _ _ |- _ => rewrite (protected_next _ _ _ _ H)
         end;
  unfold find_post, find_user, find_profile, find_comment in *;
  unfold_ops; rewrite ?req_user_id_with_user; simpl;
  repeat (exec_case; simpl in *; simplify_eq; rewrite ?req_user_id_with_user in *);
  try congruence; try reflexivity.

Lemma create_post_run env req s uid user :
  authenticates env req uid -> is_ObjectId env uid = true ->
  find_user uid s = Some user ->
  Req.field req "text" <> "" ->
  existsb (has_id Post.id (Req.new_oid req)) (posts s) = false ->
  serve env PostsCreate req s
  = (Responded (json 200 (PostDoc
       (Post.mk (Req.new_oid req) uid (Req.field req "text")
                (User.name user) (User.avatar user) [] []))),
     set_posts s (posts s ++
       [Post.mk (Req.new_oid req) uid (Req.field req "text")
                (User.name user) (User.avatar user) [] []])).
Proof.
  intros Hauth Hu Huser Htext Hnew.
  unfold serve, handler_of, posts_create.
  rewrite (protected_next _ _ _ _ Hauth).
  rewrite (check_not_empty_ok (Req.with_user req (Some (Identity.mk uid))) _ _ Htext).
  simpl. exec_on_path.
Qed.

(** X6: a request to publish a non-empty text, by a caller who has a user
    record, is answered 200 with the new post: it names the caller as its
    owner, carries the name and avatar of the caller's user record, has no
    likes and no comments, and is stored behind the posts already there,
    which are found as before. *)
Theorem create_post_publishes env req s uid user :
  authenticates env req uid -> is_ObjectId env uid = true ->
  find_user uid s = Some user ->
  Req.field req "text" <> "" ->
  existsb (has_id Post.id (Req.new_oid req)) (posts s) = false ->
  let post :=
    Post.mk (Req.new_oid req) uid (Req.field req "text")
            (User.name user) (User.avatar user) [] [] in
  serve env PostsCreate req s
  = (Responded (json 200 (PostDoc post)), set_posts s (posts s ++ [post]))
  /\ find_post (Req.new_oid req) (set_posts s (posts s ++ [post])) = Some post
  /\ (forall id p, find_post id s = Some p ->
        find_post id (set_posts s (posts s ++ [post])) = Some p).
Proof.
  intros Hauth Hu Huser Htext Hnew post. split; [| split].
  - by apply create_post_run.
  - unfold find_post. simpl. rewrite find_app_None by (by apply find_existsb_false).
    simpl. unfold has_id. simpl. by rewrite String.eqb_refl.
  - intros id p Hp. unfold find_post in *. simpl. by apply find_app_Some.
Qed.

Lemma scenario_publish_auth :
  Req.x_auth_token Scenario.publish_as_A = Some "jwt:5e9f00000000000000000a01"
  /\ "jwt:5e9f00000000000000000a01" <> ""
  /\ jwtSecret Demo.env = Some "mysecrettoken"
  /\ jwt_verify Demo.env "jwt:5e9f00000000000000000a01" "mysecrettoken"
     = Ok (mkPayload (Some (Identity.mk Demo.idA))).
Proof. repeat split. discriminate. Defined.

Lemma scenario_hello : Req.field Scenario.publish_as_A "text" <> "".
Proof. discriminate. Defined.

Lemma create_post_publishes_witness :
  serve Demo.env PostsCreate Scenario.publish_as_A Demo.store0
  = (Responded (json 200 (PostDoc Scenario.post_published)),
     mkStore [Demo.alice; Demo.bob] [] [Scenario.post_published]).
Proof.
  apply (create_post_publishes Demo.env Scenario.publish_as_A Demo.store0 Demo.idA Demo.alice
           (ex_intro _ "jwt:5e9f00000000000000000a01"
              (ex_intro _ "mysecrettoken" scenario_publish_auth))
           eq_refl eq_refl scenario_hello eq_refl).
Defined.

(** X7: publishing a post and then deleting it, both by the same caller,
    brings the store back to what it was; the deletion is answered 200. *)
Theorem create_then_delete_restores env req req' s uid user :
  authenticates env req uid -> authenticates env req' uid ->
  is_ObjectId env uid = true -> find_user uid s = Some user ->
  Req.field req "text" <> "" ->
  existsb (has_id Post.id (Req.new_oid req)) (posts s) = false ->
  Req.post_id req' = Req.new_oid req -> is_ObjectId env (Req.new_oid req) = true ->
  serve env PostsDelete req' (snd (serve env PostsCreate req s))
  = (Responded (json 200 (Msg "Post Removed!")), s).
Proof.
  intros Hauth Hauth' Hu Huser Htext Hnew Hid Hoid.
  rewrite (create_post_run env req s uid user) by done. simpl.
  set (post := Post.mk (Req.new_oid req) uid (Req.field req "text")
                       (User.name user) (User.avatar user) [] []).
  assert (Hfind : find_post (Req.post_id req') (set_posts s (posts s ++ [post])) = Some post).
  { rewrite Hid. unfold find_post. simpl.
    rewrite find_app_None by (by apply find_existsb_false).
    simpl. unfold has_id. simpl. by rewrite String.eqb_refl. }
  rewrite <- Hid in Hoid.
  destruct (delete_own_post env req' _ uid post Hauth' Hoid Hfind eq_refl) as [-> _].
  f_equal. simpl. rewrite set_posts_twice, Hid.
  rewrite remove_first_app_last; [apply set_posts_same | done |].
  unfold has_id. simpl. apply String.eqb_refl.
Qed.

Lemma create_then_delete_restores_witness :
  serve Demo.env PostsDelete Scenario.delete_post1_as_A
        (snd (serve Demo.env PostsCreate Scenario.publish_as_A Demo.store0))
  = (Responded (json 200 (Msg "Post Removed!")), Demo.store0).
Proof.
  apply (create_then_delete_restores Demo.env Scenario.publish_as_A
           Scenario.delete_post1_as_A Demo.store0 Demo.idA Demo.alice
           (ex_intro _ "jwt:5e9f00000000000000000a01"
              (ex_intro _ "mysecrettoken" scenario_publish_auth))
           (demo_authenticates_A _ _ _ _) eq_refl eq_refl scenario_hello
           eq_refl eq_refl eq_refl).
Defined.

(** X8: a request to comment with a non-empty text on a post that
    exists, by any caller who has a user record (the owner of the post or
    not), is answered 200 with the comments of the post, the new comment
    first; the comment names the caller and carries the name and avatar of
    the caller's user record; the post is saved with it and is otherwise
    unchanged. *)
Theorem comment_goes_in_front env req s uid user post :
  authenticates env req uid -> is_ObjectId env uid = true ->
  find_user uid s = Some user ->
  is_ObjectId env (Req.post_id req) = true ->
  find_post (Req.post_id req) s = Some post ->
  Req.field req "text" <> "" ->
  let comment :=
    Comment.mk (Req.new_oid req) uid (Req.field req "text")
               (User.name user) (User.avatar user) in
  let post' := Post.with_comments post (comment :: Post.comments post) in
  serve env PostsComment req s
  = (Responded (json 200 (CommentList (comment :: Post.comments post))),
     set_posts s (update Post.id post' (posts s)))
  /\ find_post (Req.post_id req) (set_posts s (update Post.id post' (posts s)))
     = Some post'.
Proof.
  intros Hauth Hu Huser Hoid Hpost Htext comment post'. split.
  - unfold serve, handler_of, posts_comment.
    rewrite (protected_next _ _ _ _ Hauth).
    rewrite (check_not_empty_ok (Req.with_user req (Some (Identity.mk uid))) _ _ Htext).
    simpl. exec_on_path.
  - rewrite find_post_set_posts. eapply find_update; [exact Hpost |].
    simpl. by eapply find_key.
Qed.

Lemma scenario_comment_auth :
  authenticates Demo.env Scenario.comment_post1_as_B Demo.idB.
Proof.
  exists "jwt:5e9f00000000000000000b02", "mysecrettoken".
  repeat split. discriminate.
Defined.

Lemma scenario_nice : Req.field Scenario.comment_post1_as_B "text" <> "".
Proof. discriminate. Defined.

Lemma comment_goes_in_front_witness :
  serve Demo.env PostsComment Scenario.comment_post1_as_B Demo.store_liked
  = (Responded (json 200 (CommentList (Post.comments Scenario.post_commented))),
     mkStore [Demo.alice; Demo.bob] [] [Scenario.post_commented]).
Proof.
  apply (comment_goes_in_front Demo.env Scenario.comment_post1_as_B Demo.store_liked
           Demo.idB Demo.bob Scenario.post_liked scenario_comment_auth
           eq_refl eq_refl eq_refl eq_refl scenario_nice).
Defined.

Lemma length_remove_first {A} (t : A -> bool) (l : list A) (x : A) :
  x ∈ l -> t x = true -> (length (remove_first t l) + 1 = length l)%nat.
Proof.
  induction 1 as [x l | x y l _ IH]; intros Hx; simpl.
  - rewrite Hx. lia.
  - destruct (t y); simpl; [lia |]. rewrite <- (IH Hx). lia.
Qed.

Lemma remove_first_unique {A} (f : A -> string) (x : string) (l : list A) :
  NoDup (f <$> l) ->
  remove_first (fun a => String.eqb (f a) x) l
  = List.filter (fun a => negb (String.eqb (f a) x)) l.
Proof.
  induction l as [| a l IH]; simpl; [done |].
  intros [Ha Hl]%NoDup_cons. destruct (String.eqb (f a) x) eqn:He; simpl.
  - apply String.eqb_eq in He. subst x. clear IH.
    induction l as [| b l IH]; simpl; [done |].
    apply not_elem_of_cons in Ha as [Hne Ha]. apply NoDup_cons in Hl as [_ Hl].
    rewrite (eqb_false_of_ne (f b) (f a)) by done. simpl. f_equal. by apply IH.
  - f_equal. by apply IH.
Qed.

(** X9: the unlike of a post the caller has liked is answered 200 with
    the likes of the post less the first entry that names the caller, and
    the post is saved with that list: one entry fewer, the others in their
    order.  When no user occurs twice in the list, the caller no longer
    occurs in it. *)
Theorem unlike_removes_own_like env req s uid post :
  authenticates env req uid -> is_ObjectId env (Req.post_id req) = true ->
  find_post (Req.post_id req) s = Some post ->
  uid ∈ (Like.user <$> Post.likes post) ->
  let likes' :=
    remove_first (fun like => String.eqb (Like.user like) uid) (Post.likes post) in
  serve env PostsUnlike req s
  = (Responded (json 200 (LikeList likes')),
     set_posts s (update Post.id (Post.with_likes post likes') (posts s)))
  /\ (length likes' + 1 = length (Post.likes post))%nat
  /\ (NoDup (Like.user <$> Post.likes post) ->
      likes' = List.filter (fun like => negb (String.eqb (Like.user like) uid))
                           (Post.likes post)
      /\ (uid ∉ (Like.user <$> likes'))).
Proof.
  intros Hauth Hoid Hpost Hin likes'.
  destruct (filter_liked_some _ _ Hin) as (like & rest & Hf).
  split; [| split].
  - unfold serve, handler_of, posts_unlike.
    rewrite (protected_next _ _ _ _ Hauth).
    unfold find_post in Hpost. unfold_ops. rewrite Hoid, Hpost. simpl.
    rewrite (filter_liked_by _ uid) by done. rewrite Hf. simpl.
    rewrite ?req_user_id_with_user. simpl.
    by rewrite splice_indexOf.
  - apply list_elem_of_fmap in Hin as (x & -> & Hx).
    apply (length_remove_first _ _ x Hx). apply String.eqb_refl.
  - intros Hnd. subst likes'. rewrite (remove_first_unique Like.user uid _ Hnd).
    split; [done |]. intros (x & -> & Hx)%list_elem_of_fmap.
    apply list_elem_of_In, filter_In in Hx as [_ Hx].
    by rewrite String.eqb_refl in Hx.
Qed.

Lemma unlike_removes_own_like_witness :
  serve Demo.env PostsUnlike Demo.like_post1_as_B Demo.store_liked
  = (Responded (json 200 (LikeList [])), Demo.store_posted).
Proof.
  apply (unlike_removes_own_like Demo.env Demo.like_post1_as_B Demo.store_liked
           Demo.idB Scenario.post_liked (demo_authenticates_B _ _ _ _) eq_refl eq_refl).
  simpl. left.
Defined.

(** ** Requests that do not get through *)

(** X10: a like, an unlike or a comment (with a text) aimed at a post id
    that does not cast, or at an id in [toString()] form that no post has,
    is answered 500 ['Server Error!'], not 404, and the store stays as it
    was. *)
Theorem unknown_post_is_server_error env r req s uid :
  authenticates env req uid ->
  r = PostsLike \/ r = PostsUnlike
  \/ (r = PostsComment /\ Req.field req "text" <> "") ->
  is_ObjectId env (Req.post_id req) = false
  \/ (is_toString_form (Req.post_id req) = true
      /\ find_post (Req.post_id req) s = None) ->
  serve env r req s = (Responded (send 500 "Server Error!"), s).
Proof.
  intros Hauth Hr Hno.
  assert (Hno' : is_ObjectId env (Req.post_id req) = false
                 \/ find_post (Req.post_id req) s = None)
    by (destruct Hno as [? | [_ ?]]; [by left | by right]).
  clear Hno. rename Hno' into Hno.
  destruct Hr as [-> | [-> | [-> Htext]]]; unfold serve, handler_of.
  - unfold posts_like. destruct Hno; exec_on_path.
  - unfold posts_unlike. destruct Hno; exec_on_path.
  - unfold posts_comment. rewrite (protected_next _ _ _ _ Hauth).
    rewrite (check_not_empty_ok (Req.with_user req (Some (Identity.mk uid))) _ _ Htext).
    simpl. destruct Hno; exec_on_path.
Qed.

Lemma unknown_post_is_server_error_witness :
  serve Demo.env PostsLike Scenario.like_no_post_as_B Demo.store_liked
  = (Responded (send 500 "Server Error!"), Demo.store_liked).
Proof.
  apply (unknown_post_is_server_error Demo.env PostsLike Scenario.like_no_post_as_B
           Demo.store_liked Demo.idB (demo_authenticates_B _ _ _ _)).
  - by left.
  - right. split; reflexivity.
Defined.

(** X11: a request to publish or to comment whose [text] is missing or
    empty is answered 400 with [{ errors: [{ msg: 'Text is required!' }] }]
    before any lookup, so also when the post to comment on does not exist;
    the store stays as it was. *)
Theorem text_is_required env r req s uid :
  authenticates env req uid ->
  r = PostsCreate \/ r = PostsComment ->
  Req.field req "text" = "" ->
  serve env r req s = (Responded (json 400 (Errors ["Text is required!"])), s).
Proof.
  intros Hauth Hr Htext.
  destruct Hr as [-> | ->]; unfold serve, handler_of;
    rewrite (protected_next _ _ _ _ Hauth).
  - unfold posts_create.
    by rewrite (check_not_empty_missing
                  (Req.with_user req (Some (Identity.mk uid))) _ _ Htext).
  - unfold posts_comment.
    by rewrite (check_not_empty_missing
                  (Req.with_user req (Some (Identity.mk uid))) _ _ Htext).
Qed.

Lemma text_is_required_witness :
  serve Demo.env PostsComment Scenario.like_no_post_as_B Demo.store_liked
  = (Responded (json 400 (Errors ["Text is required!"])), Demo.store_liked).
Proof.
  apply (text_is_required Demo.env PostsComment Scenario.like_no_post_as_B
           Demo.store_liked Demo.idB (demo_authenticates_B _ _ _ _)).
  - by right.
  - reflexivity.
Defined.

(** The middleware refuses with 401 only. *)
Lemma auth_short_is_401 env req resp :
  auth env req = ShortCircuit resp -> status resp = 401%nat.
Proof.
  unfold auth, config_get_jwtSecret.
  destruct (falsy (Req.x_auth_token req)); [by intros [= <-] |].
  destruct (jwtSecret env) as [secret |]; simpl; [| by intros [= <-]].
  destruct (jwt_verify env _ secret); simpl; [done | by intros [= <-]].
Qed.

(** X12: the comment deletion changes the store on no request: whatever
    the token, the ids and the store, the store after it is the store
    before it, and the status of the answer is not 200. *)
Theorem comment_delete_never_writes env req s :
  snd (serve env PostsDeleteComment req s) = s
  /\ exists resp, fst (serve env PostsDeleteComment req s) = Responded resp
                  /\ status resp <> 200%nat.
Proof.
  split.
  - rewrite snd_serve. simpl. unfold protected.
    destruct (auth env req); [done | apply posts_delete_comment_unchanged].
  - unfold serve, handler_of, protected.
    destruct (auth env req) as [resp | req'] eqn:Ha.
    + simpl. exists resp. split; [done |]. by rewrite (auth_short_is_401 _ _ _ Ha).
    + unfold posts_delete_comment. exec; eauto.
      match goal with
      | Hf : find _ (Post.comments ?t) = Some _, Hm : map_throwing _ _ = Ok _ |- _ =>
          destruct (Post.comments t); [discriminate Hf | discriminate Hm]
      end.
Qed.

(** ** Reading a post *)

Lemma posts_get_run env req s :
  posts_get env req s
  = (Ok (Replied
       (match (if is_ObjectId env (Req.post_id req)
               then find_post (Req.post_id req) s else None) with
        | Some post => json 200 (PostDoc post)
        | None => json 404 (Msg "Post not Found!")
        end)), s).
Proof.
  unfold posts_get, find_post. unfold_ops.
  destruct (is_ObjectId env (Req.post_id req)); simpl; [| done].
  by destruct (find _ (posts s)).
Qed.

(** X13: for an authenticated caller, GET api/posts/:post_id answers 200
    with the post when the id casts and a post has it, and 404 [{ msg:
    'Post not Found!' }] when the id does not cast or is an id in
    [toString()] form that no post has; it never writes.  In particular a
    post just published is returned under its new id, to any caller. *)
Theorem get_post_finds_or_404 env req s uid :
  authenticates env req uid ->
  (forall post,
      is_ObjectId env (Req.post_id req) = true ->
      find_post (Req.post_id req) s = Some post ->
      answer (protected env (posts_get env)) req s
      = (Responded (json 200 (PostDoc post)), s))
  /\ (is_ObjectId env (Req.post_id req) = false
      \/ (is_toString_form (Req.post_id req) = true
          /\ find_post (Req.post_id req) s = None) ->
      answer (protected env (posts_get env)) req s
      = (Responded (json 404 (Msg "Post not Found!")), s))
  /\ snd (answer (protected env (posts_get env)) req s) = s
  /\ (forall req' owner user,
        authenticates env req' owner -> is_ObjectId env owner = true ->
        find_user owner s = Some user -> Req.field req' "text" <> "" ->
        existsb (has_id Post.id (Req.new_oid req')) (posts s) = false ->
        Req.post_id req = Req.new_oid req' ->
        is_ObjectId env (Req.new_oid req') = true ->
        fst (answer (protected env (posts_get env)) req
                    (snd (serve env PostsCreate req' s)))
        = Responded (json 200 (PostDoc
            (Post.mk (Req.new_oid req') owner (Req.field req' "text")
                     (User.name user) (User.avatar user) [] [])))).
Proof.
  intros Hauth.
  assert (Hrun : forall s',
    answer (protected env (posts_get env)) req s'
    = (Responded
         (match (if is_ObjectId env (Req.post_id req)
                 then find_post (Req.post_id req) s' else None) with
          | Some post => json 200 (PostDoc post)
          | None => json 404 (Msg "Post not Found!")
          end), s')).
  { intros s'. unfold answer. rewrite (protected_next _ _ _ _ Hauth).
    by rewrite posts_get_run. }
  split; [| split; [| split]].
  - intros post Hoid Hpost. by rewrite Hrun, Hoid, Hpost.
  - intros Hno. rewrite Hrun. destruct (is_ObjectId env (Req.post_id req)); [| done].
    by destruct Hno as [? | [_ ->]].
  - by rewrite Hrun.
  - intros req' owner user Hauth' Ho Hu Htext Hnew Hid Hoid.
    rewrite (create_post_run env req' s owner user) by done. simpl.
    rewrite Hrun. simpl. rewrite Hid, Hoid. unfold find_post. simpl.
    rewrite find_app_None by (by apply find_existsb_false).
    simpl. unfold has_id. simpl. by rewrite String.eqb_refl.
Qed.

Lemma get_post_finds_or_404_witness :
  answer (protected Demo.env (posts_get Demo.env)) Scenario.get_post1_as_B Demo.store_liked
  = (Responded (json 200 (PostDoc Scenario.post_liked)), Demo.store_liked)
  /\ answer (protected Demo.env (posts_get Demo.env)) Scenario.like_no_post_as_B
            Demo.store_liked
     = (Responded (json 404 (Msg "Post not Found!")), Demo.store_liked).
Proof.
  split.
  - apply (proj1 (get_post_finds_or_404 Demo.env Scenario.get_post1_as_B Demo.store_liked
                    Demo.idB (demo_authenticates_B _ _ _ _))); reflexivity.
  - apply (proj1 (proj2 (get_post_finds_or_404 Demo.env Scenario.like_no_post_as_B
                           Demo.store_liked Demo.idB (demo_authenticates_B _ _ _ _)))).
    right. split; reflexivity.
Defined.

(** ** Experience and education entries *)

#[local] Arguments pick : simpl never.

Lemma with_experience_back p l :
  Profile.with_experience (Profile.with_experience p l) (Profile.experience p) = p.
Proof. by destruct p. Qed.

Lemma with_education_back p l :
  Profile.with_education (Profile.with_education p l) (Profile.education p) = p.
Proof. by destruct p. Qed.

Lemma set_profiles_twice s l l' : set_profiles (set_profiles s l) l' = set_profiles s l'.
Proof. reflexivity. Qed.

Lemma set_profiles_same s : set_profiles s (profiles s) = s.
Proof. by destruct s. Qed.




Lemma add_experience_run env req s uid profile :
  authenticates env req uid -> is_ObjectId env uid = true ->
  find_profile uid s = Some profile ->
  Req.field req "title" <> "" -> Req.field req "company" <> "" ->
  Req.field req "from" <> "" ->
  serve env ProfileAddExperience req s
  = (Responded (json 200 (ProfileDoc
       (Profile.with_experience profile
          (Entry.mk (Req.new_oid req)
             (pick ["title"; "company"; "from"; "to"; "location"; "current";
                    "description"] (Req.body req))
           :: Profile.experience profile)))),
     set_profiles s
       (update Profile.id
          (Profile.with_experience profile
             (Entry.mk (Req.new_oid req)
                (pick ["title"; "company"; "from"; "to"; "location"; "current";
                       "description"] (Req.body req))
              :: Profile.experience profile))
          (profiles s))).
Proof.
  intros Hauth Hu Hp H1 H2 H3.
  unfold serve, handler_of, profile_add_experience.
  rewrite (protected_next _ _ _ _ Hauth).
  rewrite !(check_not_empty_ok (Req.with_user req (Some (Identity.mk uid)))) by done.
  simpl. exec_on_path.
Qed.

Lemma add_education_run env req s uid profile :
  authenticates env req uid -> is_ObjectId env uid = true ->
  find_profile uid s = Some profile ->
  Req.field req "school" <> "" -> Req.field req "degree" <> "" ->
  Req.field req "fieldofstudy" <> "" -> Req.field req "from" <> "" ->
  serve env ProfileAddEducation req s
  = (Responded (json 200 (ProfileDoc
       (Profile.with_education profile
          (Entry.mk (Req.new_oid req)
             (pick ["school"; "degree"; "fieldofstudy"; "from"; "to"; "current";
                    "description"] (Req.body req))
           :: Profile.education profile)))),
     set_profiles s
       (update Profile.id
          (Profile.with_education profile
             (Entry.mk (Req.new_oid req)
                (pick ["school"; "degree"; "fieldofstudy"; "from"; "to"; "current";
                       "description"] (Req.body req))
              :: Profile.education profile))
          (profiles s))).
Proof.
  intros Hauth Hu Hp H1 H2 H3 H4.
  unfold serve, handler_of, profile_add_education.
  rewrite (protected_next _ _ _ _ Hauth).
  rewrite !(check_not_empty_ok (Req.with_user req (Some (Identity.mk uid)))) by done.
  simpl. exec_on_path.
Qed.

Lemma delete_experience_run env req s uid profile :
  authenticates env req uid -> is_ObjectId env uid = true ->
  find_profile uid s = Some profile ->
  serve env ProfileDeleteExperience req s
  = (Responded (json 200 (ProfileDoc
       (Profile.with_experience profile
          (splice (Profile.experience profile)
             (indexOf (Entry.id <$> Profile.experience profile) (Req.exp_id req)) 1)))),
     set_profiles s
       (update Profile.id
          (Profile.with_experience profile
             (splice (Profile.experience profile)
                (indexOf (Entry.id <$> Profile.experience profile) (Req.exp_id req)) 1))
          (profiles s))).
Proof.
  intros Hauth Hu Hp. unfold serve, handler_of, profile_delete_experience. exec_on_path.
Qed.

Lemma delete_education_run env req s uid profile :
  authenticates env req uid -> is_ObjectId env uid = true ->
  find_profile uid s = Some profile ->
  serve env ProfileDeleteEducation req s
  = (Responded (json 200 (ProfileDoc
       (Profile.with_education profile
          (splice (Profile.education profile)
             (indexOf (Entry.id <$> Profile.education profile) (Req.edu_id req)) 1)))),
     set_profiles s
       (update Profile.id
          (Profile.with_education profile
             (splice (Profile.education profile)
                (indexOf (Entry.id <$> Profile.education profile) (Req.edu_id req)) 1))
          (profiles s))).
Proof.
  intros Hauth Hu Hp. unfold serve, handler_of, profile_delete_education. exec_on_path.
Qed.


Lemma scenario_add_experience_auth :
  authenticates Demo.env Scenario.add_experience_as_A Demo.idA.
Proof.
  exists "jwt:5e9f00000000000000000a01", "mysecrettoken".
  repeat split. discriminate.
Defined.

Lemma scenario_add_education_auth :
  authenticates Demo.env Scenario.add_education_as_A Demo.idA.
Proof.
  exists "jwt:5e9f00000000000000000a01", "mysecrettoken".
  repeat split. discriminate.
Defined.


Lemma find_update_found {D} (key : D -> ObjectId) (test : D -> bool) (p p' : D) (l : list D) :
  NoDup (key <$> l) -> find test l = Some p -> key p' = key p -> test p' = true ->
  find test (update key p' l) = Some p'.
Proof.
  intros Hnd Hf Hk Ht. induction l as [| x l IH]; simpl in *; [done |].
  apply NoDup_cons in Hnd as [Hx Hnd].
  destruct (test x) eqn:Hx'.
  - injection Hf as ->. rewrite Hk, String.eqb_refl. simpl. by rewrite Ht.
  - destruct (String.eqb (key x) (key p')) eqn:He.
    + apply String.eqb_eq in He. destruct Hx. rewrite He, Hk.
      apply list_elem_of_fmap_2. by apply find_has in Hf as [? _].
    + simpl. rewrite Hx'. by apply IH.
Qed.

Lemma find_found_by_key {D} (key : D -> ObjectId) (test : D -> bool) (p : D) (l : list D) :
  NoDup (key <$> l) -> find test l = Some p -> find (has_id key (key p)) l = Some p.
Proof.
  intros Hnd Hf. apply find_of_NoDup; [done |]. by apply find_has in Hf as [? _].
Qed.

(** X15: adding an entry and then deleting the entry with the id it was
    given, both by the same caller, brings the store back to what it was;
    the deletion is answered 200 with the profile as it was before the
    two requests.  This holds for experience and for education. *)
Theorem add_then_delete_entry_restores env req req' s uid profile :
  authenticates env req uid -> authenticates env req' uid ->
  is_ObjectId env uid = true -> find_profile uid s = Some profile ->
  NoDup (Profile.id <$> profiles s) ->
  (Req.field req "title" <> "" -> Req.field req "company" <> "" ->
   Req.field req "from" <> "" -> Req.exp_id req' = Req.new_oid req ->
   serve env ProfileDeleteExperience req' (snd (serve env ProfileAddExperience req s))
   = (Responded (json 200 (ProfileDoc profile)), s))
  /\ (Req.field req "school" <> "" -> Req.field req "degree" <> "" ->
      Req.field req "fieldofstudy" <> "" -> Req.field req "from" <> "" ->
      Req.edu_id req' = Req.new_oid req ->
      serve env ProfileDeleteEducation req' (snd (serve env ProfileAddEducation req s))
      = (Responded (json 200 (ProfileDoc profile)), s)).
Proof.
  intros Hauth Hauth' Hu Hp Hnd.
  assert (Huser : Profile.user profile = uid) by (by eapply find_key).
  assert (Hself : find (has_id Profile.id (Profile.id profile)) (profiles s) = Some profile)
    by (by eapply find_found_by_key).
  split.
  - intros H1 H2 H3 Hid.
    rewrite (add_experience_run env req s uid profile) by done. simpl.
    match goal with
    | |- context [update Profile.id ?p' (profiles s)] => set (profile' := p')
    end.
    assert (Hp' : find_profile uid (set_profiles s (update Profile.id profile' (profiles s)))
                  = Some profile').
    { unfold find_profile. simpl. eapply find_update_found; try done.
      unfold has_id. simpl. rewrite Huser. apply String.eqb_refl. }
    rewrite (delete_experience_run env req' _ uid profile' Hauth' Hu Hp').
    subst profile'. simpl. rewrite Hid, indexOf_head, splice_head.
    rewrite with_experience_back, set_profiles_twice.
    rewrite update_update by done. by rewrite set_profiles_same.
  - intros H1 H2 H3 H4 Hid.
    rewrite (add_education_run env req s uid profile) by done. simpl.
    match goal with
    | |- context [update Profile.id ?p' (profiles s)] => set (profile' := p')
    end.
    assert (Hp' : find_profile uid (set_profiles s (update Profile.id profile' (profiles s)))
                  = Some profile').
    { unfold find_profile. simpl. eapply find_update_found; try done.
      unfold has_id. simpl. rewrite Huser. apply String.eqb_refl. }
    rewrite (delete_education_run env req' _ uid profile' Hauth' Hu Hp').
    subst profile'. simpl. rewrite Hid, indexOf_head, splice_head.
    rewrite with_education_back, set_profiles_twice.
    rewrite update_update by done. by rewrite set_profiles_same.
Qed.

Lemma demo_store1_profile_ids : NoDup (Profile.id <$> profiles Demo.store1).
Proof. apply NoDup_singleton. Qed.

Lemma add_then_delete_entry_restores_witness :
  serve Demo.env ProfileDeleteExperience Scenario.delete_entry_N_as_A
        (snd (serve Demo.env ProfileAddExperience Scenario.add_experience_as_A Demo.store1))
  = (Responded (json 200 (ProfileDoc Demo.profile1)), Demo.store1)
  /\ serve Demo.env ProfileDeleteEducation Scenario.delete_entry_N_as_A
        (snd (serve Demo.env ProfileAddEducation Scenario.add_education_as_A Demo.store1))
  = (Responded (json 200 (ProfileDoc Demo.profile1)), Demo.store1).
Proof.
  split.
  - apply (proj1 (add_then_delete_entry_restores Demo.env Scenario.add_experience_as_A
                    Scenario.delete_entry_N_as_A Demo.store1 Demo.idA Demo.profile1
                    scenario_add_experience_auth (demo_authenticates_A _ _ _ _)
                    eq_refl eq_refl demo_store1_profile_ids));
      try discriminate; reflexivity.
  - apply (proj2 (add_then_delete_entry_restores Demo.env Scenario.add_education_as_A
                    Scenario.delete_entry_N_as_A Demo.store1 Demo.idA Demo.profile1
                    scenario_add_education_auth (demo_authenticates_A _ _ _ _)
                    eq_refl eq_refl demo_store1_profile_ids));
      try discriminate; reflexivity.
Defined.

Lemma splice_nil {A} (start deleteCount : Z) : splice (@nil A) start deleteCount = [].
Proof. unfold splice. by rewrite take_nil, drop_nil. Qed.

Lemma with_experience_same p : Profile.with_experience p (Profile.experience p) = p.
Proof. by destruct p. Qed.

Lemma with_education_same p : Profile.with_education p (Profile.education p) = p.
Proof. by destruct p. Qed.

Lemma remove_first_entry_facts (l : list Entry.t) (id : string) :
  id ∈ (Entry.id <$> l) ->
  (length (remove_first (fun e => String.eqb (Entry.id e) id) l) + 1 = length l)%nat
  /\ (NoDup (Entry.id <$> l) ->
      remove_first (fun e => String.eqb (Entry.id e) id) l
      = List.filter (fun e => negb (String.eqb (Entry.id e) id)) l
      /\ (id ∉ (Entry.id <$> remove_first (fun e => String.eqb (Entry.id e) id) l))).
Proof.
  intros Hin. split.
  - apply list_elem_of_fmap in Hin as (x & -> & Hx).
    apply (length_remove_first _ _ x Hx). apply String.eqb_refl.
  - intros Hnd. rewrite (remove_first_unique Entry.id id _ Hnd).
    split; [done |]. intros (x & -> & Hx)%list_elem_of_fmap.
    apply list_elem_of_In, filter_In in Hx as [_ Hx].
    by rewrite String.eqb_refl in Hx.
Qed.

(** X16: for a caller who has a profile, the deletion of an experience
    (an education) whose id is in the list is answered 200 with the
    profile less the first entry that has the id, and the profile is saved
    so: one entry fewer, the others in their order, and, when the ids of
    the list are distinct, no entry with that id left.  On an empty list
    the deletion is answered 200 with the profile as it is. *)
Theorem delete_present_entry_removes_it env req s uid profile :
  authenticates env req uid -> is_ObjectId env uid = true ->
  find_profile uid s = Some profile ->
  (Req.exp_id req ∈ (Entry.id <$> Profile.experience profile) ->
   let entries :=
     remove_first (fun e => String.eqb (Entry.id e) (Req.exp_id req))
                  (Profile.experience profile) in
   serve env ProfileDeleteExperience req s
   = (Responded (json 200 (ProfileDoc (Profile.with_experience profile entries))),
      set_profiles s
        (update Profile.id (Profile.with_experience profile entries) (profiles s)))
   /\ (length entries + 1 = length (Profile.experience profile))%nat
   /\ (NoDup (Entry.id <$> Profile.experience profile) ->
       entries = List.filter (fun e => negb (String.eqb (Entry.id e) (Req.exp_id req)))
                             (Profile.experience profile)
       /\ (Req.exp_id req ∉ (Entry.id <$> entries))))
  /\ (Req.edu_id req ∈ (Entry.id <$> Profile.education profile) ->
      let entries :=
        remove_first (fun e => String.eqb (Entry.id e) (Req.edu_id req))
                     (Profile.education profile) in
      serve env ProfileDeleteEducation req s
      = (Responded (json 200 (ProfileDoc (Profile.with_education profile entries))),
         set_profiles s
           (update Profile.id (Profile.with_education profile entries) (profiles s)))
      /\ (length entries + 1 = length (Profile.education profile))%nat
      /\ (NoDup (Entry.id <$> Profile.education profile) ->
          entries = List.filter (fun e => negb (String.eqb (Entry.id e) (Req.edu_id req)))
                                (Profile.education profile)
          /\ (Req.edu_id req ∉ (Entry.id <$> entries))))
  /\ (Profile.experience profile = [] ->
      fst (serve env ProfileDeleteExperience req s)
      = Responded (json 200 (ProfileDoc profile)))
  /\ (Profile.education profile = [] ->
      fst (serve env ProfileDeleteEducation req s)
      = Responded (json 200 (ProfileDoc profile))).
Proof.
  intros Hauth Hu Hp. split; [| split; [| split]].
  - intros Hin entries. split; [| by apply remove_first_entry_facts].
    rewrite (delete_experience_run env req s uid profile) by done.
    by rewrite splice_indexOf.
  - intros Hin entries. split; [| by apply remove_first_entry_facts].
    rewrite (delete_education_run env req s uid profile) by done.
    by rewrite splice_indexOf.
  - intros Hnil. rewrite (delete_experience_run env req s uid profile) by done.
    simpl. rewrite Hnil at 1. rewrite splice_nil, <- Hnil.
    by rewrite with_experience_same.
  - intros Hnil. rewrite (delete_education_run env req s uid profile) by done.
    simpl. rewrite Hnil at 1. rewrite splice_nil, <- Hnil.
    by rewrite with_education_same.
Qed.

Lemma delete_present_entry_removes_it_witness :
  serve Demo.env ProfileDeleteExperience Scenario.delete_entry_F_as_A Demo.store1
  = (Responded (json 200 (ProfileDoc
       (Profile.with_experience Demo.profile1 [Demo.exp1]))),
     mkStore [Demo.alice; Demo.bob]
             [Profile.with_experience Demo.profile1 [Demo.exp1]] [Demo.post1]).
Proof.
  apply (proj1 (delete_present_entry_removes_it Demo.env Scenario.delete_entry_F_as_A
                  Demo.store1 Demo.idA Demo.profile1 (demo_authenticates_A _ _ _ _)
                  eq_refl eq_refl)).
  simpl. right. left.
Defined.

(** X17: a caller who has no profile (or whose id does not cast) gets
    500 ['Server Error!'] from the four entry routes, also for an addition
    whose fields are all there; the store stays as it was. *)
Theorem entry_routes_need_profile env r req s uid :
  authenticates env req uid ->
  is_ObjectId env uid = false \/ find_profile uid s = None ->
  r = ProfileDeleteExperience \/ r = ProfileDeleteEducation
  \/ (r = ProfileAddExperience /\ Req.field req "title" <> ""
      /\ Req.field req "company" <> "" /\ Req.field req "from" <> "")
  \/ (r = ProfileAddEducation /\ Req.field req "school" <> ""
      /\ Req.field req "degree" <> "" /\ Req.field req "fieldofstudy" <> ""
      /\ Req.field req "from" <> "") ->
  serve env r req s = (Responded (send 500 "Server Error!"), s).
Proof.
  intros Hauth Hno Hr.
  destruct Hr as [-> | [-> | [(-> & H1 & H2 & H3) | (-> & H1 & H2 & H3 & H4)]]];
    unfold serve, handler_of.
  - unfold profile_delete_experience. destruct Hno; exec_on_path.
  - unfold profile_delete_education. destruct Hno; exec_on_path.
  - unfold profile_add_experience. rewrite (protected_next _ _ _ _ Hauth).
    rewrite !(check_not_empty_ok (Req.with_user req (Some (Identity.mk uid)))) by done.
    simpl. destruct Hno; exec_on_path.
  - unfold profile_add_education. rewrite (protected_next _ _ _ _ Hauth).
    rewrite !(check_not_empty_ok (Req.with_user req (Some (Identity.mk uid)))) by done.
    simpl. destruct Hno; exec_on_path.
Qed.

Lemma entry_routes_need_profile_witness :
  serve Demo.env ProfileDeleteExperience Scenario.delete_entry_N_as_B Demo.store1
  = (Responded (send 500 "Server Error!"), Demo.store1).
Proof.
  apply (entry_routes_need_profile Demo.env ProfileDeleteExperience
           Scenario.delete_entry_N_as_B Demo.store1 Demo.idB
           (demo_authenticates_B _ _ _ _)).
  - by right.
  - by left.
Defined.

(** ** Deleting the account *)

Lemma profile_delete_run env req s uid :
  authenticates env req uid -> is_ObjectId env uid = true ->
  serve env ProfileDelete req s
  = (Responded (json 200 (Msg "User Removed!")),
     mkStore (remove_first (has_id User.id uid) (users s))
             (remove_first (has_id Profile.user uid) (profiles s))
             (posts s)).
Proof. intros Hauth Hu. unfold serve, handler_of, profile_delete. exec_on_path. Qed.

(** X18: the deletion of the account is answered 200 [{ msg: 'User
    Removed!' }], whether or not the caller has a profile or a user
    record; it removes the first profile of the caller and the caller's
    user record, and nothing else: the posts collection, the caller's posts
    included, is as it was, and the user records and profiles of everybody
    else are found as before. *)
Theorem account_deletion env req s uid :
  authenticates env req uid -> is_ObjectId env uid = true ->
  let s' := snd (serve env ProfileDelete req s) in
  fst (serve env ProfileDelete req s) = Responded (json 200 (Msg "User Removed!"))
  /\ users s' = remove_first (has_id User.id uid) (users s)
  /\ profiles s' = remove_first (has_id Profile.user uid) (profiles s)
  /\ posts s' = posts s
  /\ (NoDup (User.id <$> users s) -> find_user uid s' = None)
  /\ (forall id, id <> uid ->
        find_user id s' = find_user id s /\ find_profile id s' = find_profile id s)
  /\ (find_user uid s = None -> find_profile uid s = None -> s' = s).
Proof.
  intros Hauth Hu s'. subst s'. rewrite (profile_delete_run env req s uid Hauth Hu).
  simpl. repeat split; unfold find_user, find_profile; simpl.
  - intros Hnd. by apply find_remove_first_same.
  - by apply find_remove_first_other.
  - by apply find_remove_first_other.
  - unfold find_user, find_profile. intros Hnu Hnp.
    assert (Hrm : forall {D} (t : D -> bool) (l : list D),
               find t l = None -> remove_first t l = l).
    { intros D t l. induction l as [| x l IH]; simpl; [done |].
      destruct (t x); [done |]. intros H. by rewrite IH. }
    rewrite (Hrm _ _ _ Hnu), (Hrm _ _ _ Hnp). by destruct s.
Qed.

Lemma account_deletion_witness :
  serve Demo.env ProfileDelete Scenario.delete_account_as_A Demo.store1
  = (Responded (json 200 (Msg "User Removed!")), mkStore [Demo.bob] [] [Demo.post1]).
Proof.
  pose proof (account_deletion Demo.env Scenario.delete_account_as_A Demo.store1 Demo.idA
                (demo_authenticates_A _ _ _ _) eq_refl) as [Hresp _].
  apply injective_projections; [exact Hresp | reflexivity].
Defined.

(** ** Profiles and user records of other people *)

Section ProfilesChange.

Variable env : Env.

Ltac profile_saved :=
  right; eexists; split; [done |];
  match goal with
  | Hf : find _ (profiles _) = Some ?p |- _ =>
      apply (change_save _ _ p); [exact Hf | done ..]
  end.

Lemma profile_add_experience_change req s :
  profiles (snd (profile_add_experience env req s)) = profiles s
  \/ exists uid, req_user_id req = Ok uid
       /\ profile_change uid (profiles s) (profiles (snd (profile_add_experience env req s))).
Proof. unfold profile_add_experience. exec; try (by left). profile_saved. Qed.

Lemma profile_add_education_change req s :
  profiles (snd (profile_add_education env req s)) = profiles s
  \/ exists uid, req_user_id req = Ok uid
       /\ profile_change uid (profiles s) (profiles (snd (profile_add_education env req s))).
Proof. unfold profile_add_education. exec; try (by left). profile_saved. Qed.

Lemma profile_delete_experience_change req s :
  profiles (snd (profile_delete_experience env req s)) = profiles s
  \/ exists uid, req_user_id req = Ok uid
       /\ profile_change uid (profiles s)
            (profiles (snd (profile_delete_experience env req s))).
Proof. unfold profile_delete_experience. exec; try (by left). profile_saved. Qed.

Lemma profile_delete_education_change req s :
  profiles (snd (profile_delete_education env req s)) = profiles s
  \/ exists uid, req_user_id req = Ok uid
       /\ profile_change uid (profiles s)
            (profiles (snd (profile_delete_education env req s))).
Proof. unfold profile_delete_education. exec; try (by left). profile_saved. Qed.

Lemma profile_delete_change req s :
  profiles (snd (profile_delete env req s)) = profiles s
  \/ exists uid, req_user_id req = Ok uid
       /\ profile_change uid (profiles s) (profiles (snd (profile_delete env req s))).
Proof.
  unfold profile_delete. exec; try (by left).
  right. eexists. split; [done |]. apply change_drop.
Qed.

Lemma users_register_profiles req s : profiles (snd (users_register env req s)) = profiles s.
Proof. unfold users_register, config_get_jwtSecret, sign_callback. exec; done. Qed.

Lemma posts_create_profiles req s : profiles (snd (posts_create env req s)) = profiles s.
Proof. unfold posts_create. exec; done. Qed.

Lemma posts_delete_profiles req s : profiles (snd (posts_delete env req s)) = profiles s.
Proof. unfold posts_delete. exec; done. Qed.

Lemma posts_like_profiles req s : profiles (snd (posts_like env req s)) = profiles s.
Proof. unfold posts_like. exec; done. Qed.

Lemma posts_unlike_profiles req s : profiles (snd (posts_unlike env req s)) = profiles s.
Proof. unfold posts_unlike. exec; done. Qed.

Lemma posts_comment_profiles req s : profiles (snd (posts_comment env req s)) = profiles s.
Proof. unfold posts_comment. exec; done. Qed.

Lemma serve_profile_change r req s :
  profiles (snd (serve env r req s)) = profiles s
  \/ exists uid, caller env req = Some uid
       /\ profile_change uid (profiles s) (profiles (snd (serve env r req s))).
Proof.
  assert (Hprot : forall h : Req.t -> M Pending,
    (forall req' s, profiles (snd (h req' s)) = profiles s
       \/ exists uid, req_user_id req' = Ok uid
            /\ profile_change uid (profiles s) (profiles (snd (h req' s)))) ->
    profiles (snd (protected env h req s)) = profiles s
    \/ exists uid, caller env req = Some uid
         /\ profile_change uid (profiles s) (profiles (snd (protected env h req s)))).
  { intros h Hh. unfold protected. destruct (auth env req) as [resp | req'] eqn:Ha.
    - by left.
    - destruct (Hh req' s) as [? | (uid & Hu & Hc)]; [by left |].
      right. exists uid. split; [by eapply caller_of_next | done]. }
  assert (Huntouched : forall h : Req.t -> M Pending,
    (forall req' s, profiles (snd (h req' s)) = profiles s) ->
    forall req' s, profiles (snd (h req' s)) = profiles s
       \/ exists uid, req_user_id req' = Ok uid
            /\ profile_change uid (profiles s) (profiles (snd (h req' s)))).
  { intros h Hh req' s'. left. apply Hh. }
  rewrite snd_serve. destruct r; simpl.
  - left. apply users_register_profiles.
  - apply Hprot, Huntouched, posts_create_profiles.
  - apply Hprot, Huntouched, posts_delete_profiles.
  - apply Hprot, Huntouched, posts_like_profiles.
  - apply Hprot, Huntouched, posts_unlike_profiles.
  - apply Hprot, Huntouched, posts_comment_profiles.
  - apply Hprot, Huntouched. intros. by rewrite posts_delete_comment_unchanged.
  - apply Hprot, profile_delete_change.
  - apply Hprot, profile_add_experience_change.
  - apply Hprot, profile_delete_experience_change.
  - apply Hprot, profile_add_education_change.
  - apply Hprot, profile_delete_education_change.
Qed.

End ProfilesChange.

Lemma find_update_unrelated {D} (key : D -> ObjectId) (test : D -> bool) (p p' : D)
    (l : list D) :
  NoDup (key <$> l) -> p ∈ l -> key p' = key p ->
  test p = false -> test p' = false ->
  find test (update key p' l) = find test l.
Proof.
  intros Hnd Hin Hk Hp Hp'. induction l as [| x l IH]; simpl; [done |].
  apply NoDup_cons in Hnd as [Hx Hnd].
  destruct (String.eqb (key x) (key p')) eqn:He; simpl.
  - apply String.eqb_eq in He. rewrite Hp'.
    apply elem_of_cons in Hin as [-> | Hin]; [by rewrite Hp |].
    destruct Hx. rewrite He, Hk. by apply list_elem_of_fmap_2.
  - apply elem_of_cons in Hin as [-> | Hin].
    + rewrite Hk, String.eqb_refl in He. discriminate.
    + by rewrite IH.
Qed.

(** X19: the routes that add or delete an experience or an education and
    the route that deletes the account write to the caller's own profile
    only, and the registration and the posts routes write to no profile:
    after a request to any of these twelve routes,
    [Profile.findOne({ user })] returns for every user other than the
    caller what it returned before.  (Profile ids are distinct, as the
    database keeps them.  POST api/profile, which creates or updates a
    profile, is not one of the twelve.) *)
Theorem profiles_of_others_untouched env r req s u :
  NoDup (Profile.id <$> profiles s) ->
  caller env req <> Some u ->
  find_profile u (snd (serve env r req s)) = find_profile u s.
Proof.
  intros Hnd Hu. unfold find_profile.
  destruct (serve_profile_change env r req s) as [-> | (uid & Hcaller & Hc)]; [done |].
  assert (Hne : u <> uid) by congruence.
  destruct Hc as [p p' Hp Hid Huser _ |].
  - apply find_has in Hp as [Hin Hp]. apply String.eqb_eq in Hp.
    apply (find_update_unrelated _ _ p); try done; unfold has_id.
    + apply eqb_false_of_ne. congruence.
    + apply eqb_false_of_ne. congruence.
  - by apply find_remove_first_other.
Qed.

Lemma profiles_of_others_untouched_witness :
  find_profile Demo.idA
    (snd (serve Demo.env ProfileDelete Scenario.delete_account_as_B Demo.store1))
  = Some Demo.profile1.
Proof.
  apply (profiles_of_others_untouched Demo.env ProfileDelete Scenario.delete_account_as_B
           Demo.store1 Demo.idA demo_store1_profile_ids).
  discriminate.
Defined.

Section UsersChange.

Variable env : Env.

Lemma users_register_users req s :
  users (snd (users_register env req s)) = users s
  \/ (existsb (has_id User.id (Req.new_oid req)) (users s) = false
      /\ users (snd (users_register env req s)) = users s ++ [new_user env req]).
Proof.
  unfold users_register, config_get_jwtSecret, sign_callback.
  exec; try (by left); by right.
Qed.

Lemma profile_delete_users req s :
  users (snd (profile_delete env req s)) = users s
  \/ exists uid, req_user_id req = Ok uid
       /\ users (snd (profile_delete env req s))
          = remove_first (has_id User.id uid) (users s).
Proof. unfold profile_delete. exec; try (by left). right. eauto. Qed.

Lemma posts_create_users req s : users (snd (posts_create env req s)) = users s.
Proof. unfold posts_create. exec; done. Qed.
Lemma posts_delete_users req s : users (snd (posts_delete env req s)) = users s.
Proof. unfold posts_delete. exec; done. Qed.
Lemma posts_like_users req s : users (snd (posts_like env req s)) = users s.
Proof. unfold posts_like. exec; done. Qed.
Lemma posts_unlike_users req s : users (snd (posts_unlike env req s)) = users s.
Proof. unfold posts_unlike. exec; done. Qed.
Lemma posts_comment_users req s : users (snd (posts_comment env req s)) = users s.
Proof. unfold posts_comment. exec; done. Qed.
Lemma profile_add_experience_users req s :
  users (snd (profile_add_experience env req s)) = users s.
Proof. unfold profile_add_experience. exec; done. Qed.
Lemma profile_delete_experience_users req s :
  users (snd (profile_delete_experience env req s)) = users s.
Proof. unfold profile_delete_experience. exec; done. Qed.
Lemma profile_add_education_users req s :
  users (snd (profile_add_education env req s)) = users s.
Proof. unfold profile_add_education. exec; done. Qed.
Lemma profile_delete_education_users req s :
  users (snd (profile_delete_education env req s)) = users s.
Proof. unfold profile_delete_education. exec; done. Qed.

(** Every route: the users collection is left as it was, or the
    registration appends a new record, or the caller's record goes. *)
Lemma serve_user_change r req s :
  users (snd (serve env r req s)) = users s
  \/ (r = UsersRegister
      /\ existsb (has_id User.id (Req.new_oid req)) (users s) = false
      /\ users (snd (serve env r req s)) = users s ++ [new_user env req])
  \/ (exists uid, caller env req = Some uid
        /\ users (snd (serve env r req s)) = remove_first (has_id User.id uid) (users s)).
Proof.
  assert (Hkeep : forall h : Req.t -> M Pending,
    (forall req' s, users (snd (h req' s)) = users s) ->
    users (snd (protected env h req s)) = users s).
  { intros h Hh. unfold protected. by destruct (auth env req). }
  rewrite snd_serve. destruct r; simpl.
  - destruct (users_register_users req s) as [? | [? ?]]; [by left | right; by left].
  - left. apply Hkeep, posts_create_users.
  - left. apply Hkeep, posts_delete_users.
  - left. apply Hkeep, posts_like_users.
  - left. apply Hkeep, posts_unlike_users.
  - left. apply Hkeep, posts_comment_users.
  - left. apply Hkeep. intros. by rewrite posts_delete_comment_unchanged.
  - unfold protected. destruct (auth env req) as [resp | req'] eqn:Ha; [by left |].
    destruct (profile_delete_users req' s) as [? | (uid & Hu & Hd)]; [by left |].
    right. right. exists uid. split; [by eapply caller_of_next | done].
  - left. apply Hkeep, profile_add_experience_users.
  - left. apply Hkeep, profile_delete_experience_users.
  - left. apply Hkeep, profile_add_education_users.
  - left. apply Hkeep, profile_delete_education_users.
Qed.

End UsersChange.

(** X20: a user record is never modified, and it can only go on a request
    of the user it belongs to: as long as the caller is not that user, the
    record found for an id before a request, whatever the route, is found
    for it afterwards, with the same name, email, password hash and
    avatar. *)
Theorem user_record_is_stable env r req s id u :
  find_user id s = Some u ->
  caller env req <> Some id ->
  find_user id (snd (serve env r req s)) = Some u.
Proof.
  unfold find_user. intros Hu Hc.
  destruct (serve_user_change env r req s) as [-> | [(_ & _ & ->) | (uid & Hcaller & ->)]].
  - done.
  - by apply find_app_Some.
  - assert (Hne : id <> uid) by (intros ->; by apply Hc).
    by rewrite find_remove_first_other.
Qed.

Lemma user_record_is_stable_witness :
  find_user Demo.idA
    (snd (serve Demo.env ProfileDelete Scenario.delete_account_as_B Demo.store1))
  = Some Demo.alice.
Proof.
  apply (user_record_is_stable Demo.env ProfileDelete Scenario.delete_account_as_B
           Demo.store1 Demo.idA Demo.alice eq_refl).
  discriminate.
Defined.

(** ** Registration *)

Lemma register_taken_run env req s u :
  validate_register env req = [] ->
  find (fun u => String.eqb (User.email u) (Req.field req "email")) (users s) = Some u ->
  serve env UsersRegister req s
  = (Responded (json 400 (Errors ["User Already exists!"])), s).
Proof.
  intros Hv Hf. unfold serve, handler_of. rewrite (register_body _ _ _ Hv).
  unfold try_catch, User_findOne_email, mbind, M_bind, get_store, mret, M_ret.
  by rewrite Hf.
Qed.

Lemma find_new_user_by_email env req s :
  find (fun u => String.eqb (User.email u) (Req.field req "email")) (users s) = None ->
  find (fun u => String.eqb (User.email u) (Req.field req "email"))
       (users s ++ [new_user env req])
  = Some (new_user env req).
Proof.
  intros Hf. rewrite find_app_None by done. simpl. by rewrite String.eqb_refl.
Qed.

(** X21: a registration with valid fields, an email no user has and a
    signer that succeeds is answered 200 with the token; the new user
    record is stored behind the others with the bcrypt hash in place of the
    password and the gravatar URL as avatar, it is found under its id and
    under its email, the token is signed for its id, and the records
    already there, the profiles and the posts are untouched. *)
Theorem register_issues_token env req s secret token :
  validate_register env req = [] ->
  find (fun u => String.eqb (User.email u) (Req.field req "email")) (users s) = None ->
  existsb (has_id User.id (Req.new_oid req)) (users s) = false ->
  jwtSecret env = Some secret ->
  jwt_sign env (mkPayload (Some (Identity.mk (Req.new_oid req)))) secret = SignDone token ->
  let user :=
    User.mk (Req.new_oid req) (Req.field req "name") (Req.field req "email")
            (bcrypt_hash env (Req.field req "password"))
            (gravatar_url env (Req.field req "email")) in
  let s' := snd (serve env UsersRegister req s) in
  fst (serve env UsersRegister req s) = Responded (json 200 (Token token))
  /\ users s' = users s ++ [user]
  /\ profiles s' = profiles s /\ posts s' = posts s
  /\ find_user (Req.new_oid req) s' = Some user
  /\ find (fun u => String.eqb (User.email u) (Req.field req "email")) (users s')
     = Some user
  /\ (forall id u, find_user id s = Some u -> find_user id s' = Some u).
Proof.
  intros Hv He Hn Hs Hsign user s'. subst s'.
  rewrite (register_sign_done env req s secret Hv He Hn Hs token Hsign). simpl.
  fold (new_user env req). repeat split.
  - unfold find_user. simpl. rewrite find_app_None by (by apply find_existsb_false).
    simpl. unfold has_id. simpl. by rewrite String.eqb_refl.
  - by apply find_new_user_by_email.
  - intros id u Hu. unfold find_user in *. simpl. by apply find_app_Some.
Qed.

Lemma register_issues_token_witness :
  serve Demo.env UsersRegister Demo.register_carol Demo.store1
  = (Responded (json 200 (Token "jwt:5e9f00000000000000000007")),
     Scenario.store_with_carol).
Proof.
  pose proof (register_issues_token Demo.env Demo.register_carol Demo.store1
                "mysecrettoken" "jwt:5e9f00000000000000000007"
                eq_refl eq_refl eq_refl eq_refl eq_refl) as [Hresp _].
  apply injective_projections; [exact Hresp | reflexivity].
Defined.

(** X22: once a registration has gone through, a second registration
    with the same email (and valid fields) is answered 400 with [{ errors:
    [{ msg: 'User Already exists!' }] }] and leaves the store as the first
    one left it. *)
Theorem register_twice_is_refused env req req' s secret token :
  validate_register env req = [] ->
  find (fun u => String.eqb (User.email u) (Req.field req "email")) (users s) = None ->
  existsb (has_id User.id (Req.new_oid req)) (users s) = false ->
  jwtSecret env = Some secret ->
  jwt_sign env (mkPayload (Some (Identity.mk (Req.new_oid req)))) secret = SignDone token ->
  validate_register env req' = [] ->
  Req.field req' "email" = Req.field req "email" ->
  serve env UsersRegister req' (snd (serve env UsersRegister req s))
  = (Responded (json 400 (Errors ["User Already exists!"])),
     snd (serve env UsersRegister req s)).
Proof.
  intros Hv He Hn Hs Hsign Hv' Hsame.
  rewrite (register_sign_done env req s secret Hv He Hn Hs token Hsign). simpl.
  apply (register_taken_run env req' _ (new_user env req) Hv').
  rewrite Hsame. simpl. by apply find_new_user_by_email.
Qed.

Lemma register_twice_is_refused_witness :
  serve Demo.env UsersRegister Demo.register_carol
        (snd (serve Demo.env UsersRegister Demo.register_carol Demo.store1))
  = (Responded (json 400 (Errors ["User Already exists!"])), Scenario.store_with_carol).
Proof.
  apply (register_twice_is_refused Demo.env Demo.register_carol Demo.register_carol
           Demo.store1 "mysecrettoken" "jwt:5e9f00000000000000000007"
           eq_refl eq_refl eq_refl eq_refl eq_refl eq_refl eq_refl).
Defined.

(** X23: the three checks of the registration pass exactly when the name
    is not empty, the email is one for [isEmail] and the password has six
    characters or more.  A registration with an empty name, an email that
    is none or a shorter password is answered 400 with the messages of the
    failed checks, in the order name, email, password, and nothing is
    looked up, stored or signed. *)
Theorem register_rejects_invalid env req s :
  let messages :=
    (if String.eqb (Req.field req "name") "" then ["Name is required!"] else [])
    ++ (if isEmail env (Req.field req "email") then []
        else ["Please enter a valid email!"])
    ++ (if (String.length (Req.field req "password") <? 6)%nat
        then ["Please enter a password with 6 or more characters!"] else []) in
  (validate_register env req = []
   <-> Req.field req "name" <> "" /\ isEmail env (Req.field req "email") = true
       /\ (6 <= String.length (Req.field req "password"))%nat)
  /\ (Req.field req "name" = "" \/ isEmail env (Req.field req "email") = false
      \/ (String.length (Req.field req "password") < 6)%nat ->
      messages <> []
      /\ serve env UsersRegister req s = (Responded (json 400 (Errors messages)), s)).
Proof.
  intros messages.
  assert (Hm : validate_register env req = messages).
  { subst messages. unfold validate_register, check_not_empty.
    destruct (Nat.leb_spec 6 (String.length (Req.field req "password")));
      destruct (Nat.ltb_spec (String.length (Req.field req "password")) 6);
      try lia; reflexivity. }
  assert (Hbad : Req.field req "name" = "" \/ isEmail env (Req.field req "email") = false
                 \/ (String.length (Req.field req "password") < 6)%nat ->
                 messages <> []).
  { subst messages. intros [Hn | [He | Hp]].
    - rewrite Hn. done.
    - rewrite He. by destruct (String.eqb (Req.field req "name") "").
    - apply Nat.ltb_lt in Hp. rewrite Hp.
      destruct (String.eqb (Req.field req "name") "");
        by destruct (isEmail env (Req.field req "email")). }
  split.
  - rewrite Hm. split.
    + intros Hnil. repeat split.
      * intros Hn. apply Hbad; [by left | done].
      * destruct (isEmail env (Req.field req "email")) eqn:He; [done |].
        exfalso. apply Hbad; [right; by left | done].
      * destruct (Nat.le_gt_cases 6 (String.length (Req.field req "password")));
          [done |]. exfalso. apply Hbad; [right; by right | done].
    + intros (Hn & He & Hp). subst messages.
      rewrite (eqb_false_of_ne _ _ Hn), He.
      by destruct (Nat.ltb_spec (String.length (Req.field req "password")) 6); [lia |].
  - intros Hb. split; [by apply Hbad |].
    unfold serve, handler_of, users_register.
    rewrite bool_decide_eq_false_2 by (rewrite Hm; by apply Hbad).
    by rewrite Hm.
Qed.

Lemma register_rejects_invalid_witness :
  serve Demo.env UsersRegister Scenario.register_nothing Demo.store1
  = (Responded (json 400
       (Errors ["Name is required!"; "Please enter a valid email!";
                "Please enter a password with 6 or more characters!"])), Demo.store1).
Proof.
  apply (proj2 (register_rejects_invalid Demo.env Scenario.register_nothing Demo.store1)).
  left. reflexivity.
Defined.

(** X24: when [jwtSecret] is not configured, a valid registration with a
    fresh email is answered 500 ['Server Error'], but the user record has
    been saved by then: the same registration sent again is answered 400
    ['User Already exists!']. *)
Theorem register_without_secret_still_saves env req s :
  validate_register env req = [] ->
  find (fun u => String.eqb (User.email u) (Req.field req "email")) (users s) = None ->
  existsb (has_id User.id (Req.new_oid req)) (users s) = false ->
  jwtSecret env = None ->
  serve env UsersRegister req s
  = (Responded (send 500 "Server Error"), set_users s (users s ++ [new_user env req]))
  /\ serve env UsersRegister req (set_users s (users s ++ [new_user env req]))
     = (Responded (json 400 (Errors ["User Already exists!"])),
        set_users s (users s ++ [new_user env req])).
Proof.
  intros Hv He Hn Hs. split.
  - unfold serve, handler_of. rewrite (register_body _ _ _ Hv).
    unfold try_catch, User_findOne_email, User_save_new, insert, config_get_jwtSecret.
    run. rewrite He. run. rewrite Hn. run. by rewrite Hs.
  - apply (register_taken_run env req _ (new_user env req) Hv).
    simpl. by apply find_new_user_by_email.
Qed.

Lemma register_without_secret_still_saves_witness :
  serve Scenario.env_no_secret UsersRegister Demo.register_carol Demo.store1
  = (Responded (send 500 "Server Error"), Scenario.store_with_carol)
  /\ serve Scenario.env_no_secret UsersRegister Demo.register_carol
           Scenario.store_with_carol
     = (Responded (json 400 (Errors ["User Already exists!"])), Scenario.store_with_carol).
Proof.
  apply (register_without_secret_still_saves Scenario.env_no_secret Demo.register_carol
           Demo.store1); reflexivity.
Defined.

(** X25: the token a registration returns opens the protected routes for
    the new user: given a codec that decodes the token to the claim it was
    signed for, a request to publish that carries the token is answered
    200 with a post owned by the new user, under the registered name and
    the gravatar avatar. *)
Theorem registered_token_publishes env req req2 s secret token :
  validate_register env req = [] ->
  find (fun u => String.eqb (User.email u) (Req.field req "email")) (users s) = None ->
  existsb (has_id User.id (Req.new_oid req)) (users s) = false ->
  jwtSecret env = Some secret ->
  jwt_sign env (mkPayload (Some (Identity.mk (Req.new_oid req)))) secret = SignDone token ->
  jwt_verify env token secret = Ok (mkPayload (Some (Identity.mk (Req.new_oid req)))) ->
  token <> "" -> is_ObjectId env (Req.new_oid req) = true ->
  Req.x_auth_token req2 = Some token -> Req.field req2 "text" <> "" ->
  existsb (has_id Post.id (Req.new_oid req2)) (posts s) = false ->
  fst (serve env PostsCreate req2 (snd (serve env UsersRegister req s)))
  = Responded (json 200 (PostDoc
      (Post.mk (Req.new_oid req2) (Req.new_oid req) (Req.field req2 "text")
               (Req.field req "name") (gravatar_url env (Req.field req "email")) [] []))).
Proof.
  intros Hv He Hn Hs Hsign Hverify Htok Hoid Hreq2 Htext Hnew.
  rewrite (register_sign_done env req s secret Hv He Hn Hs token Hsign). simpl.
  assert (Hauth : authenticates env req2 (Req.new_oid req)) by (exists token, secret; done).
  rewrite (create_post_run env req2 _ (Req.new_oid req) (new_user env req)); try done.
  unfold find_user. simpl. rewrite find_app_None by (by apply find_existsb_false).
  simpl. unfold has_id. simpl. by rewrite String.eqb_refl.
Qed.

Lemma registered_token_publishes_witness :
  fst (serve Demo.env PostsCreate Scenario.publish_as_carol
             (snd (serve Demo.env UsersRegister Demo.register_carol Demo.store1)))
  = Responded (json 200 (PostDoc
      (Post.mk Demo.idQ Demo.idN "first post" "Carol"
               "//www.gravatar.com/avatar/c@x.com" [] []))).
Proof.
  apply (registered_token_publishes Demo.env Demo.register_carol Scenario.publish_as_carol
           Demo.store1 "mysecrettoken" "jwt:5e9f00000000000000000007");
    try reflexivity; discriminate.
Defined.

(** ** Reading profiles *)

Lemma profile_by_user_run env user_id req s :
  profile_by_user env user_id req s
  = (Ok (match (if is_ObjectId env user_id then find_profile user_id s else None) with
         | Some profile => OneProfile (populate s profile)
         | None => Plain (json 400 (Msg "Profile not found!"))
         end), s).
Proof.
  unfold profile_by_user, find_profile. unfold_ops.
  destruct (is_ObjectId env user_id); simpl; [| done].
  by destruct (find _ (profiles s)).
Qed.

Lemma profile_me_run env req s uid :
  authenticates env req uid ->
  profile_me env req s
  = (Ok (if is_ObjectId env uid then
           match find_profile uid s with
           | Some profile => OneProfile (populate s profile)
           | None => Plain (json 400 (Msg "There is no profile for this user!"))
           end
         else Plain (send 500 "Server Error")), s).
Proof.
  intros Hauth. unfold profile_me, find_profile. rewrite (auth_next _ _ _ Hauth).
  unfold_ops. rewrite ?req_user_id_with_user. simpl.
  destruct (is_ObjectId env uid); simpl; [| done].
  by destruct (find _ (profiles s)).
Qed.

(** X26: GET api/profile/user/:user_id, which takes no token, answers
    with the populated profile of that user when the id casts and a profile
    names it, and 400 [{ msg: 'Profile not found!' }] when the id does not
    cast or is an id in [toString()] form that no profile names.  Whatever
    the id, it answers with a profile or with that 400, never with 500, and
    never writes.  A profile it returns is one of those GET api/profile
    lists, and that list has one entry for each stored profile, in the
    stored order. *)
Theorem public_profile_found_or_400 env user_id req s :
  (forall p, is_ObjectId env user_id = true -> find_profile user_id s = Some p ->
        profile_by_user env user_id req s = (Ok (OneProfile (populate s p)), s))
  /\ (is_ObjectId env user_id = false
      \/ (is_toString_form user_id = true /\ find_profile user_id s = None) ->
      profile_by_user env user_id req s
      = (Ok (Plain (json 400 (Msg "Profile not found!"))), s))
  /\ (exists reply, profile_by_user env user_id req s = (Ok reply, s)
        /\ (reply = Plain (json 400 (Msg "Profile not found!"))
            \/ exists v, reply = OneProfile v))
  /\ (exists l, profile_all req s = (Ok (AllProfiles l), s)
        /\ Populated.profile <$> l = profiles s
        /\ forall v, profile_by_user env user_id req s = (Ok (OneProfile v), s) -> v ∈ l).
Proof.
  rewrite profile_by_user_run. split; [| split; [| split]].
  - intros p -> Hp. unfold find_profile in *. by rewrite Hp.
  - intros [-> | [_ Hno]]; [done |]. rewrite Hno. by destruct (is_ObjectId env user_id).
  - eexists. split; [reflexivity |].
    destruct (is_ObjectId env user_id); [| by left].
    destruct (find_profile user_id s); [right; by eexists | by left].
  - exists (populate s <$> profiles s). split; [done |]. split.
    + rewrite <- list_fmap_compose. apply list_fmap_id.
    + intros v Hv. destruct (is_ObjectId env user_id); [| done].
      destruct (find_profile user_id s) as [p |] eqn:Hp; [| done].
      injection Hv as <-. apply list_elem_of_fmap_2.
      unfold find_profile in Hp. by apply find_has in Hp as [? _].
Qed.

Lemma public_profile_found_or_400_witness :
  profile_by_user Demo.env Demo.idB Scenario.anonymous Demo.store1
  = (Ok (Plain (json 400 (Msg "Profile not found!"))), Demo.store1).
Proof.
  apply (proj1 (proj2 (public_profile_found_or_400 Demo.env Demo.idB Scenario.anonymous
                         Demo.store1))).
  right. split; reflexivity.
Defined.

(** X27: GET api/profile/me answers an authenticated caller with the
    same populated profile that GET api/profile/user/:user_id gives for the
    caller's id.  When the caller has no profile, [me] answers 400 with a
    message of its own; when the caller's id does not cast, [me] answers
    500 ['Server Error'], where the public route answers 400.  It never
    writes. *)
Theorem own_profile_is_public_profile env req req' s uid :
  authenticates env req uid ->
  snd (profile_me env req s) = s
  /\ (forall p, is_ObjectId env uid = true -> find_profile uid s = Some p ->
        profile_me env req s = (Ok (OneProfile (populate s p)), s)
        /\ profile_by_user env uid req' s = profile_me env req s)
  /\ (is_ObjectId env uid = true -> find_profile uid s = None ->
      profile_me env req s
      = (Ok (Plain (json 400 (Msg "There is no profile for this user!"))), s))
  /\ (is_ObjectId env uid = false ->
      profile_me env req s = (Ok (Plain (send 500 "Server Error")), s)
      /\ profile_by_user env uid req' s
         = (Ok (Plain (json 400 (Msg "Profile not found!"))), s)).
Proof.
  intros Hauth. rewrite (profile_me_run _ _ _ _ Hauth), profile_by_user_run.
  split; [done |]. split; [| split].
  - intros p -> ->. done.
  - by intros -> ->.
  - by intros ->.
Qed.

Lemma scenario_me_auth : authenticates Demo.env Scenario.me_as_A Demo.idA.
Proof.
  exists "jwt:5e9f00000000000000000a01", "mysecrettoken".
  repeat split. discriminate.
Defined.

Lemma own_profile_is_public_profile_witness :
  profile_me Demo.env Scenario.me_as_A Demo.store1
  = (Ok (OneProfile Scenario.profile1_view), Demo.store1)
  /\ profile_by_user Demo.env Demo.idA Scenario.anonymous Demo.store1
     = profile_me Demo.env Scenario.me_as_A Demo.store1.
Proof.
  apply (proj1 (proj2 (own_profile_is_public_profile Demo.env Scenario.me_as_A
                         Scenario.anonymous Demo.store1 Demo.idA scenario_me_auth))
           Demo.profile1); reflexivity.
Defined.

(** X28: what the profile routes write is what the public route then
    shows.  After the caller has added an experience, GET
    api/profile/user/:user_id for the caller's id returns the profile with
    the new entry in front, populated as before; after the caller has
    deleted the account, it answers 400 [{ msg: 'Profile not found!' }]
    (no two stored profiles share an id, respectively a user). *)
Theorem public_profile_follows_writes env req req' s uid profile :
  authenticates env req uid -> is_ObjectId env uid = true ->
  find_profile uid s = Some profile ->
  (NoDup (Profile.id <$> profiles s) ->
   Req.field req "title" <> "" -> Req.field req "company" <> "" ->
   Req.field req "from" <> "" ->
   let s' := snd (serve env ProfileAddExperience req s) in
   let profile' :=
     Profile.with_experience profile
       (Entry.mk (Req.new_oid req)
          (pick ["title"; "company"; "from"; "to"; "location"; "current"; "description"]
                (Req.body req))
        :: Profile.experience profile) in
   profile_by_user env uid req' s' = (Ok (OneProfile (populate s profile')), s'))
  /\ (NoDup (Profile.user <$> profiles s) ->
      let s' := snd (serve env ProfileDelete req s) in
      profile_by_user env uid req' s'
      = (Ok (Plain (json 400 (Msg "Profile not found!"))), s')).
Proof.
  intros Hauth Hu Hp. split.
  - intros Hnd H1 H2 H3 s' profile'. subst s'.
    rewrite (add_experience_run env req s uid profile) by done. simpl.
    rewrite profile_by_user_run, Hu. unfold find_profile in *. simpl.
    rewrite (find_update_found Profile.id _ profile profile') by
      (try done; by apply find_has in Hp as [_ ?]).
    reflexivity.
  - intros Hnd s'. subst s'. rewrite (profile_delete_run env req s uid) by done. simpl.
    rewrite profile_by_user_run, Hu. unfold find_profile. simpl.
    by rewrite find_remove_first_same.
Qed.

Lemma demo_store1_profile_users : NoDup (Profile.user <$> profiles Demo.store1).
Proof. apply NoDup_singleton. Qed.

Lemma public_profile_follows_writes_witness :
  fst (profile_by_user Demo.env Demo.idA Scenario.anonymous
         (snd (serve Demo.env ProfileAddExperience Scenario.add_experience_as_A Demo.store1)))
  = Ok (OneProfile (Populated.mk
         (Profile.with_experience Demo.profile1
            (Entry.mk Demo.idN
               [("title", "Lead"); ("company", "Acme"); ("from", "2020-01-01");
                ("current", "true")]
             :: Profile.experience Demo.profile1))
         (Some (Demo.idA, "Alice", User.avatar Demo.alice))))
  /\ fst (profile_by_user Demo.env Demo.idA Scenario.anonymous
            (snd (serve Demo.env ProfileDelete Scenario.delete_account_as_A Demo.store1)))
     = Ok (Plain (json 400 (Msg "Profile not found!"))).
Proof.
  pose proof (public_profile_follows_writes Demo.env Scenario.add_experience_as_A
                Scenario.anonymous Demo.store1 Demo.idA Demo.profile1
                scenario_add_experience_auth eq_refl eq_refl) as [Hadd _].
  pose proof (public_profile_follows_writes Demo.env Scenario.delete_account_as_A
                Scenario.anonymous Demo.store1 Demo.idA Demo.profile1
                scenario_me_auth eq_refl eq_refl) as [_ Hdel].
  split.
  - assert (H := Hadd demo_store1_profile_ids).
    cbv zeta in H. rewrite H by discriminate. reflexivity.
  - pose proof (Hdel demo_store1_profile_users) as H. cbv zeta in H. by rewrite H.
Defined.

(** ** The form that adds an education *)

Lemma form_lock_kept (events : list AddEducation.Event) (st : AddEducation.State) :
  AddEducation.toDateDisabled st = AddEducation.current (AddEducation.formData st) ->
  AddEducation.toDateDisabled (fold_left AddEducation.step events st)
  = AddEducation.current (AddEducation.formData (fold_left AddEducation.step events st)).
Proof.
  revert st. induction events as [| e events IH]; intros st Hst; simpl; [done |].
  apply IH. unfold AddEducation.step.
  destruct (AddEducation.fires st e); [| done].
  destruct e as [[] value |]; simpl; by rewrite ?Hst.
Qed.

Lemma form_lock_follows_current (events : list AddEducation.Event) :
  AddEducation.toDateDisabled (AddEducation.run events)
  = AddEducation.current (AddEducation.submitted events).
Proof. by apply form_lock_kept. Qed.

Lemma form_run_app (events more : list AddEducation.Event) :
  AddEducation.run (events ++ more)
  = fold_left AddEducation.step more (AddEducation.run events).
Proof. unfold AddEducation.run. apply fold_left_app. Qed.

Lemma form_locked_step (st : AddEducation.State) (e : AddEducation.Event) :
  AddEducation.toDateDisabled st = true -> AddEducation.is_toggle e = false ->
  AddEducation.to (AddEducation.formData (AddEducation.step st e))
  = AddEducation.to (AddEducation.formData st)
  /\ AddEducation.current (AddEducation.formData (AddEducation.step st e))
     = AddEducation.current (AddEducation.formData st)
  /\ AddEducation.toDateDisabled (AddEducation.step st e) = true.
Proof.
  intros Hst He. unfold AddEducation.step.
  destruct e as [[] value |]; simpl in *; rewrite ?Hst; simpl; done.
Qed.

Lemma form_locked_run (more : list AddEducation.Event) (st : AddEducation.State) :
  AddEducation.toDateDisabled st = true ->
  forallb (fun e => negb (AddEducation.is_toggle e)) more = true ->
  AddEducation.to (AddEducation.formData (fold_left AddEducation.step more st))
  = AddEducation.to (AddEducation.formData st)
  /\ AddEducation.current (AddEducation.formData (fold_left AddEducation.step more st))
     = AddEducation.current (AddEducation.formData st).
Proof.
  revert st. induction more as [| e more IH]; intros st Hst Hmore; simpl in *; [done |].
  apply andb_true_iff in Hmore as [He Hmore]. apply negb_true_iff in He.
  destruct (form_locked_step st e Hst He) as (Hto & Hcur & Hlock).
  destruct (IH _ Hlock Hmore) as [-> ->]. done.
Qed.

(** X29: in the form that adds an education, the [to] date is locked
    exactly when [current] is ticked, whatever the user has done to the
    form so far; and while [current] is ticked, nothing the user does short
    of unticking it changes the [to] date or [current] in the data the
    form submits. *)
Theorem to_date_locked_while_current events e :
  AddEducation.toDateDisabled (AddEducation.run events)
  = AddEducation.current (AddEducation.submitted events)
  /\ (AddEducation.current (AddEducation.submitted events) = true ->
      AddEducation.is_toggle e = false ->
      AddEducation.to (AddEducation.submitted (events ++ [e]))
      = AddEducation.to (AddEducation.submitted events)
      /\ AddEducation.current (AddEducation.submitted (events ++ [e])) = true).
Proof.
  split; [apply form_lock_follows_current |]. intros Hcur He.
  assert (Hlock : AddEducation.toDateDisabled (AddEducation.run events) = true)
    by (by rewrite form_lock_follows_current).
  unfold AddEducation.submitted in *. rewrite form_run_app. simpl.
  destruct (form_locked_step _ e Hlock He) as (Hto & Hc & Hl).
  by rewrite Hto, Hc.
Qed.

Lemma to_date_locked_while_current_witness :
  AddEducation.to (AddEducation.submitted
    [AddEducation.Change AddEducation.To "2018-06-30"; AddEducation.ToggleCurrent;
     AddEducation.Change AddEducation.To "2019-01-01"])
  = "2018-06-30".
Proof.
  apply (proj1 (proj2 (to_date_locked_while_current
           [AddEducation.Change AddEducation.To "2018-06-30"; AddEducation.ToggleCurrent]
           (AddEducation.Change AddEducation.To "2019-01-01")) eq_refl eq_refl)).
Defined.

Lemma form_type_then_tick (st : AddEducation.State) (value : string) :
  AddEducation.toDateDisabled st = false ->
  let st' :=
    AddEducation.step (AddEducation.step st (AddEducation.Change AddEducation.To value))
                      AddEducation.ToggleCurrent in
  AddEducation.to (AddEducation.formData st') = value
  /\ AddEducation.current (AddEducation.formData st')
     = negb (AddEducation.current (AddEducation.formData st))
  /\ AddEducation.toDateDisabled st' = true.
Proof. intros Hst. unfold AddEducation.step. simpl. rewrite Hst. simpl. by rewrite Hst. Qed.

(** X30: a [to] date typed while [current] is not ticked stays in the
    form data when [current] is ticked afterwards: whatever else the user
    then fills in, as long as the box is not unticked, the form submits
    that date together with [current] set. *)
Theorem to_date_survives_ticking events value more :
  AddEducation.current (AddEducation.submitted events) = false ->
  forallb (fun e => negb (AddEducation.is_toggle e)) more = true ->
  let data :=
    AddEducation.submitted
      (events ++ AddEducation.Change AddEducation.To value
              :: AddEducation.ToggleCurrent :: more) in
  AddEducation.to data = value /\ AddEducation.current data = true.
Proof.
  intros Hcur Hmore data. subst data.
  pose proof (form_lock_follows_current events) as Hlock. rewrite Hcur in Hlock.
  unfold AddEducation.submitted in *. rewrite form_run_app. simpl.
  destruct (form_type_then_tick (AddEducation.run events) value Hlock)
    as (Hto & Hc & Hl).
  destruct (form_locked_run more _ Hl Hmore) as [-> ->].
  by rewrite Hto, Hc, Hcur.
Qed.

Lemma to_date_survives_ticking_witness :
  AddEducation.to (AddEducation.submitted
    [AddEducation.Change AddEducation.School "ETH";
     AddEducation.Change AddEducation.To "2018-06-30"; AddEducation.ToggleCurrent;
     AddEducation.Change AddEducation.Degree "MSc"]) = "2018-06-30"
  /\ AddEducation.current (AddEducation.submitted
       [AddEducation.Change AddEducation.School "ETH";
        AddEducation.Change AddEducation.To "2018-06-30"; AddEducation.ToggleCurrent;
        AddEducation.Change AddEducation.Degree "MSc"]) = true.
Proof.
  apply (to_date_survives_ticking [AddEducation.Change AddEducation.School "ETH"]
           "2018-06-30" [AddEducation.Change AddEducation.Degree "MSc"]
           eq_refl eq_refl).
Defined.

(** ** A like by a caller whose account is gone *)

(** C9, counterexample: once Bob has deleted his account, his token still
    passes the middleware.  Alice's post is in a store the server has
    reached and Bob's id is not in its likes, yet his like is answered 500
    ['Server Error!'] and puts no entry in the list: [user] is [null], and
    [user.name] throws before the list is touched. *)
Lemma like_after_account_deletion_adds_nothing :
  reachable Demo.env Scenario.store_bob_gone
  /\ authenticates Demo.env Demo.like_post1_as_B Demo.idB
  /\ is_ObjectId Demo.env (Req.post_id Demo.like_post1_as_B) = true
  /\ is_ObjectId Demo.env Demo.idB = true
  /\ find_post (Req.post_id Demo.like_post1_as_B) Scenario.store_bob_gone
     = Some Scenario.post_hello
  /\ Like.user <$> Post.likes Scenario.post_hello = []
  /\ find_user Demo.idB Scenario.store_bob_gone = None
  /\ serve Demo.env PostsLike Demo.like_post1_as_B Scenario.store_bob_gone
     = (Responded (send 500 "Server Error!"), Scenario.store_bob_gone).
Proof.
  split.
  - apply reach_serve, reach_serve, reach_init. reflexivity.
  - split; [apply demo_authenticates_B |]. repeat split.
Qed.
